(** * model-describer (whitebox): error and sensitivity analysis

    Shallow embedding of [src/whitebox/base.py] (class [WhiteBoxBase]) and
    [src/whitebox/WhiteBox.py] (classes [WhiteBoxError] and
    [WhiteBoxSensitivity]).

    Conventions of the embedding.
    - A dataframe cell is a number, the float NaN, or a string.  Numbers are
      rationals: the claims verified here depend on order and on ring
      arithmetic only.
    - A dataframe is an index (row labels) and a list of named, dtype-tagged
      columns.  Row labels matter where the source aligns on them
      ([concat(..., axis=1)]).
    - Python exceptions are the [Raise] results of type [result].
    - Methods that read or write instance attributes are state transformers
      on the record [WhiteBox].
    - A call with keyword arguments binds them to the parameters the
      callee declares and raises [TypeError] for a keyword that is not
      among them ([call_kw]); the parameter lists are those of the [def]
      lines of the source.
    - An attribute that no statement of the source assigns raises
      [AttributeError] where it is read ([featuredict]).
    - A column is read by its name.  The tables of the analysis have
      pairwise distinct column names; a selection may repeat one, and a
      grouping by a repeated name is refused as pandas refuses it
      ([key_col]).
    - A categorical column declares its categories: modes and group keys
      follow their declared order. *)

From Stdlib Require Import List Bool Arith Lia String Ascii QArith Sorted SetoidList.
Import ListNotations.
Open Scope string_scope.
Open Scope list_scope.

(** ** Cells, exceptions *)

Inductive cell : Type :=
| Num (q : Q)
| NaN
| Str (s : string).

Inductive exn : Type :=
| KeyError (name : string)
| AssertionError (msg : string)
| ValueError (msg : string)
| TypeError
| IndexError
| RuntimeError (msg : string)
| ConfigError (key : string)
| ScoringError
| AttributeError
| FileNotFoundError.

Inductive result (A : Type) : Type :=
| Ok (a : A)
| Raise (e : exn).
Arguments Ok {A} a.
Arguments Raise {A} e.

Definition rbind {A B} (r : result A) (k : A -> result B) : result B :=
  match r with
  | Ok a => k a
  | Raise e => Raise e
  end.

Declare Scope result_scope.
Delimit Scope result_scope with res.
Notation "x <- r ;; k" := (rbind r (fun x => k))
  (at level 61, r at next level, right associativity) : result_scope.
Notation "' p <- r ;; k" := (rbind r (fun p => k))
  (at level 61, p pattern, r at next level, right associativity) : result_scope.

(** ** Calls with keyword arguments

    Python binds the keywords of a call to the parameters the callee
    declares before the body runs; a keyword that is not among them is a
    [TypeError]. *)
Definition accepts (params kwargs : list string) : bool :=
  forallb (fun k => existsb (String.eqb k) params) kwargs.

Definition call_kw {A} (params kwargs : list string) (body : result A)
  : result A :=
  if accepts params kwargs then body else Raise TypeError.

Definition Qltb (x y : Q) : bool := negb (Qle_bool y x).

(** Equality of cells, as Python's [==] sees it: NaN differs from
    everything, itself included. *)
Definition cell_eqb (a b : cell) : bool :=
  match a, b with
  | Num x, Num y => Qeq_bool x y
  | Str s, Str t => String.eqb s t
  | _, _ => false
  end.

(** Identity of group keys and of values counted by [mode]: like
    [cell_eqb]; NaN is never a key. *)
Definition isnan (c : cell) : bool :=
  match c with NaN => true | _ => false end.

(** Order used when pandas sorts keys: numbers by value, strings
    lexicographically, numbers before strings. *)
Definition cell_ltb (a b : cell) : bool :=
  match a, b with
  | Num x, Num y => Qltb x y
  | Num _, Str _ => true
  | Str s, Str t => String.ltb s t
  | _, _ => false
  end.

(** ** Sorting with duplicate removal

    [sorted(list(set(xs)))], pandas' sorted group keys and the sorted union
    of two indexes are all insertion into a strictly ascending list. *)

Section SortUniq.
Context {A : Type} (ltb eqb : A -> A -> bool).

Fixpoint insert_u (x : A) (l : list A) : list A :=
  match l with
  | [] => [x]
  | y :: r =>
      if eqb x y then l
      else if ltb x y then x :: l
      else y :: insert_u x r
  end.

Definition sort_u (l : list A) : list A := fold_right insert_u [] l.

Fixpoint list_eqb (a b : list A) : bool :=
  match a, b with
  | [], [] => true
  | x :: a', y :: b' => eqb x y && list_eqb a' b'
  | _, _ => false
  end.
End SortUniq.

(** ** Series and dataframes *)

(** The dtype of a column; a categorical column declares its categories
    in order. *)
Inductive dtype : Type :=
| Float
| Object
| Category (categories : list cell).

Record column : Type := mkCol { col_dtype : dtype; col_values : list cell }.

Record DataFrame (L : Type) : Type :=
  mkDF { index : list L; columns : list (string * column) }.
Arguments mkDF {L} index columns.
Arguments index {L} d.
Arguments columns {L} d.

Definition is_categorical_dtype (c : column) : bool :=
  match col_dtype c with Category _ => true | _ => false end.

Definition is_numeric_cell (c : cell) : bool :=
  match c with Str _ => false | _ => true end.

(** dtype pandas gives to freshly computed values. *)
Definition infer_dtype (vs : list cell) : dtype :=
  if forallb is_numeric_cell vs then Float else Object.

Definition new_col (vs : list cell) : column := mkCol (infer_dtype vs) vs.

Definition column_names {L} (df : DataFrame L) : list string :=
  map fst (columns df).

Definition nrows {L} (df : DataFrame L) : nat := List.length (index df).

Fixpoint lookup {V} (name : string) (l : list (string * V)) : option V :=
  match l with
  | [] => None
  | (k, v) :: r => if String.eqb k name then Some v else lookup name r
  end.

(** [df[name]] *)
Definition get_col {L} (df : DataFrame L) (name : string) : result column :=
  match lookup name (columns df) with
  | Some c => Ok c
  | None => Raise (KeyError name)
  end.

(** Assignment to a key keeps its place when the key exists and appends
    otherwise (dataframe columns and Python dicts alike). *)
Fixpoint assoc_set {V} (name : string) (v : V) (l : list (string * V))
  : list (string * V) :=
  match l with
  | [] => [(name, v)]
  | (k, w) :: r =>
      if String.eqb k name then (k, v) :: r
      else (k, w) :: assoc_set name v r
  end.

(** [df[name] = values]; the lengths must agree. *)
Definition set_col {L} (df : DataFrame L) (name : string) (vs : list cell)
  : result (DataFrame L) :=
  if Nat.eqb (List.length vs) (nrows df)
  then Ok (mkDF (index df) (assoc_set name (new_col vs) (columns df)))
  else Raise (ValueError "Length of values does not match length of index").

(** [df[name] = scalar] *)
Definition set_col_scalar {L} (df : DataFrame L) (name : string) (c : cell)
  : DataFrame L :=
  mkDF (index df)
       (assoc_set name (new_col (repeat c (nrows df))) (columns df)).

Definition mem_string (s : string) (l : list string) : bool :=
  existsb (String.eqb s) l.

(** [df.loc[:, ~df.columns.isin(names)]] *)
Definition drop_cols {L} (names : list string) (df : DataFrame L) : DataFrame L :=
  mkDF (index df)
       (filter (fun kv => negb (mem_string (fst kv) names)) (columns df)).

(** [df[[n1; n2; ...]]] *)
Fixpoint select_list (names : list string) (cols : list (string * column))
  : result (list (string * column)) :=
  match names with
  | [] => Ok []
  | n :: r =>
      match lookup n cols with
      | None => Raise (KeyError n)
      | Some c =>
          match select_list r cols with
          | Ok cs => Ok ((n, c) :: cs)
          | Raise e => Raise e
          end
      end
  end.

Definition select_cols {L} (names : list string) (df : DataFrame L)
  : result (DataFrame L) :=
  match select_list names (columns df) with
  | Ok cs => Ok (mkDF (index df) cs)
  | Raise e => Raise e
  end.

(** Boolean-mask selection of rows. *)
Fixpoint take {A} (mask : list bool) (l : list A) : list A :=
  match mask, l with
  | b :: m, x :: r => if b then x :: take m r else take m r
  | _, _ => []
  end.

Definition take_col (mask : list bool) (c : column) : column :=
  mkCol (col_dtype c) (take mask (col_values c)).

Definition take_rows {L} (mask : list bool) (df : DataFrame L) : DataFrame L :=
  mkDF (take mask (index df))
       (map (fun kv => (fst kv, take_col mask (snd kv))) (columns df)).

(** [df.reset_index(drop=True)] *)
Definition reset_index_drop {L} (df : DataFrame L) : DataFrame nat :=
  mkDF (seq 0 (nrows df)) (columns df).

(** [df.rename(columns=mapping)] *)
Definition rename_columns {L} (mapping : list (string * string))
  (df : DataFrame L) : DataFrame L :=
  mkDF (index df)
       (map (fun kv => (match lookup (fst kv) mapping with
                        | Some n => n
                        | None => fst kv
                        end, snd kv)) (columns df)).

(** [df.replace(np.nan, 'null')]: every NaN cell becomes the string. *)
Definition replace_cell (c : cell) : cell :=
  match c with NaN => Str "null" | _ => c end.

Definition replace_nan_null {L} (df : DataFrame L) : DataFrame L :=
  mkDF (index df)
       (map (fun kv => (fst kv, new_col (map replace_cell (col_values (snd kv)))))
            (columns df)).

(** ** Reductions of a series *)

Fixpoint nums (vs : list cell) : list Q :=
  match vs with
  | [] => []
  | Num q :: r => q :: nums r
  | _ :: r => nums r
  end.

Definition Qsum (l : list Q) : Q := fold_right Qplus 0%Q l.

(** [Series.mean()]: missing values are skipped; NaN when nothing is left. *)
Definition series_mean (vs : list cell) : cell :=
  match nums vs with
  | [] => NaN
  | qs => Num (Qsum qs / inject_Z (Z.of_nat (List.length qs)))
  end.

Definition cell_max (a b : cell) : cell :=
  match a, b with
  | NaN, _ => b
  | _, NaN => a
  | _, _ => if cell_ltb a b then b else a
  end.

(** [Series.max()] *)
Definition series_max (vs : list cell) : cell := fold_right cell_max NaN vs.

Definition count_eq (c : cell) (vs : list cell) : nat :=
  List.length (filter (cell_eqb c) vs).

(** [Series.mode()]: the most frequent values; missing values are not
    counted.  The modes of a categorical series come in the declared order
    of its categories, those of any other series in ascending order. *)
Definition mode_candidates (c : column) : list cell :=
  match col_dtype c with
  | Category cats => filter (fun k => existsb (cell_eqb k) (col_values c)) cats
  | _ => sort_u cell_ltb cell_eqb
               (filter (fun v => negb (isnan v)) (col_values c))
  end.

Definition series_mode (c : column) : list cell :=
  let ks := mode_candidates c in
  let m := fold_right Nat.max 0%nat (map (fun k => count_eq k (col_values c)) ks) in
  filter (fun k => Nat.eqb (count_eq k (col_values c)) m) ks.

(** Element-wise arithmetic of numeric series: NaN propagates, a string
    operand is a type error. *)
Definition cell_arith (op : Q -> Q -> Q) (a b : cell) : result cell :=
  match a, b with
  | Str _, _ | _, Str _ => Raise TypeError
  | Num x, Num y => Ok (Num (op x y))
  | _, _ => Ok NaN
  end.

Fixpoint mapM {A B} (f : A -> result B) (l : list A) : result (list B) :=
  match l with
  | [] => Ok []
  | x :: r =>
      match f x with
      | Raise e => Raise e
      | Ok y =>
          match mapM f r with
          | Raise e => Raise e
          | Ok ys => Ok (y :: ys)
          end
      end
  end.

(** [series + scalar] *)
Definition series_add_scalar (vs : list cell) (c : cell) : result (list cell) :=
  mapM (fun v => cell_arith Qplus v c) vs.

(** [a - b] for two series over the same index. *)
Fixpoint series_sub (a b : list cell) : result (list cell) :=
  match a, b with
  | [], [] => Ok []
  | x :: a', y :: b' =>
      match cell_arith Qminus x y with
      | Raise e => Raise e
      | Ok d =>
          match series_sub a' b' with
          | Raise e => Raise e
          | Ok ds => Ok (d :: ds)
          end
      end
  | _, _ => Raise (ValueError "operands could not be aligned")
  end.

(** Comparison of a numeric series with a number: NaN compares false. *)
Definition cell_test (p : Q -> bool) (c : cell) : result bool :=
  match c with
  | Num q => Ok (p q)
  | NaN => Ok false
  | Str _ => Raise TypeError
  end.

(** ** groupby / apply *)

Definition key : Type := list cell.

Definition key_eqb : key -> key -> bool := list_eqb cell_eqb.
Definition key_valid (k : key) : bool := forallb (fun c => negb (isnan c)) k.

(** The place of a value among the declared categories. *)
Fixpoint category_rank (cats : list cell) (v : cell) : nat :=
  match cats with
  | [] => 0
  | k :: r => if cell_eqb k v then 0 else S (category_rank r v)
  end.

(** The order of the values of a key column: the declared order of the
    categories for a categorical column, the order of the values
    otherwise. *)
Definition value_ltb (dt : dtype) (a b : cell) : bool :=
  match dt with
  | Category cats => Nat.ltb (category_rank cats a) (category_rank cats b)
  | _ => cell_ltb a b
  end.

(** Keys are ordered column by column. *)
Fixpoint key_ltb (dts : list dtype) (a b : key) : bool :=
  match dts, a, b with
  | dt :: dts', x :: a', y :: b' =>
      value_ltb dt x y || (cell_eqb x y && key_ltb dts' a' b')
  | _, _, _ => false
  end.

(** The key of every row, from the key columns. *)
Definition row_keys (keycols : list (list cell)) (n : nat) : list key :=
  map (fun i => map (fun c => nth i c NaN) keycols) (seq 0 n).

(** The keys that occur, each once, in sorted order; rows with a missing
    key are dropped. *)
Definition group_keys (dts : list dtype) (rk : list key) : list key :=
  sort_u (key_ltb dts) key_eqb (filter key_valid rk).

(** The column a group key names.  A name that several columns of the
    frame bear is refused, as pandas refuses it ("Grouper for ... not
    1-dimensional"). *)
Definition key_col {L} (df : DataFrame L) (n : string) : result column :=
  (c <- get_col df n ;;
   if Nat.ltb 1 (List.length (filter (String.eqb n) (column_names df)))
   then Raise (ValueError "Grouper not 1-dimensional")
   else Ok c)%res.

(** [df.groupby(names)]: one sub-frame per key that occurs, rows in their
    original order and with their original labels. *)
Definition groupby {L} (names : list string) (df : DataFrame L)
  : result (list (key * DataFrame L)) :=
  (cols <- mapM (key_col df) names ;;
   let rk := row_keys (map col_values cols) (nrows df) in
   Ok (map (fun k => (k, take_rows (map (key_eqb k) rk) df))
           (group_keys (map col_dtype cols) rk)))%res.

(** [.apply(f)]: run [f] on the groups in order; the first exception
    ends the run. *)
Fixpoint apply_groups {L R} (f : DataFrame L -> result R)
  (gs : list (key * DataFrame L)) : result (list (key * R)) :=
  match gs with
  | [] => Ok []
  | (k, g) :: r =>
      match f g with
      | Raise e => Raise e
      | Ok x =>
          match apply_groups f r with
          | Raise e => Raise e
          | Ok xs => Ok ((k, x) :: xs)
          end
      end
  end.

Definition label : Type := list cell.

Definition label_of_nat (n : nat) : label := [Num (inject_Z (Z.of_nat n))].

Definition with_labels {L} (f : L -> label) (df : DataFrame L) : DataFrame label :=
  mkDF (map f (index df)) (columns df).

(** Frames returned by [apply] are stacked; a row is labelled by its group
    key followed by its label in the group's result.  Columns are those of
    the first result; a result lacking one contributes NaN. *)
Definition stack_column (rs : list (key * DataFrame label)) (name : string)
  : list cell :=
  flat_map (fun kr =>
              match lookup name (columns (snd kr)) with
              | Some c => col_values c
              | None => repeat NaN (nrows (snd kr))
              end) rs.

Definition concat_frames (rs : list (key * DataFrame label)) : DataFrame label :=
  match rs with
  | [] => mkDF [] []
  | (_, d0) :: _ =>
      mkDF (flat_map (fun kr => map (fun l => fst kr ++ l) (index (snd kr))) rs)
           (map (fun n => (n, new_col (stack_column rs n))) (column_names d0))
  end.

(** Series returned by [apply] become the rows of one frame, labelled by
    the group key. *)
Definition concat_series (rs : list (key * list (string * cell))) : DataFrame label :=
  match rs with
  | [] => mkDF [] []
  | (_, s0) :: _ =>
      mkDF (map fst rs)
           (map (fun n => (n, new_col (map (fun kr =>
                                         match lookup n (snd kr) with
                                         | Some c => c
                                         | None => NaN
                                         end) rs)))
                (map fst s0))
  end.

(** [DataFrame({...})] from scalars and range-indexed series: the index is
    the longest series' range, scalars are broadcast, shorter series are
    padded with NaN. *)
Inductive dict_value : Type :=
| Scalar (c : cell)
| SeriesV (vs : list cell).

Definition dict_len (v : dict_value) : option nat :=
  match v with Scalar _ => None | SeriesV vs => Some (List.length vs) end.

Definition pad (n : nat) (vs : list cell) : list cell :=
  vs ++ repeat NaN (n - List.length vs).

Definition dict_column (n : nat) (v : dict_value) : column :=
  match v with
  | Scalar c => new_col (repeat c n)
  | SeriesV vs => new_col (pad n vs)
  end.

Fixpoint dict_of (entries : list (string * dict_value)) : list (string * dict_value) :=
  match entries with
  | [] => []
  | (k, v) :: r => assoc_set k v (dict_of r)
  end.

Definition frame_of_dict (entries : list (string * dict_value))
  : result (DataFrame nat) :=
  let d := dict_of (rev entries) in
  let lens := flat_map (fun kv => match dict_len (snd kv) with
                                  | Some n => [n] | None => [] end) d in
  match lens with
  | [] => Raise (ValueError "If using all scalar values, you must pass an index")
  | _ =>
      let n := fold_right Nat.max 0%nat lens in
      Ok (mkDF (seq 0 n) (map (fun kv => (fst kv, dict_column n (snd kv))) d))
  end.

(** ** Label alignment: [concat(objs, axis=1)] *)

(** Union of two integer indexes: unchanged when they are equal, sorted
    and duplicate-free otherwise. *)
Definition union_index (a b : list nat) : list nat :=
  if list_eqb Nat.eqb a b then a else sort_u Nat.ltb Nat.eqb (a ++ b).

(** Value of a labelled series at a label; NaN where the label is absent. *)
Fixpoint label_find (l : nat) (idx : list nat) (vs : list cell) : cell :=
  match idx, vs with
  | i :: idx', v :: vs' => if Nat.eqb i l then v else label_find l idx' vs'
  | _, _ => NaN
  end.

Definition reindex (idx : list nat) (vs : list cell) (new : list nat) : list cell :=
  map (fun l => label_find l idx vs) new.

Definition reindex_col (idx new : list nat) (c : column) : column :=
  mkCol (col_dtype c) (reindex idx (col_values c) new).

(** [concat([a, b], axis=1)] of two frames. *)
Definition concat_axis1 (a b : DataFrame nat) : DataFrame nat :=
  let idx := union_index (index a) (index b) in
  mkDF idx
       (map (fun kv => (fst kv, reindex_col (index a) idx (snd kv))) (columns a)
        ++ map (fun kv => (fst kv, reindex_col (index b) idx (snd kv))) (columns b)).

(** [df[name] = series]: the series is aligned on the frame's index. *)
Definition set_col_series (df : DataFrame nat) (name : string)
  (idx : list nat) (vs : list cell) : DataFrame nat :=
  mkDF (index df)
       (assoc_set name (new_col (reindex idx vs (index df))) (columns df)).

(** ** np.digitize(x, bins, right=True)

    For ascending bins numpy returns [searchsorted(bins, x, side='left')]:
    the first position whose bin is not below [x]. *)
Fixpoint searchsorted_left (bins : list Q) (x : Q) : nat :=
  match bins with
  | [] => 0
  | b :: r => if Qltb b x then S (searchsorted_left r x) else 0
  end.

Definition cell_of_nat (n : nat) : cell := Num (inject_Z (Z.of_nat n)).

Definition digitize_cell (bins : list Q) (c : cell) : result cell :=
  match c with
  | Num x => Ok (cell_of_nat (searchsorted_left bins x))
  | NaN => Ok (cell_of_nat (List.length bins))
  | Str _ => Raise TypeError
  end.

Definition digitize (vs : list cell) (bins : list Q) : result (list cell) :=
  mapM (digitize_cell bins) vs.

(** ** The analysis object *)

Inductive vartype : Type := Continuous | Categorical.

Inductive class_name : Type := WhiteBoxError | WhiteBoxSensitivity.

(** What a group is reduced to: a one-row-per-mode frame, or a series of
    column aggregates. *)
Inductive reduced : Type :=
| RFrame (d : DataFrame nat)
| RSeries (s : list (string * cell)).

(** The fitted model: its scoring function and, for a classifier, its
    class labels. *)
Record Model : Type := mkModel {
  predict : DataFrame nat -> result (list cell);
  classes_ : list string
}.

Section WhiteBox.

(** The rendered form of a per-pair result. *)
Context {Json : Type}.

(** Library functions and helpers of [whitebox.utils], which the
    analysis calls and which are not part of the two modules embedded
    here. *)
Record Env : Type := mkEnv {
  (** [Series.std()] *)
  std : list cell -> cell;
  (** [utils.percentiles.create_percentile_vecs] *)
  create_percentile_vecs : list cell -> list Q;
  (** [re.search(pattern, name)], as [DataFrame.filter(regex=...)] uses it *)
  re_search : string -> string -> bool;
  (** [utils.to_json(df, vartype, html_type, incremental_val)] *)
  to_json : DataFrame label -> vartype -> string -> option cell -> Json;
  (** [wb_utils.Settings]: the supported names and the keys of
      [verbose2log] *)
  supported_agg_errors : list string;
  supported_out_types : list string;
  verbose2log : list (option Z);
  (** [checks.CheckInputs] *)
  check_cat_df : DataFrame nat -> DataFrame nat -> result (DataFrame nat);
  check_keepfeaturelist : option (list string) -> DataFrame nat -> result (list string);
  check_modelobj : Model -> result Model;
  check_verbose : Z -> result unit;
  is_regression : Model -> (DataFrame nat -> result (list cell)) * string;
  check_agg_func : (list cell -> cell) -> result (list cell -> cell);
  (** [formatting] *)
  subset_input : DataFrame nat -> list string -> string -> result (DataFrame nat);
  autoformat_types : DataFrame nat -> result (DataFrame nat);
  flatten_json : list Json -> Json;
  fmt_to_json : DataFrame nat -> string -> Json;
  fmt_html_out : list Json -> string -> class_name -> string;
  (** [percentiles.Percentiles(...).population_percentiles()] *)
  population_percentiles : DataFrame nat -> list string -> result (Json * Json);
  (** [fmt_sklearn_preds], which attaches predictions and errors *)
  fmt_sklearn_preds : (DataFrame nat -> result (list cell)) -> Model ->
                      DataFrame nat -> DataFrame nat -> string -> string ->
                      result (DataFrame nat * DataFrame nat);
  (** [wb_utils.create_accuracy] *)
  create_accuracy : string -> DataFrame nat -> string -> string -> result (DataFrame nat);
  (** whether [open(fpath, 'w')] succeeds *)
  open_w : string -> bool
}.

Variable env : Env.

Record WhiteBox : Type := mkWhiteBox {
  called_class : class_name;
  modelobj : Model;
  predict_engine : DataFrame nat -> result (list cell);
  model_type : string;
  model_df : DataFrame nat;
  cat_df : DataFrame nat;
  keepfeaturelist : list string;
  ydepend : string;
  groupbyvars : list string;
  aggregate_func : list cell -> cell;
  error_type : string;
  std_num : Z;
  (** [self.Percentiles.percentiles] and
      [self.Percentiles.group_percentiles_out] *)
  percentiles : Json;
  group_percentiles_out : Json;
  agg_df : DataFrame nat;
  raw_df : DataFrame nat;
  (** [None] until [run] assigns the attribute. *)
  outputs : option (list Json)
}.

Definition set_cat_df (self : WhiteBox) (d : DataFrame nat) : WhiteBox :=
  mkWhiteBox (called_class self) (modelobj self) (predict_engine self)
             (model_type self) (model_df self) d (keepfeaturelist self)
             (ydepend self) (groupbyvars self) (aggregate_func self)
             (error_type self) (std_num self)
             (percentiles self) (group_percentiles_out self)
             (agg_df self) (raw_df self) (outputs self).

(** A reduction applied to a whole frame reduces every numeric column. *)
Definition aggregate_frame (agg : list cell -> cell) (df : DataFrame nat)
  : list (string * cell) :=
  flat_map (fun kv => match col_dtype (snd kv) with
                      | Float => [(fst kv, agg (col_values (snd kv)))]
                      | _ => []
                      end) (columns df).

(** *** Declared parameters

    The parameters of the [def] lines, [self] apart:
    [_transform_function(self, group, groupby, col, vartype)] in both
    classes of [WhiteBox.py], [_var_check(self, col, groupby)] in both,
    [_continuous_slice(self, group, col, groupby_var)] and
    [__init__] in [base.py]. *)
Definition transform_function_params : list string :=
  ["group"; "groupby"; "col"; "vartype"].
Definition var_check_params : list string := ["col"; "groupby"].
Definition continuous_slice_params : list string :=
  ["group"; "col"; "groupby_var"].
Definition base_init_params : list string :=
  ["modelobj"; "model_df"; "ydepend"; "cat_df"; "keepfeaturelist";
   "groupbyvars"; "aggregate_func"; "error_type"; "autoformat_types";
   "verbose"].

(** [self.featuredict]: neither file assigns the attribute. *)
Definition featuredict (self : WhiteBox) : result (list (string * string)) :=
  Raise AttributeError.

(** *** WhiteBoxError._transform_function *)

Definition split_errors (group : DataFrame nat) : result (DataFrame nat) :=
  (errors <- get_col group "errors" ;;
   pos <- mapM (cell_test (fun q => Qltb 0 q)) (col_values errors) ;;
   neg <- mapM (cell_test (fun q => Qltb q 0)) (col_values errors) ;;
   let errPos := mkDF (take pos (index group))
                      [("errPos", take_col pos errors)] in
   let errNeg := mkDF (take neg (index group))
                      [("errNeg", take_col neg errors)] in
   let errors2 := concat_axis1 errPos errNeg in
   Ok (concat_axis1 (drop_cols ["errors"] group) errors2))%res.

Definition error_transform_function (self : WhiteBox) (group : DataFrame nat)
  (groupby col : string) (vt : vartype) : result reduced :=
  if negb (mem_string "errors" (column_names group))
  then Raise (AssertionError "errors needs to be present in dataframe slice")
  else
    (toreturn <- split_errors group ;;
     match vt with
     | Categorical => Ok (RSeries (aggregate_frame (aggregate_func self) toreturn))
     | Continuous =>
         c <- get_col toreturn col ;;
         g <- get_col toreturn groupby ;;
         p <- get_col toreturn "predictedYSmooth" ;;
         ep <- get_col toreturn "errPos" ;;
         en <- get_col toreturn "errNeg" ;;
         d <- frame_of_dict
                [(col, Scalar (series_max (col_values c)));
                 (groupby, SeriesV (series_mode g));
                 ("predictedYSmooth", Scalar (series_mean (col_values p)));
                 ("errPos", Scalar (aggregate_func self (col_values ep)));
                 ("errNeg", Scalar (aggregate_func self (col_values en)))] ;;
         Ok (RFrame d)
     end)%res.

(** *** WhiteBoxSensitivity._transform_function *)

Definition sensitivity_transform_function (self : WhiteBox)
  (group : DataFrame nat) (groupby col : string) (vt : vartype)
  : result reduced :=
  if negb (mem_string "errors" (column_names group))
  then Raise (AssertionError "errors needs to be present in dataframe slice")
  else
    (c <- get_col group col ;;
     g <- get_col group groupby ;;
     d <- get_col group "diff" ;;
     let delta := Scalar (aggregate_func self (col_values d)) in
     f <- frame_of_dict
            [(col, match vt with
                   | Continuous => Scalar (series_max (col_values c))
                   | Categorical => SeriesV (series_mode c)
                   end);
             (groupby, SeriesV (series_mode g));
             ("predictedYSmooth", delta)] ;;
     Ok (RFrame f))%res.

Definition _transform_function (self : WhiteBox) :=
  match called_class self with
  | WhiteBoxError => error_transform_function self
  | WhiteBoxSensitivity => sensitivity_transform_function self
  end.

(** *** groupby(...).apply(...) as the drivers use it *)

(** A frame result keeps its rows, labelled by position; a series
    result is one row without a label of its own. *)
Definition as_frame (r : reduced) : DataFrame label :=
  match r with
  | RFrame d => with_labels label_of_nat d
  | RSeries s => mkDF [[]] (map (fun kv => (fst kv, new_col [snd kv])) s)
  end.

Definition groupby_apply {L} (names : list string)
  (f : DataFrame L -> result (DataFrame label)) (df : DataFrame L)
  : result (DataFrame label) :=
  (gs <- groupby names df ;;
   rs <- apply_groups f gs ;;
   Ok (concat_frames rs))%res.

(** [partial(self._transform_function, col=col, groupby=groupby,
    vartype='Categorical')], as [apply] calls it on a group. *)
Definition categorical_partial (self : WhiteBox) (col groupby : string)
  (group : DataFrame nat) : result (DataFrame label) :=
  (r <- call_kw transform_function_params ["col"; "groupby"; "vartype"]
          (_transform_function self group groupby col Categorical) ;;
   Ok (as_frame r))%res.

(** [self._transform_function] as [_continuous_slice] has [apply] call it,
    with the keywords [col=], [groupby_var=] and [vartype=]. *)
Definition continuous_transform (self : WhiteBox) (col groupby_var : string)
  (group : DataFrame nat) : result (DataFrame label) :=
  (r <- call_kw transform_function_params ["col"; "groupby_var"; "vartype"]
          (_transform_function self group groupby_var col Continuous) ;;
   Ok (as_frame r))%res.

(** [df.reset_index(inplace=True)] on a frame labelled by group keys:
    the key levels become leading columns. *)
Definition reset_index_keys (names : list string) (df : DataFrame label)
  : result (DataFrame label) :=
  if existsb (fun n => mem_string n (column_names df)) names
  then Raise (ValueError "cannot insert, already exists")
  else Ok (mkDF (map label_of_nat (seq 0 (nrows df)))
                (map (fun jn => (snd jn,
                                 new_col (map (fun l => nth (fst jn) l NaN) (index df))))
                     (combine (seq 0 (List.length names)) names)
                 ++ columns df)).

(** [df[name] = series] for a series over the frame's own index. *)
Definition set_col_own {L} (df : DataFrame L) (name : string) (c : column)
  : DataFrame L :=
  mkDF (index df) (assoc_set name c (columns df)).

(** *** WhiteBoxBase._continuous_slice *)

Definition fixed_bins (group_col_vals : column) (n : nat) : result column :=
  if Nat.ltb 100 n
  then
    let group_percentiles :=
      sort_u Qltb Qeq_bool (create_percentile_vecs env (col_values group_col_vals)) in
    (b <- digitize (col_values group_col_vals) group_percentiles ;;
     Ok (new_col b))%res
  else Ok group_col_vals.

Definition _continuous_slice (self : WhiteBox) (col groupby_var : string)
  (group : DataFrame nat) : result (DataFrame label) :=
  let continuous_group := reset_index_drop group in
  (group_col_vals <- get_col continuous_group col ;;
   bins <- fixed_bins group_col_vals (nrows group) ;;
   let continuous_group := set_col_own continuous_group "fixed_bins" bins in
   groupby_apply ["fixed_bins"]
                 (continuous_transform self col groupby_var)
                 continuous_group)%res.

(** [partial(self._continuous_slice, col=col, vartype=vartype,
    groupby=groupby)], as [apply] calls it on a group. *)
Definition cont_slice_partial (self : WhiteBox) (col groupby : string)
  (group : DataFrame nat) : result (DataFrame label) :=
  call_kw continuous_slice_params ["col"; "vartype"; "groupby"]
          (_continuous_slice self col groupby group).

(** *** WhiteBoxError._var_check *)

Definition error_var_check (self : WhiteBox) (col groupby : string)
  : result Json :=
  let col_indices := [col; "errors"; "predictedYSmooth"; groupby] in
  (c <- get_col (cat_df self) col ;;
   if is_categorical_dtype c then
     sub <- select_cols col_indices (cat_df self) ;;
     errors <- groupby_apply [groupby; col]
                 (categorical_partial self col groupby) sub ;;
     errors <- reset_index_keys [groupby; col] errors ;;
     let errors := rename_columns [(groupby, "groupByValue")] errors in
     fd <- featuredict self ;;
     let errors := rename_columns fd errors in
     let errors := set_col_scalar errors "groupByVarName" (Str groupby) in
     let errors := replace_nan_null errors in
     Ok (to_json env errors Categorical "error" None)
   else
     sub <- select_cols col_indices (cat_df self) ;;
     errors <- groupby_apply [groupby]
                 (cont_slice_partial self col groupby) sub ;;
     fd <- featuredict self ;;
     let errors := rename_columns fd errors in
     let errors := replace_nan_null errors in
     Ok (to_json env errors Continuous "error" None))%res.

(** *** WhiteBoxSensitivity._var_check *)

Fixpoint contains (s name : string) : bool :=
  String.prefix s name
  || match name with
     | EmptyString => false
     | String _ r => contains s r
     end.

(** [incremental_val in x] for a column name [x]. *)
Definition str_in (v : cell) (name : string) : result bool :=
  match v with
  | Str s => Ok (contains s name)
  | _ => Raise TypeError
  end.

Fixpoint filterM {A} (p : A -> result bool) (l : list A) : result (list A) :=
  match l with
  | [] => Ok []
  | x :: r =>
      match p x with
      | Raise e => Raise e
      | Ok b =>
          match filterM p r with
          | Raise e => Raise e
          | Ok ys => Ok (if b then x :: ys else ys)
          end
      end
  end.

Definition predictors (self : WhiteBox) (copydf : DataFrame nat) : DataFrame nat :=
  drop_cols [ydepend self; "predictedYSmooth"] copydf.

(** Lines 393-405: every row is forced to the modal level. *)
Definition perturb_categorical (self : WhiteBox) (col : string)
  : result (cell * DataFrame nat) :=
  let copydf := model_df self in
  let all_type_cols :=
    filter (re_search env (col ++ "_*")) (column_names copydf) in
  (c <- get_col (cat_df self) col ;;
   incremental_val <- match series_mode c with
                      | m :: _ => Ok m
                      | [] => Raise IndexError
                      end ;;
   mode_col <- filterM (str_in incremental_val) all_type_cols ;;
   let copydf := fold_left (fun d n => set_col_scalar d n (Num 1)) mode_col copydf in
   non_mode_col <- filterM (fun x => b <- str_in incremental_val x ;; Ok (negb b))
                           all_type_cols ;;
   let copydf := fold_left (fun d n => set_col_scalar d n (Num 0)) non_mode_col copydf in
   preds <- predict (modelobj self) (predictors self copydf) ;;
   copydf <- set_col copydf "new_predictions" preds ;;
   Ok (incremental_val, copydf))%res.

(** Lines 433-438: the column is shifted by [std_num] standard
    deviations. *)
Definition perturb_continuous (self : WhiteBox) (col : string)
  : result (cell * DataFrame nat) :=
  let copydf := model_df self in
  (c <- get_col copydf col ;;
   incremental_val <- cell_arith Qmult (std env (col_values c))
                                 (Num (inject_Z (std_num self))) ;;
   shifted <- series_add_scalar (col_values c) incremental_val ;;
   let copydf := set_col_own copydf col (new_col shifted) in
   preds <- predict (modelobj self) (predictors self copydf) ;;
   copydf <- set_col copydf "new_predictions" preds ;;
   Ok (incremental_val, copydf))%res.

(** [copydf['new_predictions'] - copydf['predictedYSmooth']] *)
Definition prediction_diff (copydf : DataFrame nat) : result (list cell) :=
  (new <- get_col copydf "new_predictions" ;;
   old <- get_col copydf "predictedYSmooth" ;;
   series_sub (col_values new) (col_values old))%res.

(** Everything up to the assignment of [self.cat_df['diff']]. *)
Definition sensitivity_perturb (self : WhiteBox) (col : string)
  : result (vartype * cell * DataFrame nat * list cell) :=
  (c <- get_col (cat_df self) col ;;
   if is_categorical_dtype c then
     '(incremental_val, copydf) <- perturb_categorical self col ;;
     d <- prediction_diff copydf ;;
     Ok (Categorical, incremental_val, copydf, d)
   else
     '(incremental_val, copydf) <- perturb_continuous self col ;;
     d <- prediction_diff copydf ;;
     Ok (Continuous, incremental_val, copydf, d))%res.

(** The rows handed to the groupby of the categorical branch. *)
Definition non_mode_rows (self : WhiteBox) (col : string) (incremental_val : cell)
  : result (DataFrame nat) :=
  (c <- get_col (cat_df self) col ;;
   let mode_mask := map (fun v => negb (cell_eqb v incremental_val)) (col_values c) in
   Ok (take_rows mode_mask (cat_df self)))%res.

(** Lines 409-417: the summary records of the rows that differ from the
    mode, one group per (group variable, category level). *)
Definition categorical_records (self : WhiteBox) (incremental_val : cell)
  (col groupby : string) : result (DataFrame label) :=
  let col_indices := [col; "errors"; "predictedYSmooth"; groupby; "diff"] in
  (masked <- non_mode_rows self col incremental_val ;;
   sub <- select_cols col_indices masked ;;
   groupby_apply [groupby; col] (categorical_partial self col groupby) sub)%res.

(** Everything after the assignment of [self.cat_df['diff']]. *)
Definition sensitivity_report (self : WhiteBox) (vt : vartype)
  (incremental_val : cell) (col groupby : string) : result Json :=
  let col_indices := [col; "errors"; "predictedYSmooth"; groupby; "diff"] in
  match vt with
  | Categorical =>
      (sensitivity <- categorical_records self incremental_val col groupby ;;
       let sensitivity := rename_columns [(groupby, "groupByValue")] sensitivity in
       fd <- featuredict self ;;
       let sensitivity := rename_columns fd sensitivity in
       let sensitivity := set_col_scalar sensitivity "groupByVarName" (Str groupby) in
       let sensitivity := replace_nan_null sensitivity in
       Ok (to_json env sensitivity Categorical "sensitivity" (Some incremental_val)))%res
  | Continuous =>
      (sub <- select_cols col_indices (cat_df self) ;;
       sensitivity <- groupby_apply [groupby]
                        (cont_slice_partial self col groupby) sub ;;
       fd <- featuredict self ;;
       let sensitivity := rename_columns fd sensitivity in
       let sensitivity := replace_nan_null sensitivity in
       Ok (to_json env sensitivity Continuous "sensitivity" (Some incremental_val)))%res
  end.

Definition sensitivity_var_check (self : WhiteBox) (col groupby : string)
  : result Json * WhiteBox :=
  match sensitivity_perturb self col with
  | Raise e => (Raise e, self)
  | Ok (vt, incremental_val, copydf, d) =>
      let self' :=
        set_cat_df self (set_col_series (cat_df self) "diff" (index copydf) d) in
      (sensitivity_report self' vt incremental_val col groupby, self')
  end.

Definition _var_check (self : WhiteBox) (col groupby : string)
  : result Json * WhiteBox :=
  match called_class self with
  | WhiteBoxError => (error_var_check self col groupby, self)
  | WhiteBoxSensitivity => sensitivity_var_check self col groupby
  end.

(** *** Construction

    A constructor returns the new object or raises, and leaves a trace
    of what it did with the tables handed to it. *)

Inductive event : Type :=
| Copied (table : string)
| Called (helper : string)
| Driver (col groupby : string)
| Saved (path : string).

Definition traced (A : Type) : Type := (result A * list event)%type.

Definition tbind {A B} (m : traced A) (k : A -> traced B) : traced B :=
  match fst m with
  | Ok a => (fst (k a), snd m ++ snd (k a))
  | Raise e => (Raise e, snd m)
  end.

Definition pure_step {A} (r : result A) : traced A := (r, []).
Definition call {A} (helper : string) (r : result A) : traced A :=
  (r, [Called helper]).
Definition copy {A} (table : string) (a : A) : traced A :=
  (Ok a, [Copied table]).

Declare Scope traced_scope.
Delimit Scope traced_scope with tr.
Notation "x <- r ;; k" := (tbind r (fun x => k))
  (at level 61, r at next level, right associativity) : traced_scope.
Notation "' p <- r ;; k" := (tbind r (fun p => k))
  (at level 61, p pattern, r at next level, right associativity) : traced_scope.

Record InitArgs : Type := mkInitArgs {
  a_modelobj : Model;
  a_model_df : DataFrame nat;
  a_ydepend : string;
  a_cat_df : option (DataFrame nat);
  a_keepfeaturelist : option (list string);
  a_groupbyvars : option (list string);
  a_aggregate_func : list cell -> cell;
  a_error_type : string;
  a_autoformat_types : bool;
  a_verbose : option Z
}.

Definition mem_verbose (v : option Z) (l : list (option Z)) : bool :=
  existsb (fun w => match v, w with
                    | None, None => true
                    | Some x, Some y => Z.eqb x y
                    | _, _ => false
                    end) l.

(** [WhiteBoxBase.__init__]; [cls] is the class of the object under
    construction and [std_num0] what a subclass assigned to [self.std_num]
    before the call. *)
Definition WhiteBoxBase_init (cls : class_name) (std_num0 : Z) (a : InitArgs)
  : traced WhiteBox :=
  (_ <- pure_step (if mem_verbose (a_verbose a) (verbose2log env)
                   then Ok tt else Raise (KeyError "verbose")) ;;
   if negb (mem_string (a_error_type a) (supported_agg_errors env))
   then pure_step (Raise (ConfigError "error_type"))
   else
     match a_groupbyvars a with
     | None | Some [] => pure_step (Raise (ConfigError "groupbyvars"))
     | Some gvs =>
         model_df0 <- copy "model_df" (reset_index_drop (a_model_df a)) ;;
         cat0 <- pure_step (match a_cat_df a with
                            | Some c => Ok c
                            | None => Raise AttributeError
                            end) ;;
         cat1 <- copy "cat_df" (reset_index_drop cat0) ;;
         cat2 <- call "check_cat_df" (check_cat_df env cat1 model_df0) ;;
         keep <- call "check_keepfeaturelist"
                   (check_keepfeaturelist env (a_keepfeaturelist a) cat2) ;;
         cat3 <- call "subset_input" (subset_input env cat2 keep (a_ydepend a)) ;;
         m <- call "check_modelobj" (check_modelobj env (a_modelobj a)) ;;
         _ <- match a_verbose a with
              | Some v => if Z.eqb v 0 then pure_step (Ok tt)
                          else call "check_verbose" (check_verbose env v)
              | None => pure_step (Ok tt)
              end ;;
         let '(engine, mtype) := is_regression env (a_modelobj a) in
         agg <- call "check_agg_func" (check_agg_func env (a_aggregate_func a)) ;;
         '(pcts, gpcts) <- call "population_percentiles"
                             (population_percentiles env cat3 gvs) ;;
         cat4 <- (if a_autoformat_types a
                  then call "autoformat_types" (autoformat_types env cat3)
                  else pure_step (Ok cat3)) ;;
         pure_step
           (Ok (mkWhiteBox cls m engine mtype model_df0 cat4 keep (a_ydepend a)
                           gvs agg (a_error_type a)
                           std_num0 pcts gpcts (mkDF [] []) (mkDF [] []) None))
     end)%tr.

(** Arguments of the two public constructors. *)
Record SubArgs : Type := mkSubArgs {
  s_modelobj : Model;
  s_model_df : DataFrame nat;
  s_ydepend : string;
  s_cat_df : option (DataFrame nat);
  s_featuredict : option (list (string * string));
  s_groupbyvars : option (list string);
  s_aggregate_func : list cell -> cell;
  s_verbose : option Z
}.

(** The arguments of [super().__init__(modelobj, model_df, ydepend,
    cat_df=, featuredict=, groupbyvars=, aggregate_func=, verbose=)] that
    name a parameter of the base constructor; the others keep their
    defaults. *)
Definition base_args (s : SubArgs) : InitArgs :=
  mkInitArgs (s_modelobj s) (s_model_df s) (s_ydepend s) (s_cat_df s)
             None (s_groupbyvars s) (s_aggregate_func s)
             "RMSE" false (s_verbose s).

Definition super_init (cls : class_name) (std_num0 : Z) (s : SubArgs)
  : traced WhiteBox :=
  if accepts base_init_params
             ["cat_df"; "featuredict"; "groupbyvars"; "aggregate_func"; "verbose"]
  then WhiteBoxBase_init cls std_num0 (base_args s)
  else pure_step (Raise TypeError).

(** [WhiteBoxError.__init__]; the class has no [std_num], the field is
    never read for it. *)
Definition WhiteBoxError_init (s : SubArgs) : traced WhiteBox :=
  super_init WhiteBoxError 1 s.

Definition valid_std_num (n : Z) : bool :=
  existsb (Z.eqb n) [-3; -2; -1; 1; 2; 3]%Z.

(** [WhiteBoxSensitivity.__init__] *)
Definition WhiteBoxSensitivity_init (s : SubArgs) (std_num0 : Z)
  : traced WhiteBox :=
  if negb (valid_std_num std_num0)
  then pure_step (Raise (ValueError
         "Standard deviation adjustment needs to be -3, -2, -1, 1, 2, or 3"))
  else super_init WhiteBoxSensitivity std_num0 s.

(** *** The accumulators and their accessors *)

Definition col_or_nan (df : DataFrame nat) (name : string) : list cell :=
  match lookup name (columns df) with
  | Some c => col_values c
  | None => repeat NaN (nrows df)
  end.

(** [a.append(b)]: the rows of [b] below those of [a], over the union
    of their columns. *)
Definition df_append (a b : DataFrame nat) : DataFrame nat :=
  let names :=
    column_names a
    ++ filter (fun n => negb (mem_string n (column_names a))) (column_names b) in
  mkDF (index a ++ index b)
       (map (fun n => (n, new_col (col_or_nan a n ++ col_or_nan b n))) names).

(** [df.reset_index()]: the old labels become a leading column. *)
Definition reset_index (df : DataFrame nat) : result (DataFrame nat) :=
  let name := if mem_string "index" (column_names df) then "level_0" else "index" in
  if mem_string name (column_names df)
  then Raise (ValueError "cannot insert level_0, already exists")
  else Ok (mkDF (seq 0 (nrows df))
                ((name, new_col (map cell_of_nat (index df))) :: columns df)).

Definition set_tables (self : WhiteBox) (c m : DataFrame nat) : WhiteBox :=
  mkWhiteBox (called_class self) (modelobj self) (predict_engine self)
             (model_type self) m c (keepfeaturelist self)
             (ydepend self) (groupbyvars self) (aggregate_func self)
             (error_type self) (std_num self)
             (percentiles self) (group_percentiles_out self)
             (agg_df self) (raw_df self) (outputs self).

Definition set_outputs (self : WhiteBox) (o : list Json) : WhiteBox :=
  mkWhiteBox (called_class self) (modelobj self) (predict_engine self)
             (model_type self) (model_df self) (cat_df self) (keepfeaturelist self)
             (ydepend self) (groupbyvars self) (aggregate_func self)
             (error_type self) (std_num self)
             (percentiles self) (group_percentiles_out self)
             (agg_df self) (raw_df self) (Some o).

Definition set_accumulators (self : WhiteBox) (agg raw : DataFrame nat) : WhiteBox :=
  mkWhiteBox (called_class self) (modelobj self) (predict_engine self)
             (model_type self) (model_df self) (cat_df self) (keepfeaturelist self)
             (ydepend self) (groupbyvars self) (aggregate_func self)
             (error_type self) (std_num self)
             (percentiles self) (group_percentiles_out self)
             agg raw (outputs self).

(** [WhiteBoxBase.fmt_raw_df] *)
Definition fmt_raw_df (self : WhiteBox) (col groupby_var : string)
  (cur_group : DataFrame nat) : WhiteBox :=
  let raw := reset_index_drop
               (rename_columns [(groupby_var, "groupby_level"); (col, "col_value")]
                               cur_group) in
  let raw := set_col_scalar raw "groupByVar" (Str groupby_var) in
  let raw := set_col_scalar raw "col_name" (Str col) in
  let raw := drop_cols ["fixed_bins"] raw in
  set_accumulators self (agg_df self) (df_append (raw_df self) raw).

(** [WhiteBoxBase.fmt_agg_df] *)
Definition fmt_agg_df (self : WhiteBox) (col : string)
  (agg_errors : DataFrame nat) : WhiteBox :=
  let debug_df := rename_columns [(col, "col_value")] agg_errors in
  let debug_df := set_col_scalar debug_df "col_name" (Str col) in
  set_accumulators self (df_append (agg_df self) debug_df) (raw_df self).

Definition run_first : string := ".run() must be called before returning analysis data".

(** [WhiteBoxBase.get_raw_df] *)
Definition get_raw_df (self : WhiteBox) : result (DataFrame nat) :=
  match outputs self with
  | None => Raise (RuntimeError run_first)
  | Some _ => reset_index (raw_df self)
  end.

(** [WhiteBoxBase.get_agg_df] *)
Definition get_agg_df (self : WhiteBox) : result (DataFrame nat) :=
  match outputs self with
  | None => Raise (RuntimeError run_first)
  | Some _ => reset_index (agg_df self)
  end.

(** *** WhiteBoxBase.run

    A method returns its value or raises, the object as it leaves it,
    and the trace of what it did. *)

Definition method (A : Type) : Type :=
  WhiteBox -> (result A * WhiteBox * list event)%type.

Definition mret {A} (a : A) : method A := fun self => (Ok a, self, []).

Definition mbind {A B} (m : method A) (k : A -> method B) : method B :=
  fun self =>
    match m self with
    | (Ok a, self1, t1) =>
        match k a self1 with
        | (r, self2, t2) => (r, self2, t1 ++ t2)
        end
    | (Raise e, self1, t1) => (Raise e, self1, t1)
    end.

Definition mcall {A} (helper : string) (f : WhiteBox -> result A) : method A :=
  fun self => (f self, self, [Called helper]).

Definition mlift {A} (f : WhiteBox -> result A) : method A :=
  fun self => (f self, self, []).

(** [self._var_check(col=col, groupby_var=groupby_var)], as [run]
    calls the driver of the subclass. *)
Definition drive (col groupby_var : string) : method Json :=
  fun self =>
    if accepts var_check_params ["col"; "groupby_var"]
    then match _var_check self col groupby_var with
         | (r, self1) => (r, self1, [Driver col groupby_var])
         end
    else (Raise TypeError, self, []).

Declare Scope method_scope.
Delimit Scope method_scope with me.
Notation "x <- r ;; k" := (mbind r (fun x => k))
  (at level 61, r at next level, right associativity) : method_scope.
Notation "' p <- r ;; k" := (mbind r (fun p => k))
  (at level 61, p pattern, r at next level, right associativity) : method_scope.

(** [WhiteBoxBase._save] *)
Definition _save (fpath : string) : method unit :=
  (ydepend_out <- mlift (fun self =>
      if String.eqb (model_type self) "classification"
      then match classes_ (modelobj self) with
           | _ :: c :: _ => Ok (ydepend self ++ ": " ++ c)%string
           | _ => Raise IndexError
           end
      else Ok (ydepend self)) ;;
   html_out <- mlift (fun self =>
      match outputs self with
      | Some o => Ok (fmt_html_out env o ydepend_out (called_class self))
      | None => Raise AttributeError
      end) ;;
   fun self =>
     if open_w env fpath
     then (Ok tt, self, [Saved fpath])
     else (Raise FileNotFoundError, self, []))%me.

(** The loop over [self.groupbyvars] for one column. *)
Fixpoint run_groupbyvars (col : string) (gvs : list string)
  (colhold : list Json) (insights_df : DataFrame nat)
  : method (list Json * DataFrame nat) :=
  match gvs with
  | [] => mret (colhold, insights_df)
  | groupby_var :: rest =>
      if negb (String.eqb col groupby_var)
      then (json_out <- drive col groupby_var ;;
            run_groupbyvars col rest (colhold ++ [json_out]) insights_df)%me
      else (acc <- mcall "create_accuracy" (fun self =>
                     create_accuracy env (model_type self) (cat_df self)
                                     (error_type self) groupby_var) ;;
            run_groupbyvars col rest colhold (df_append insights_df acc))%me
  end.

(** The loop over [to_iter_cols]. *)
Fixpoint run_columns (cols : list string) (placeholder : list Json)
  (insights_df : DataFrame nat) : method (list Json * DataFrame nat) :=
  match cols with
  | [] => mret (placeholder, insights_df)
  | col :: rest =>
      ('(colhold, insights_df) <-
          (fun self => run_groupbyvars col (groupbyvars self) [] insights_df self) ;;
       let placeholder :=
         match colhold with
         | [] => placeholder
         | _ => placeholder ++ [flatten_json env colhold]
         end in
       run_columns rest placeholder insights_df)%me
  end.

Definition run (output_type output_path : string)
  : method (option (DataFrame nat)) :=
  fun self =>
    if negb (mem_string output_type (supported_out_types env))
    then (Raise (ValueError "Output type not supported"), self, [])
    else
      ('(c, m) <- mcall "fmt_sklearn_preds" (fun self =>
                    fmt_sklearn_preds env (predict_engine self) (modelobj self)
                                      (model_df self) (cat_df self)
                                      (ydepend self) (model_type self)) ;;
       _ <- (fun self => (Ok tt, set_tables self c m, [])) ;;
       to_iter_cols <- mlift (fun self =>
          Ok (filter (fun n => negb (mem_string n
                                 ["errors"; "predictedYSmooth"; ydepend self]))
                     (column_names (cat_df self)))) ;;
       '(placeholder, insights_df) <- run_columns to_iter_cols [] (mkDF [] []) ;;
       _ <- (fun self =>
               let insights_json := fmt_to_json env insights_df (error_type self) in
               (Ok tt,
                set_outputs self (placeholder ++ [insights_json;
                                                  percentiles self;
                                                  group_percentiles_out self]),
                [])) ;;
       if String.eqb output_type "html"
       then (_ <- _save output_path ;; mret None)
       else if String.eqb output_type "raw_data"
       then (d <- mlift get_raw_df ;; mret (Some d))
       else if String.eqb output_type "agg_data"
       then (d <- mlift get_agg_df ;; mret (Some d))
       else mret None)%me self.

End WhiteBox.

Arguments Env Json : clear implicits.
Arguments WhiteBox Json : clear implicits.
Arguments method Json A : clear implicits.

(** ** A concrete instance

    A small environment on which the definitions compute: the rendered
    result is the frame itself with its tags, the standard deviation is
    fixed to 2, the percentile cut-points are the values themselves, and
    every table helper is the identity. *)

Module Demo.

Definition json : Type := (DataFrame label * vartype * string * option cell)%type.

Definition no_json : json := (mkDF [] [], Continuous, "", None).

Definition env : Env json :=
  {| std := fun _ => Num 2;
     create_percentile_vecs := nums;
     re_search := fun pat name =>
       contains (String.substring 0 (String.length pat - 2) pat) name;
     to_json := fun d v h i => (d, v, h, i);
     supported_agg_errors := ["MSE"; "MAE"; "RMSE"; "MED"; "MEAN"];
     supported_out_types := ["html"; "raw_data"; "agg_data"];
     verbose2log := [None; Some 0; Some 1; Some 2]%Z;
     check_cat_df := fun c _ => Ok c;
     check_keepfeaturelist := fun k c =>
       Ok (match k with Some l => l | None => column_names c end);
     check_modelobj := fun m => Ok m;
     check_verbose := fun _ => Ok tt;
     is_regression := fun m => (predict m, "regression");
     check_agg_func := fun f => Ok f;
     subset_input := fun c _ _ => Ok c;
     autoformat_types := fun c => Ok c;
     flatten_json := fun l => match l with j :: _ => j | [] => no_json end;
     fmt_to_json := fun d _ => (with_labels label_of_nat d, Continuous, "accuracy", None);
     fmt_html_out := fun _ y _ => y;
     population_percentiles := fun _ _ => Ok (no_json, no_json);
     fmt_sklearn_preds := fun _ _ m c _ _ => Ok (c, m);
     create_accuracy := fun _ _ _ _ => Ok (mkDF [] []);
     open_w := fun p => negb (String.eqb p "") |}.

Definition num (z : Z) : cell := Num (inject_Z z).
Definition fcol (l : list Z) : column := mkCol Float (map num l).
Definition ccol (cats l : list string) : column :=
  mkCol (Category (map Str cats)) (map Str l).

(** The model predicts the value of column [x]. *)
Definition model : Model :=
  {| predict := fun df => match get_col df "x" with
                          | Ok c => Ok (col_values c)
                          | Raise _ => Raise ScoringError
                          end;
     classes_ := [] |}.

Definition cat : DataFrame nat :=
  mkDF [0; 1; 2; 3]%nat
       [("x", fcol [10; 20; 30; 40]%Z);
        ("G", ccol ["a"] ["a"; "a"; "a"; "a"]);
        ("errors", fcol [2; -1; 3; 0]%Z);
        ("predictedYSmooth", fcol [1; 2; 3; 4]%Z);
        ("kind", ccol ["A"; "B"; "C"] ["A"; "A"; "B"; "C"]);
        ("y", fcol [1; 1; 1; 1]%Z)].

Definition mdf : DataFrame nat :=
  mkDF [0; 1; 2; 3]%nat
       [("x", fcol [10; 20; 30; 40]%Z);
        ("kind_A", fcol [1; 1; 0; 0]%Z);
        ("kind_B", fcol [0; 0; 1; 0]%Z);
        ("kind_C", fcol [0; 0; 0; 1]%Z);
        ("predictedYSmooth", fcol [1; 2; 3; 4]%Z);
        ("y", fcol [1; 1; 1; 1]%Z)].

Definition analysis (cls : class_name) : WhiteBox json :=
  {| called_class := cls; modelobj := model; predict_engine := predict model;
     model_type := "regression"; model_df := mdf; cat_df := cat;
     keepfeaturelist := column_names cat; ydepend := "y";
     groupbyvars := ["G"]; aggregate_func := series_mean;
     error_type := "RMSE"; std_num := 1;
     percentiles := no_json; group_percentiles_out := no_json;
     agg_df := mkDF [] []; raw_df := mkDF [] []; outputs := None |}.

Definition args : SubArgs :=
  {| s_modelobj := model; s_model_df := mdf; s_ydepend := "y";
     s_cat_df := Some cat; s_featuredict := None; s_groupbyvars := Some ["G"];
     s_aggregate_func := series_mean; s_verbose := Some 0%Z |}.

Definition init_args : InitArgs :=
  {| a_modelobj := model; a_model_df := mdf; a_ydepend := "y";
     a_cat_df := Some cat; a_keepfeaturelist := None;
     a_groupbyvars := Some ["G"]; a_aggregate_func := series_mean;
     a_error_type := "RMSE"; a_autoformat_types := false;
     a_verbose := Some 0%Z |}.

(** The object the base constructor builds from [init_args]. *)
Definition built : WhiteBox json :=
  match fst (WhiteBoxBase_init env WhiteBoxSensitivity 1 init_args) with
  | Ok s => s
  | Raise _ => analysis WhiteBoxSensitivity
  end.

(** A table whose only analysis column is its group variable. *)
Definition lonely_cat : DataFrame nat :=
  mkDF [0; 1; 2; 3]%nat
       [("G", ccol ["a"; "b"] ["a"; "a"; "b"; "b"]);
        ("errors", fcol [2; -1; 3; 0]%Z);
        ("predictedYSmooth", fcol [1; 2; 3; 4]%Z);
        ("y", fcol [1; 1; 1; 1]%Z)].

Definition lonely_args : InitArgs :=
  {| a_modelobj := model; a_model_df := mdf; a_ydepend := "y";
     a_cat_df := Some lonely_cat; a_keepfeaturelist := None;
     a_groupbyvars := Some ["G"]; a_aggregate_func := series_mean;
     a_error_type := "RMSE"; a_autoformat_types := false;
     a_verbose := Some 0%Z |}.

Definition lonely : WhiteBox json :=
  match fst (WhiteBoxBase_init env WhiteBoxError 1 lonely_args) with
  | Ok s => s
  | Raise _ => analysis WhiteBoxError
  end.

(** The object the sensitivity driver leaves on a pair. *)
Definition after (col g : string) : WhiteBox json :=
  snd (sensitivity_var_check env (analysis WhiteBoxSensitivity) col g).

(** The summary record of the whole table taken as one bucket. *)
Definition bucket_record : reduced :=
  match error_transform_function (analysis WhiteBoxError) cat "G" "x" Continuous with
  | Ok r => r
  | Raise _ => RSeries []
  end.

(** A run of [lonely] that returns the raw frame. *)
Definition run_value : option (DataFrame nat) :=
  match fst (fst (run env "raw_data" "" lonely)) with
  | Ok v => v
  | Raise _ => None
  end.

Definition run_object : WhiteBox json := snd (fst (run env "raw_data" "" lonely)).

Definition run_trace : list event := snd (run env "raw_data" "" lonely).

(** The buckets of the table for column [x], as [_continuous_slice]
    groups them. *)
Definition buckets : list (key * DataFrame nat) :=
  match groupby ["fixed_bins"]
          (set_col_own (reset_index_drop cat) "fixed_bins"
                       (fcol [10; 20; 30; 40]%Z)) with
  | Ok gs => gs
  | Raise _ => []
  end.

(** An analysis whose model refuses every table. *)
Definition refusing : WhiteBox json :=
  {| called_class := WhiteBoxSensitivity;
     modelobj := {| predict := fun _ => Raise ScoringError; classes_ := [] |};
     predict_engine := fun _ => Raise ScoringError;
     model_type := "regression"; model_df := mdf; cat_df := cat;
     keepfeaturelist := column_names cat; ydepend := "y";
     groupbyvars := ["G"]; aggregate_func := series_mean;
     error_type := "RMSE"; std_num := 1;
     percentiles := no_json; group_percentiles_out := no_json;
     agg_df := mkDF [] []; raw_df := mkDF [] []; outputs := None |}.

(** An analysis over a table whose categorical column has no value. *)
Definition hollow : WhiteBox json :=
  {| called_class := WhiteBoxSensitivity; modelobj := model;
     predict_engine := predict model;
     model_type := "regression"; model_df := mdf;
     cat_df := mkDF [0; 1]%nat
                    [("kind", mkCol (Category [Str "A"; Str "B"]) [NaN; NaN]);
                     ("G", ccol ["a"] ["a"; "a"])];
     keepfeaturelist := ["kind"; "G"]; ydepend := "y";
     groupbyvars := ["G"]; aggregate_func := series_mean;
     error_type := "RMSE"; std_num := 1;
     percentiles := no_json; group_percentiles_out := no_json;
     agg_df := mkDF [] []; raw_df := mkDF [] []; outputs := None |}.





(** An analysis over a table with a categorical column named [diff]. *)
Definition shadowed : WhiteBox json :=
  {| called_class := WhiteBoxSensitivity; modelobj := model;
     predict_engine := predict model;
     model_type := "regression"; model_df := mdf;
     cat_df := mkDF [0; 1; 2; 3]%nat
                    [("diff", ccol ["A"; "B"; "C"] ["A"; "A"; "B"; "C"]);
                     ("G", ccol ["a"] ["a"; "a"; "a"; "a"]);
                     ("errors", fcol [2; -1; 3; 0]%Z);
                     ("predictedYSmooth", fcol [1; 2; 3; 4]%Z);
                     ("y", fcol [1; 1; 1; 1]%Z)];
     keepfeaturelist := ["diff"; "G"]; ydepend := "y";
     groupbyvars := ["G"]; aggregate_func := series_mean;
     error_type := "RMSE"; std_num := 1;
     percentiles := no_json; group_percentiles_out := no_json;
     agg_df := mkDF [] []; raw_df := mkDF [] []; outputs := None |}.


(** The scored copy of the model table when [kind] is forced to its
    mode. *)
Definition forced_copy : DataFrame nat :=
  match perturb_categorical env (analysis WhiteBoxSensitivity) "kind" with
  | Ok (_, d) => d
  | Raise _ => mdf
  end.

(** The live table with the deltas of column [x], and its summary as one
    bucket. *)
Definition scored_cat : DataFrame nat := cat_df (after "x" "G").

Definition delta_record : reduced :=
  match sensitivity_transform_function (analysis WhiteBoxSensitivity)
          scored_cat "G" "x" Continuous with
  | Ok r => r
  | Raise _ => RSeries []
  end.

End Demo.

(** * Vocabulary of the statements *)

(** [P] holds of the object after the method whenever it held before. *)
Definition preserves {Json A} (P : WhiteBox Json -> Prop) (m : method Json A) : Prop :=
  forall self r self' t, m self = (r, self', t) -> P self -> P self'.

(** The accumulators and the [outputs] attribute of an object. *)
Definition results_of {Json} (self : WhiteBox Json) :=
  (agg_df self, raw_df self, outputs self).

(** The two accumulators. *)
Definition accumulators {Json} (self : WhiteBox Json) :=
  (agg_df self, raw_df self).

(** A frame without rows or columns, [pd.DataFrame()]. *)
Definition empty_frame : DataFrame nat := mkDF [] [].

(** The attribute [outputs] exists on the object. *)
Definition has_outputs {Json} (s : WhiteBox Json) : Prop := outputs s <> None.

(** The columns [run] iterates over. *)
Definition to_iter_cols {Json} (self : WhiteBox Json) : list string :=
  filter (fun n => negb (mem_string n ["errors"; "predictedYSmooth"; ydepend self]))
         (column_names (cat_df self)).

(** A call of [run] gets as far as the assignment of [self.outputs]: the
    output type is supported, the scoring helper returns, and the loop
    over the pairs of a column and a group variable ends without an
    exception. *)
Definition reaches_outputs {Json} (env : Env Json) (ot : string)
  (self : WhiteBox Json) : Prop :=
  mem_string ot (supported_out_types env) = true /\
  exists c m x s t,
    fmt_sklearn_preds env (predict_engine self) (modelobj self)
                      (model_df self) (cat_df self) (ydepend self)
                      (model_type self) = Ok (c, m) /\
    run_columns env (to_iter_cols (set_tables self c m)) [] (mkDF [] [])
                (set_tables self c m) = (Ok x, s, t).

(** Every row of [shifted] is the row of [orig] plus [iv]. *)
Definition shifted_by (iv : cell) (orig shifted : list cell) : Prop :=
  Forall2 (fun v s => cell_arith Qplus v iv = Ok s) orig shifted.


(** The bucket [np.digitize] gives a cell: a missing value falls behind
    the last cut-point. *)
Definition bucket_id (bins : list Q) (c : cell) : cell :=
  match c with
  | Num q => cell_of_nat (searchsorted_left bins q)
  | _ => cell_of_nat (List.length bins)
  end.

(** A series with NaN outside a mask. *)
Definition keep_or_nan (mask : list bool) (vs : list cell) : list cell :=
  map (fun bv : bool * cell => if fst bv then snd bv else NaN) (combine mask vs).

Definition is_positive (c : cell) : bool :=
  match c with Num q => Qltb 0 q | _ => false end.

Definition is_negative (c : cell) : bool :=
  match c with Num q => Qltb q 0 | _ => false end.


(** A field of a summary record, one value per row of the record. *)
Definition record_field (r : reduced) (name : string) : option (list cell) :=
  match r with
  | RFrame d => option_map col_values (lookup name (columns d))
  | RSeries s => option_map (fun c => [c]) (lookup name s)
  end.


(** What [run] does for one (column, group variable) pair. *)
Definition pair_event (col g : string) : event :=
  if String.eqb col g then Called "create_accuracy" else Driver col g.

(** The pairs in the order [run] visits them. *)
Definition pair_events (cols gvs : list string) : list event :=
  flat_map (fun col => map (pair_event col) gvs) cols.

(** A column has a group variable other than itself. *)
Definition has_pair (gvs : list string) (col : string) : bool :=
  existsb (fun g => negb (String.eqb col g)) gvs.

(** Every column of a frame has one value per row. *)
Definition well_formed {L} (df : DataFrame L) : Prop :=
  Forall (fun kv => List.length (col_values (snd kv)) = nrows df) (columns df).


(** * Properties *)

(** ** Order on the rationals, as booleans *)

Lemma Qltb_lt x y : Qltb x y = true <-> (x < y)%Q.
Proof.
  unfold Qltb. rewrite negb_true_iff. split; intros H.
  - apply Qnot_le_lt. intros Hle. apply Qle_bool_iff in Hle. congruence.
  - destruct (Qle_bool y x) eqn:E; [|reflexivity].
    apply Qle_bool_iff in E. exfalso. exact (Qlt_not_le _ _ H E).
Qed.

Lemma Qltb_ge x y : Qltb x y = false <-> (y <= x)%Q.
Proof.
  unfold Qltb. rewrite negb_false_iff. apply Qle_bool_iff.
Qed.

(** ** What a method leaves untouched *)

Section Preservation.
Context {Json : Type} (env : Env Json).

Lemma preserves_mret {A} (P : WhiteBox Json -> Prop) (a : A) : preserves P (mret a).
Proof. intros self r self' t H HP. inversion H; subst; exact HP. Qed.

Lemma preserves_mlift {A} (P : WhiteBox Json -> Prop) (f : WhiteBox Json -> result A) : preserves P (mlift f).
Proof. intros self r self' t H HP. inversion H; subst; exact HP. Qed.

Lemma preserves_mcall {A} (P : WhiteBox Json -> Prop) h (f : WhiteBox Json -> result A) : preserves P (mcall h f).
Proof. intros self r self' t H HP. inversion H; subst; exact HP. Qed.

Lemma preserves_mbind {A B} (P : WhiteBox Json -> Prop) (m : method Json A) (k : A -> method Json B) :
  preserves P m -> (forall a, preserves P (k a)) -> preserves P (mbind m k).
Proof.
  intros Hm Hk self r self' t H HP. unfold mbind in H.
  destruct (m self) as [[ra s1] t1] eqn:Em.
  pose proof (Hm _ _ _ _ Em HP) as HP1.
  destruct ra as [a|e].
  - destruct (k a s1) as [[rb s2] t2] eqn:Ek.
    inversion H; subst. exact (Hk _ _ _ _ _ Ek HP1).
  - inversion H; subst. exact HP1.
Qed.

(** [run] names the group variable [groupby_var=]; both drivers call it
    [groupby]: the call raises before the driver is entered. *)
Lemma drive_raises col g (self : WhiteBox Json) :
  drive env col g self = (Raise TypeError, self, []).
Proof. reflexivity. Qed.

Lemma preserves_drive (P : WhiteBox Json -> Prop) col g :
  preserves P (drive env col g).
Proof.
  intros self r self' t H HP. rewrite drive_raises in H.
  inversion H; subst. exact HP.
Qed.

Lemma preserves_run_groupbyvars R col gvs : forall colhold ins,
  preserves (fun s => results_of s = R) (run_groupbyvars env col gvs colhold ins).
Proof.
  induction gvs as [|g rest IH]; intros colhold ins; simpl.
  - apply preserves_mret.
  - destruct (negb (col =? g)%string).
    + apply preserves_mbind; [apply preserves_drive | intros a; apply IH].
    + apply preserves_mbind; [apply preserves_mcall | intros a; apply IH].
Qed.

Lemma preserves_run_columns R cols : forall ph ins,
  preserves (fun s => results_of s = R) (run_columns env cols ph ins).
Proof.
  induction cols as [|c rest IH]; intros ph ins; simpl.
  - apply preserves_mret.
  - apply preserves_mbind.
    + intros self r self' t H HP.
      exact (preserves_run_groupbyvars R c _ _ _ _ _ _ _ H HP).
    + intros [colhold ins']. apply IH.
Qed.

Lemma preserves_save (P : WhiteBox Json -> Prop) fpath : preserves P (_save env fpath).
Proof.
  unfold _save. apply preserves_mbind; [apply preserves_mlift|intros y].
  apply preserves_mbind; [apply preserves_mlift|intros h].
  intros self r self' t H HP. destruct (open_w env fpath); inversion H; subst; exact HP.
Qed.

End Preservation.

(** ** The run and its accessors *)

Section Run.
Context {Json : Type} (env : Env Json).

Lemma results_accumulators (s s' : WhiteBox Json) :
  results_of s' = results_of s -> accumulators s' = accumulators s.
Proof. unfold results_of, accumulators. intros H. inversion H. reflexivity. Qed.

Lemma preserves_weaken {A} (m : method Json A) :
  (forall R, preserves (fun s => results_of s = R) m) ->
  forall X, preserves (fun s => accumulators s = X) m.
Proof.
  intros H X self r self' t Hm HP.
  pose proof (H (results_of self) _ _ _ _ Hm eq_refl) as E.
  apply results_accumulators in E. congruence.
Qed.

(** No step of [run] writes [agg_df] or [raw_df]. *)
Lemma run_accumulators ot path (self self' : WhiteBox Json) r t :
  run env ot path self = (r, self', t) ->
  accumulators self' = accumulators self.
Proof.
  intros H.
  assert (P : preserves (fun s => accumulators s = accumulators self)
                        (run env ot path)).
  { unfold run. intros s0 r0 s0' t0 H0 HP0.
    destruct (negb (mem_string ot (supported_out_types env))).
    - inversion H0; subst. exact HP0.
    - revert s0 r0 s0' t0 H0 HP0.
      apply preserves_mbind; [apply preserves_mcall|]. intros [c m].
      apply preserves_mbind.
      { intros s1 r1 s1' t1 H1 HP1. inversion H1; subst. exact HP1. }
      intros _. apply preserves_mbind; [apply preserves_mlift|]. intros cols.
      apply preserves_mbind.
      { apply preserves_weaken. intros R. apply preserves_run_columns. }
      intros [ph ins]. apply preserves_mbind.
      { intros s1 r1 s1' t1 H1 HP1. inversion H1; subst. exact HP1. }
      intros _.
      destruct (ot =? "html")%string.
      { apply preserves_mbind; [apply preserves_save|intros; apply preserves_mret]. }
      destruct (ot =? "raw_data")%string.
      { apply preserves_mbind; [apply preserves_mlift|intros; apply preserves_mret]. }
      destruct (ot =? "agg_data")%string.
      { apply preserves_mbind; [apply preserves_mlift|intros; apply preserves_mret]. }
      apply preserves_mret. }
  exact (P _ _ _ _ H eq_refl).
Qed.

Lemma mbind_ok {A B} (m : method Json A) (k : A -> method Json B) self b self' t :
  mbind m k self = (Ok b, self', t) ->
  exists a s1 t1 t2, m self = (Ok a, s1, t1) /\ k a s1 = (Ok b, self', t2).
Proof.
  unfold mbind. destruct (m self) as [[[a|e] s1] t1]; [|discriminate].
  destruct (k a s1) as [[rb s2] t2] eqn:Ek. intros H. inversion H; subst.
  exists a, s1, t1, t2. split; [reflexivity|exact Ek].
Qed.

(** A run that returns has assigned [self.outputs]. *)
Lemma run_ok_outputs ot path (self self' : WhiteBox Json) v t :
  run env ot path self = (Ok v, self', t) -> has_outputs self'.
Proof.
  unfold run. destruct (negb (mem_string ot (supported_out_types env))); [discriminate|].
  intros H.
  apply mbind_ok in H. destruct H as ([c m] & s1 & t1 & t2 & _ & H).
  apply mbind_ok in H. destruct H as (u1 & s2 & t3 & t4 & _ & H).
  apply mbind_ok in H. destruct H as (cols & s3 & t5 & t6 & _ & H).
  apply mbind_ok in H. destruct H as ([ph ins] & s4 & t7 & t8 & _ & H).
  apply mbind_ok in H. destruct H as (u2 & s5 & t9 & t10 & Hset & H).
  inversion Hset; subst s5.
  assert (P : preserves has_outputs
    (if (ot =? "html")%string then mbind (_save env path) (fun _ => mret None)
     else if (ot =? "raw_data")%string
          then mbind (mlift (get_raw_df (Json:=Json))) (fun d => mret (Some d))
          else if (ot =? "agg_data")%string
               then mbind (mlift (get_agg_df (Json:=Json))) (fun d => mret (Some d))
               else mret None)).
  { destruct (ot =? "html")%string.
    { apply preserves_mbind; [apply preserves_save|intros; apply preserves_mret]. }
    destruct (ot =? "raw_data")%string.
    { apply preserves_mbind; [apply preserves_mlift|intros; apply preserves_mret]. }
    destruct (ot =? "agg_data")%string.
    { apply preserves_mbind; [apply preserves_mlift|intros; apply preserves_mret]. }
    apply preserves_mret. }
  apply (P _ _ _ _ H). unfold has_outputs. simpl. discriminate.
Qed.

(** The last step of [run], after the assignment of [self.outputs]. *)
Lemma run_epilogue_preserves (P : WhiteBox Json -> Prop) ot path :
  preserves P
    (if (ot =? "html")%string then mbind (_save env path) (fun _ => mret None)
     else if (ot =? "raw_data")%string
          then mbind (mlift (get_raw_df (Json:=Json))) (fun d => mret (Some d))
          else if (ot =? "agg_data")%string
               then mbind (mlift (get_agg_df (Json:=Json))) (fun d => mret (Some d))
               else mret None).
Proof.
  destruct (ot =? "html")%string.
  { apply preserves_mbind; [apply preserves_save|intros; apply preserves_mret]. }
  destruct (ot =? "raw_data")%string.
  { apply preserves_mbind; [apply preserves_mlift|intros; apply preserves_mret]. }
  destruct (ot =? "agg_data")%string.
  { apply preserves_mbind; [apply preserves_mlift|intros; apply preserves_mret]. }
  apply preserves_mret.
Qed.

(** [self.outputs] exists after a call of [run] exactly when the call got
    through the loop over the pairs, whatever happened afterwards. *)
Lemma run_reaches ot path (self self' : WhiteBox Json) r t :
  outputs self = None ->
  run env ot path self = (r, self', t) ->
  (has_outputs self' <-> reaches_outputs env ot self).
Proof.
  intros Hnone H. unfold run in H. unfold reaches_outputs.
  destruct (mem_string ot (supported_out_types env)) eqn:Eot; simpl in H.
  2:{ inversion H; subst. unfold has_outputs. rewrite Hnone.
      split; [congruence|intros [E _]; discriminate]. }
  unfold mbind at 1 in H. unfold mcall at 1 in H.
  destruct (fmt_sklearn_preds env (predict_engine self) (modelobj self)
              (model_df self) (cat_df self) (ydepend self) (model_type self))
    as [[c m]|e] eqn:Ef.
  2:{ inversion H; subst. unfold has_outputs. rewrite Hnone.
      split; [congruence|intros (_ & c & m & x & s & t0 & E & _); discriminate]. }
  unfold mbind at 1 in H. unfold mbind at 1 in H. unfold mlift at 1 in H.
  unfold mbind at 1 in H.
  change (filter _ (column_names (cat_df (set_tables self c m))))
    with (to_iter_cols (set_tables self c m)) in H.
  destruct (run_columns env (to_iter_cols (set_tables self c m)) [] (mkDF [] [])
              (set_tables self c m)) as [[[[ph ins]|e] s4] t4] eqn:Erc.
  - unfold mbind at 1 in H.
    match type of H with
    | context [?f (set_outputs s4 ?o)] =>
        destruct (f (set_outputs s4 o)) as [[r5 s5] t5] eqn:Eend
    end.
    inversion H; subst. split.
    + intros _. split; [reflexivity|].
      exists c, m, (ph, ins), s4, t4. split; [reflexivity|exact Erc].
    + intros _.
      apply (run_epilogue_preserves has_outputs ot path _ _ _ _ Eend).
      unfold has_outputs. simpl. discriminate.
  - inversion H; subst.
    pose proof (preserves_run_columns env (results_of (set_tables self c m))
                  _ _ _ _ _ _ _ Erc eq_refl) as Hres.
    unfold results_of in Hres. simpl in Hres.
    assert (Ho : outputs self' = None) by (inversion Hres; congruence).
    unfold has_outputs. rewrite Ho.
    split; [congruence|].
    intros (_ & c' & m' & x & s & t0 & E & Erc').
    inversion E; subst c' m'. rewrite Erc in Erc'. discriminate.
Qed.

End Run.

(** ** Construction *)

Section Construction.
Context {Json : Type} (env : Env Json).

Lemma tbind_ok {A B} (m : traced A) (k : A -> traced B) b :
  fst (tbind m k) = Ok b -> exists a, fst m = Ok a /\ fst (k a) = Ok b.
Proof.
  unfold tbind. destruct m as [[a|e] t]; simpl; [|discriminate].
  intros H. exists a. split; [reflexivity|exact H].
Qed.

Lemma tbind_pure {A B} (a : A) (k : A -> traced B) :
  tbind (pure_step (Ok a)) k = k a.
Proof. unfold tbind, pure_step. simpl. destruct (k a); reflexivity. Qed.

(** A freshly built object has empty accumulators and no [outputs]. *)
Lemma init_fresh cls n a (self : WhiteBox Json) :
  fst (WhiteBoxBase_init env cls n a) = Ok self ->
  accumulators self = (empty_frame, empty_frame) /\ outputs self = None.
Proof.
  unfold WhiteBoxBase_init. intros H.
  apply tbind_ok in H. destruct H as (u & _ & H).
  destruct (negb (mem_string (a_error_type a) (supported_agg_errors env)));
    [discriminate|].
  destruct (a_groupbyvars a) as [[|g gvs]|]; try discriminate.
  apply tbind_ok in H. destruct H as (m0 & _ & H).
  apply tbind_ok in H. destruct H as (c0 & _ & H).
  apply tbind_ok in H. destruct H as (c1 & _ & H).
  apply tbind_ok in H. destruct H as (c2 & _ & H).
  apply tbind_ok in H. destruct H as (keep & _ & H).
  apply tbind_ok in H. destruct H as (c3 & _ & H).
  apply tbind_ok in H. destruct H as (m & _ & H).
  apply tbind_ok in H. destruct H as (u' & _ & H).
  destruct (is_regression env (a_modelobj a)) as [engine mtype].
  apply tbind_ok in H. destruct H as (agg & _ & H).
  apply tbind_ok in H. destruct H as ([pcts gpcts] & _ & H).
  apply tbind_ok in H. destruct H as (c4 & _ & H).
  simpl in H. inversion H; subst. split; reflexivity.
Qed.

(** C7. Every configuration error is raised before any table is copied,
    scored or processed: an unsupported error-metric name and missing group
    variables make the base constructor raise with an empty trace; a
    [std_num] outside -3, -2, -1, 1, 2, 3 makes the sensitivity constructor
    raise with an empty trace, before the base constructor is entered; an
    unsupported output type makes [run] raise [ValueError] at its entry,
    with an empty trace and the object unchanged. *)
Theorem config_errors_eager :
  (forall s n,
      valid_std_num n = false ->
      exists msg, WhiteBoxSensitivity_init env s n = (Raise (ValueError msg), [])) /\
  (forall cls n a,
      mem_string (a_error_type a) (supported_agg_errors env) = false ->
      exists e, WhiteBoxBase_init env cls n a = (Raise e, [])) /\
  (forall cls n a,
      a_groupbyvars a = None \/ a_groupbyvars a = Some [] ->
      exists e, WhiteBoxBase_init env cls n a = (Raise e, [])) /\
  (forall (self : WhiteBox Json) ot path,
      mem_string ot (supported_out_types env) = false ->
      exists msg, run env ot path self = (Raise (ValueError msg), self, [])).
Proof.
  repeat split.
  - intros s n H. unfold WhiteBoxSensitivity_init. rewrite H. simpl.
    eexists. reflexivity.
  - intros cls n a H. unfold WhiteBoxBase_init.
    destruct (mem_verbose (a_verbose a) (verbose2log env)).
    + rewrite tbind_pure, H. simpl. eexists. reflexivity.
    + eexists. reflexivity.
  - intros cls n a H. unfold WhiteBoxBase_init.
    destruct (mem_verbose (a_verbose a) (verbose2log env)).
    + rewrite tbind_pure.
      destruct (negb (mem_string (a_error_type a) (supported_agg_errors env)));
        [eexists; reflexivity|].
      destruct H as [H|H]; rewrite H; eexists; reflexivity.
    + eexists. reflexivity.
  - intros self ot path H. unfold run. rewrite H. simpl. eexists. reflexivity.
Qed.

End Construction.

(** [std_num = 5] is rejected before any table is touched. *)
Lemma config_errors_eager_witness :
  exists msg,
    WhiteBoxSensitivity_init Demo.env Demo.args 5 = (Raise (ValueError msg), []).
Proof.
  apply (proj1 (config_errors_eager Demo.env)). reflexivity.
Defined.

(** ** The accessors [get_raw_df] and [get_agg_df] *)

Section Accessors.
Context {Json : Type} (env : Env Json).

Lemma reset_index_empty :
  reset_index empty_frame = Ok (mkDF [] [("index", new_col [])]).
Proof. reflexivity. Qed.

Lemma accessors_raise (self : WhiteBox Json) :
  outputs self = None ->
  get_raw_df self = Raise (RuntimeError run_first) /\
  get_agg_df self = Raise (RuntimeError run_first).
Proof. unfold get_raw_df, get_agg_df. intros ->. split; reflexivity. Qed.

Lemma accessors_return (self : WhiteBox Json) :
  accumulators self = (empty_frame, empty_frame) ->
  has_outputs self ->
  get_raw_df self = Ok (mkDF [] [("index", new_col [])]) /\
  get_agg_df self = Ok (mkDF [] [("index", new_col [])]).
Proof.
  unfold accumulators, has_outputs, get_raw_df, get_agg_df. intros Ha Ho.
  pose proof (f_equal fst Ha) as Hagg. pose proof (f_equal snd Ha) as Hraw.
  simpl in Hagg, Hraw. rewrite Hagg, Hraw.
  destruct (outputs self); [|congruence]. split; apply reset_index_empty.
Qed.

(** C9, as the code has it.  On an object fresh from its constructor both
    accessors raise [RuntimeError].  After a call of [run], returned or
    raised, [self.outputs] exists exactly when the call got through the loop
    over the pairs of a column and a group variable (supported output type,
    scoring helper returned, no exception in the loop), whatever happened
    after the assignment; without [outputs] both accessors still raise
    [RuntimeError] and the call has raised; with it both return a
    dataframe. *)
Theorem accessors_gated_by_outputs cls n a (self : WhiteBox Json) :
  fst (WhiteBoxBase_init env cls n a) = Ok self ->
  (get_raw_df self = Raise (RuntimeError run_first) /\
   get_agg_df self = Raise (RuntimeError run_first)) /\
  forall ot path r self' t,
    run env ot path self = (r, self', t) ->
    (has_outputs self' <-> reaches_outputs env ot self) /\
    (outputs self' = None ->
     get_raw_df self' = Raise (RuntimeError run_first) /\
     get_agg_df self' = Raise (RuntimeError run_first) /\
     exists e, r = Raise e) /\
    (has_outputs self' ->
     exists d1 d2, get_raw_df self' = Ok d1 /\ get_agg_df self' = Ok d2) /\
    (forall v, r = Ok v -> has_outputs self').
Proof.
  intros Hinit. destruct (init_fresh env _ _ _ _ Hinit) as [Hacc Hout].
  split; [exact (accessors_raise self Hout)|].
  intros ot path r self' t Hrun.
  pose proof (run_accumulators env _ _ _ _ _ _ Hrun) as Hacc'.
  rewrite Hacc in Hacc'.
  split; [exact (run_reaches env _ _ _ _ _ _ Hout Hrun)|].
  split; [|split].
  - intros Ho. destruct (accessors_raise self' Ho) as [H1 H2].
    split; [exact H1|]. split; [exact H2|].
    destruct r as [v|e]; [|exists e; reflexivity].
    exfalso. exact (run_ok_outputs env _ _ _ _ _ _ Hrun Ho).
  - intros Ho. destruct (accessors_return self' Hacc' Ho) as [H1 H2].
    eexists. eexists. split; [exact H1|exact H2].
  - intros v ->. exact (run_ok_outputs env _ _ _ _ _ _ Hrun).
Qed.

(** C10. The accumulators are empty after construction, no call of [run]
    changes them, whether it returns or raises, and after a run that
    returns both accessors return a frame without rows. *)
Theorem accumulators_stay_empty cls n a (self : WhiteBox Json) :
  fst (WhiteBoxBase_init env cls n a) = Ok self ->
  accumulators self = (empty_frame, empty_frame) /\
  forall ot path r self' t,
    run env ot path self = (r, self', t) ->
    agg_df self' = empty_frame /\ raw_df self' = empty_frame /\
    (forall v, r = Ok v ->
       exists d1 d2,
         get_raw_df self' = Ok d1 /\ nrows d1 = 0%nat /\
         get_agg_df self' = Ok d2 /\ nrows d2 = 0%nat).
Proof.
  intros Hinit. destruct (init_fresh env _ _ _ _ Hinit) as [Hacc Hout].
  split; [exact Hacc|].
  intros ot path r self' t Hrun.
  pose proof (run_accumulators env _ _ _ _ _ _ Hrun) as Hacc'.
  rewrite Hacc in Hacc'.
  pose proof (f_equal fst Hacc') as Hagg. pose proof (f_equal snd Hacc') as Hraw.
  simpl in Hagg, Hraw.
  split; [exact Hagg|]. split; [exact Hraw|].
  intros v ->.
  pose proof (run_ok_outputs env _ _ _ _ _ _ Hrun) as Ho.
  destruct (accessors_return self' Hacc' Ho) as [H1 H2].
  eexists. eexists. repeat split; [exact H1|reflexivity|exact H2|reflexivity].
Qed.

End Accessors.

Lemma demo_built :
  fst (WhiteBoxBase_init Demo.env WhiteBoxSensitivity 1 Demo.init_args)
  = Ok Demo.built.
Proof. reflexivity. Qed.

Lemma demo_lonely :
  fst (WhiteBoxBase_init Demo.env WhiteBoxError 1 Demo.lonely_args)
  = Ok Demo.lonely.
Proof. reflexivity. Qed.

(** The only analysis column of [Demo.lonely] is its group variable, so
    the loop of [run] never calls the driver and [self.outputs] is
    assigned.  With the default arguments of [run], that is
    [output_type='html'] and [output_path=''], the report cannot be
    written: [run] raises after the assignment, and [get_raw_df] and
    [get_agg_df] return a dataframe although no run has completed. *)
Lemma accessors_succeed_after_failed_run :
  to_iter_cols Demo.lonely = ["G"] /\
  groupbyvars Demo.lonely = ["G"] /\
  fst (fst (run Demo.env "html" "" Demo.lonely)) = Raise FileNotFoundError /\
  get_raw_df (snd (fst (run Demo.env "html" "" Demo.lonely)))
  = Ok (mkDF [] [("index", new_col [])]) /\
  get_agg_df (snd (fst (run Demo.env "html" "" Demo.lonely)))
  = Ok (mkDF [] [("index", new_col [])]).
Proof. vm_compute. repeat split; reflexivity. Qed.

Lemma accessors_gated_by_outputs_witness :
  (get_raw_df Demo.lonely = Raise (RuntimeError run_first) /\
   get_agg_df Demo.lonely = Raise (RuntimeError run_first)) /\
  forall ot path r self' t,
    run Demo.env ot path Demo.lonely = (r, self', t) ->
    (has_outputs self' <-> reaches_outputs Demo.env ot Demo.lonely) /\
    (outputs self' = None ->
     get_raw_df self' = Raise (RuntimeError run_first) /\
     get_agg_df self' = Raise (RuntimeError run_first) /\
     exists e, r = Raise e) /\
    (has_outputs self' ->
     exists d1 d2, get_raw_df self' = Ok d1 /\ get_agg_df self' = Ok d2) /\
    (forall v, r = Ok v -> has_outputs self').
Proof.
  exact (accessors_gated_by_outputs Demo.env WhiteBoxError 1
           Demo.lonely_args Demo.lonely demo_lonely).
Defined.

Lemma accumulators_stay_empty_witness :
  accumulators Demo.lonely = (empty_frame, empty_frame) /\
  forall ot path r self' t,
    run Demo.env ot path Demo.lonely = (r, self', t) ->
    agg_df self' = empty_frame /\ raw_df self' = empty_frame /\
    (forall v, r = Ok v ->
       exists d1 d2,
         get_raw_df self' = Ok d1 /\ nrows d1 = 0%nat /\
         get_agg_df self' = Ok d2 /\ nrows d2 = 0%nat).
Proof.
  exact (accumulators_stay_empty Demo.env WhiteBoxError 1
           Demo.lonely_args Demo.lonely demo_lonely).
Defined.

(** ** Association lists *)

Section Assoc.
Context {V : Type}.

Lemma lookup_assoc_set_eq name (v : V) l :
  lookup name (assoc_set name v l) = Some v.
Proof.
  induction l as [|[k w] r IH]; simpl.
  - rewrite String.eqb_refl. reflexivity.
  - destruct (String.eqb k name) eqn:E; simpl; rewrite E; [reflexivity|exact IH].
Qed.

Lemma lookup_assoc_set_ne name other (v : V) l :
  other <> name -> lookup other (assoc_set name v l) = lookup other l.
Proof.
  intros Hne. induction l as [|[k w] r IH]; simpl.
  - destruct (String.eqb name other) eqn:E; [|reflexivity].
    apply String.eqb_eq in E. congruence.
  - destruct (String.eqb k name) eqn:E; simpl.
    + apply String.eqb_eq in E. subst k.
      destruct (String.eqb name other) eqn:E'; [|reflexivity].
      apply String.eqb_eq in E'. congruence.
    + rewrite IH. reflexivity.
Qed.

Lemma assoc_set_twice name (v w : V) l :
  assoc_set name v (assoc_set name w l) = assoc_set name v l.
Proof.
  induction l as [|[k x] r IH]; simpl.
  - rewrite String.eqb_refl. reflexivity.
  - destruct (String.eqb k name) eqn:E; simpl; rewrite E; [reflexivity|].
    rewrite IH. reflexivity.
Qed.

Lemma filter_assoc_set name (v : V) l (p : string -> bool) :
  p name = false ->
  filter (fun kv => p (fst kv)) (assoc_set name v l)
  = filter (fun kv => p (fst kv)) l.
Proof.
  intros Hp. induction l as [|[k w] r IH]; simpl.
  - rewrite Hp. reflexivity.
  - destruct (String.eqb k name) eqn:E; simpl.
    + apply String.eqb_eq in E. subst k. rewrite Hp. reflexivity.
    + rewrite IH. reflexivity.
Qed.

End Assoc.

(** ** The sensitivity driver and the object's tables *)

Section SensitivityState.
Context {Json : Type} (env : Env Json).

(** C3, as the code has it.  The perturbation is applied to a copy of the
    model-input table, which the driver leaves as it was; of the live
    categorical table the driver writes one column, [diff]: the index and
    every other column, in their order, are unchanged. *)
Theorem sensitivity_writes_only_diff (self : WhiteBox Json) col g :
  let self' := snd (sensitivity_var_check env self col g) in
  model_df self' = model_df self /\
  index (cat_df self') = index (cat_df self) /\
  drop_cols ["diff"] (cat_df self') = drop_cols ["diff"] (cat_df self) /\
  (forall name, name <> "diff" ->
     get_col (cat_df self') name = get_col (cat_df self) name).
Proof.
  unfold sensitivity_var_check.
  destruct (sensitivity_perturb env self col) as [[[[vt iv] cdf] d]|e]; simpl.
  - split; [reflexivity|]. split; [reflexivity|]. split.
    + unfold drop_cols. simpl. f_equal.
      apply (filter_assoc_set "diff" _ _
               (fun n => negb (mem_string n ["diff"]))).
      reflexivity.
    + intros name Hne. unfold get_col. simpl.
      rewrite lookup_assoc_set_ne by exact Hne. reflexivity.
  - repeat split; reflexivity.
Qed.

End SensitivityState.

(** The sensitivity driver adds the column [diff] to the live table. *)
Lemma sensitivity_changes_live_table :
  let self := Demo.analysis WhiteBoxSensitivity in
  let self' := snd (_var_check Demo.env self "x" "G") in
  get_col (cat_df self) "diff" = Raise (KeyError "diff") /\
  get_col (cat_df self') "diff" = Ok (Demo.fcol [11; 20; 29; 38]%Z) /\
  cat_df self' <> cat_df self.
Proof.
  assert (E1 : get_col (cat_df (Demo.analysis WhiteBoxSensitivity)) "diff"
               = Raise (KeyError "diff")) by reflexivity.
  assert (E2 : get_col (cat_df (snd (_var_check Demo.env
                          (Demo.analysis WhiteBoxSensitivity) "x" "G"))) "diff"
               = Ok (Demo.fcol [11; 20; 29; 38]%Z)) by (vm_compute; reflexivity).
  cbv zeta. split; [exact E1|]. split; [exact E2|].
  intros H. rewrite H in E2. rewrite E1 in E2. discriminate.
Qed.

(** ** Running the driver twice *)

Section Idempotence.
Context {Json : Type} (env : Env Json).

Lemma set_cat_df_twice (self : WhiteBox Json) a b :
  set_cat_df (set_cat_df self a) b = set_cat_df self b.
Proof. reflexivity. Qed.

Lemma set_col_series_twice df name idx vs :
  set_col_series (set_col_series df name idx vs) name idx vs
  = set_col_series df name idx vs.
Proof.
  unfold set_col_series. simpl. rewrite assoc_set_twice. reflexivity.
Qed.

(** The perturbation reads the live table through the analysed column
    only. *)
Lemma sensitivity_perturb_reads (self : WhiteBox Json) d col :
  get_col d col = get_col (cat_df self) col ->
  sensitivity_perturb env (set_cat_df self d) col
  = sensitivity_perturb env self col.
Proof.
  intros H. unfold sensitivity_perturb, perturb_categorical, perturb_continuous,
    predictors. simpl. rewrite H. reflexivity.
Qed.

(** C8. A second call of the driver with the same column and group
    variable, on the object as the first call left it, ends as the first
    did, with the same rendered result or the same exception, and leaves
    the object as it found it.  The column is an analysis column: it is
    not the derived column [diff] that the sensitivity driver writes. *)
Theorem var_check_twice (self self' : WhiteBox Json) col g r :
  col <> "diff" ->
  _var_check env self col g = (r, self') ->
  _var_check env self' col g = (r, self').
Proof.
  intros Hcol. unfold _var_check.
  destruct (called_class self) eqn:Ecls.
  - intros H. inversion H; subst. rewrite Ecls. reflexivity.
  - unfold sensitivity_var_check.
    destruct (sensitivity_perturb env self col) as [[[[vt iv] cdf] d]|e] eqn:Ep.
    + intros H. inversion H; subst. clear H. simpl. rewrite Ecls.
      rewrite sensitivity_perturb_reads.
      * rewrite Ep. simpl. rewrite set_cat_df_twice, set_col_series_twice.
        reflexivity.
      * unfold get_col, set_col_series. simpl.
        rewrite lookup_assoc_set_ne by exact Hcol. reflexivity.
    + intros H. inversion H; subst. rewrite Ecls, Ep. reflexivity.
Qed.

End Idempotence.

Lemma var_check_twice_witness :
  let r := fst (_var_check Demo.env (Demo.analysis WhiteBoxSensitivity) "kind" "G") in
  let self' := snd (_var_check Demo.env (Demo.analysis WhiteBoxSensitivity) "kind" "G") in
  _var_check Demo.env self' "kind" "G" = (r, self').
Proof.
  cbv zeta.
  apply (var_check_twice Demo.env (Demo.analysis WhiteBoxSensitivity)).
  - discriminate.
  - destruct (_var_check Demo.env (Demo.analysis WhiteBoxSensitivity) "kind" "G").
    reflexivity.
Defined.

(** When the analysed column is itself named [diff], the first call
    overwrites it with the deltas and raises where the grouping meets the
    column name twice; the column, categorical before, is numeric
    afterwards, so the second call takes the other branch and ends with a
    different exception. *)
Lemma var_check_twice_differs_for_diff :
  let first := _var_check Demo.env Demo.shadowed "diff" "G" in
  let second := _var_check Demo.env (snd first) "diff" "G" in
  get_col (cat_df Demo.shadowed) "diff"
  = Ok (Demo.ccol ["A"; "B"; "C"] ["A"; "A"; "B"; "C"]) /\
  get_col (cat_df (snd first)) "diff" = Ok (Demo.fcol [9; 18; 27; 36]%Z) /\
  fst first = Raise (ValueError "Grouper not 1-dimensional") /\
  fst second = Raise (KeyError "diff") /\
  fst second <> fst first.
Proof.
  cbv zeta. split; [reflexivity|].
  split; [vm_compute; reflexivity|].
  assert (E1 : fst (_var_check Demo.env Demo.shadowed "diff" "G")
               = Raise (ValueError "Grouper not 1-dimensional"))
    by (vm_compute; reflexivity).
  assert (E2 : fst (_var_check Demo.env
                      (snd (_var_check Demo.env Demo.shadowed "diff" "G"))
                      "diff" "G")
               = Raise (KeyError "diff")) by (vm_compute; reflexivity).
  split; [exact E1|]. split; [exact E2|].
  rewrite E1, E2. discriminate.
Qed.

(** ** Results and element-wise operations *)

Lemma rbind_ok {A B} (r : result A) (k : A -> result B) b :
  rbind r k = Ok b -> exists a, r = Ok a /\ k a = Ok b.
Proof.
  destruct r as [a|e]; simpl; [|discriminate].
  intros H. exists a. split; [reflexivity|exact H].
Qed.

Lemma mapM_ok {A B} (f : A -> result B) l l' :
  mapM f l = Ok l' -> Forall2 (fun x y => f x = Ok y) l l'.
Proof.
  revert l'. induction l as [|x r IH]; simpl; intros l' H.
  - inversion H. constructor.
  - destruct (f x) as [y|e] eqn:Ef; [|discriminate].
    destruct (mapM f r) as [ys|e]; [|discriminate].
    inversion H; subst. constructor; [exact Ef|apply IH; reflexivity].
Qed.


Lemma label_find_skip l i v idx vs :
  i <> l -> label_find l (i :: idx) (v :: vs) = label_find l idx vs.
Proof.
  intros Hne. simpl. destruct (Nat.eqb i l) eqn:E; [|reflexivity].
  apply Nat.eqb_eq in E. congruence.
Qed.

(** Aligning a series on its own duplicate-free index changes nothing. *)
Lemma reindex_self idx : forall vs,
  NoDup idx -> List.length vs = List.length idx -> reindex idx vs idx = vs.
Proof.
  unfold reindex. induction idx as [|i idx IH]; intros [|v vs] Hnd Hlen;
    simpl in Hlen; try discriminate; [reflexivity|].
  inversion Hnd as [|? ? Hni Hnd']; subst.
  cbn [map]. f_equal.
  - simpl. rewrite Nat.eqb_refl. reflexivity.
  - transitivity (map (fun l => label_find l idx vs) idx).
    + apply map_ext_in. intros l Hl. apply label_find_skip.
      intros ->. contradiction.
    + apply IH; [exact Hnd'|lia].
Qed.

Lemma set_col_ok {L} (df df' : DataFrame L) name vs :
  set_col df name vs = Ok df' ->
  List.length vs = nrows df /\
  df' = mkDF (index df) (assoc_set name (new_col vs) (columns df)).
Proof.
  unfold set_col. destruct (Nat.eqb (List.length vs) (nrows df)) eqn:E;
    [|discriminate].
  apply Nat.eqb_eq in E. intros H. inversion H. split; [exact E|reflexivity].
Qed.

(** ** Sensitivity of a continuous column *)

Section ContinuousSensitivity.
Context {Json : Type} (env : Env Json).

Lemma perturb_continuous_ok (self : WhiteBox Json) col iv copydf :
  perturb_continuous env self col = Ok (iv, copydf) ->
  exists c0 shifted preds,
    get_col (model_df self) col = Ok c0 /\
    cell_arith Qmult (std env (col_values c0)) (Num (inject_Z (std_num self))) = Ok iv /\
    shifted_by iv (col_values c0) shifted /\
    predict (modelobj self)
            (predictors self (set_col_own (model_df self) col (new_col shifted)))
    = Ok preds /\
    List.length preds = nrows (model_df self) /\
    copydf = mkDF (index (model_df self))
                  (assoc_set "new_predictions" (new_col preds)
                     (assoc_set col (new_col shifted) (columns (model_df self)))).
Proof.
  unfold perturb_continuous. intros H.
  apply rbind_ok in H. destruct H as (c0 & Hc0 & H).
  apply rbind_ok in H. destruct H as (iv0 & Hiv & H).
  apply rbind_ok in H. destruct H as (shifted & Hs & H).
  apply rbind_ok in H. destruct H as (preds & Hp & H).
  apply rbind_ok in H. destruct H as (cdf & Hset & H).
  inversion H; subst. apply set_col_ok in Hset. destruct Hset as [Hlen ->].
  exists c0, shifted, preds. repeat split; try assumption.
  apply mapM_ok in Hs. exact Hs.
Qed.

Lemma rbind_raises {A B} (r : result A) (k : A -> result B) :
  (forall a, exists e, k a = Raise e) -> exists e, rbind r k = Raise e.
Proof.
  intros Hk. destruct r as [a|e]; simpl; [apply Hk|exists e; reflexivity].
Qed.

(** Neither branch of the sensitivity driver gets past the rename with
    [self.featuredict]; the continuous branch raises earlier, as soon as
    [apply] calls [cont_slice_partial] on a group. *)
Lemma sensitivity_report_raises (self : WhiteBox Json) vt iv col g :
  exists e, sensitivity_report env self vt iv col g = Raise e.
Proof.
  unfold sensitivity_report. destruct vt.
  - apply rbind_raises. intros sub. apply rbind_raises. intros sens.
    eexists. reflexivity.
  - apply rbind_raises. intros sens. eexists. reflexivity.
Qed.

Lemma error_var_check_raises (self : WhiteBox Json) col g :
  exists e, error_var_check env self col g = Raise e.
Proof.
  unfold error_var_check. apply rbind_raises. intros c.
  destruct (is_categorical_dtype c).
  - apply rbind_raises. intros sub. apply rbind_raises. intros e1.
    apply rbind_raises. intros e2. eexists. reflexivity.
  - apply rbind_raises. intros sub. apply rbind_raises. intros e1.
    eexists. reflexivity.
Qed.

Lemma var_check_raises (self : WhiteBox Json) col g :
  exists e, fst (_var_check env self col g) = Raise e.
Proof.
  unfold _var_check. destruct (called_class self); simpl.
  - apply error_var_check_raises.
  - unfold sensitivity_var_check.
    destruct (sensitivity_perturb env self col) as [[[[vt iv] cdf] d]|e]; simpl.
    + apply sensitivity_report_raises.
    + exists e. reflexivity.
Qed.


End ContinuousSensitivity.





(** ** Percentile bins *)

Section SortedCuts.

Lemma Qtrichotomy_b x y :
  Qeq_bool x y = false -> Qltb x y = false -> (y < x)%Q.
Proof.
  intros He Hl. apply Qltb_ge in Hl.
  apply Qle_lteq in Hl. destruct Hl as [Hl|Hl]; [exact Hl|].
  assert (E : Qeq_bool x y = true) by (apply Qeq_bool_iff; symmetry; exact Hl).
  congruence.
Qed.

Lemma insert_u_hd x y l :
  (y < x)%Q -> HdRel Qlt y l -> HdRel Qlt y (insert_u Qltb Qeq_bool x l).
Proof.
  intros Hyx Hl. destruct l as [|z r]; simpl.
  - constructor. exact Hyx.
  - inversion Hl; subst.
    destruct (Qeq_bool x z); [constructor; assumption|].
    destruct (Qltb x z); constructor; assumption.
Qed.

Lemma insert_u_sorted x l :
  Sorted Qlt l -> Sorted Qlt (insert_u Qltb Qeq_bool x l).
Proof.
  induction l as [|y r IH]; intros Hs; simpl.
  - repeat constructor.
  - inversion Hs as [|? ? Hr Hhd]; subst.
    destruct (Qeq_bool x y) eqn:He; [exact Hs|].
    destruct (Qltb x y) eqn:Hl.
    + constructor; [exact Hs|]. constructor. apply Qltb_lt. exact Hl.
    + constructor; [apply IH; exact Hr|].
      apply insert_u_hd; [|exact Hhd]. apply Qtrichotomy_b; assumption.
Qed.

Lemma sort_u_sorted l : Sorted Qlt (sort_u Qltb Qeq_bool l).
Proof.
  induction l as [|x r IH]; simpl; [constructor|].
  apply insert_u_sorted. exact IH.
Qed.

Lemma sort_u_strongly_sorted l : StronglySorted Qlt (sort_u Qltb Qeq_bool l).
Proof.
  apply Sorted_StronglySorted; [|apply sort_u_sorted].
  intros a b c. apply Qlt_trans.
Qed.

Lemma insert_u_InA b x l :
  InA Qeq b (insert_u Qltb Qeq_bool x l) <-> (b == x)%Q \/ InA Qeq b l.
Proof.
  induction l as [|y r IH]; simpl.
  - rewrite InA_cons, InA_nil. reflexivity.
  - destruct (Qeq_bool x y) eqn:He.
    + apply Qeq_bool_iff in He. split; [intros H; right; exact H|].
      intros [H|H]; [|exact H]. apply InA_cons_hd.
      rewrite H. exact He.
    + destruct (Qltb x y).
      * rewrite InA_cons. reflexivity.
      * rewrite !InA_cons, IH. tauto.
Qed.

Lemma sort_u_InA b l :
  InA Qeq b (sort_u Qltb Qeq_bool l) <-> InA Qeq b l.
Proof.
  induction l as [|x r IH]; simpl; [reflexivity|].
  rewrite insert_u_InA, InA_cons, IH. reflexivity.
Qed.

(** The position found splits ascending bins into those below the value
    and those at or above it. *)
Lemma searchsorted_left_split bins x :
  StronglySorted Qlt bins ->
  Forall (fun b => (b < x)%Q) (firstn (searchsorted_left bins x) bins) /\
  Forall (fun b => (x <= b)%Q) (skipn (searchsorted_left bins x) bins).
Proof.
  induction bins as [|b r IH]; intros Hs; simpl.
  - split; constructor.
  - inversion Hs as [|? ? Hr Hall]; subst.
    destruct (Qltb b x) eqn:E; simpl.
    + destruct (IH Hr) as [H1 H2]. split; [|exact H2].
      constructor; [apply Qltb_lt; exact E|exact H1].
    + apply Qltb_ge in E. split; [constructor|].
      constructor; [exact E|].
      eapply Forall_impl; [|exact Hall]. intros c Hc. simpl in Hc.
      apply Qlt_le_weak. eapply Qle_lt_trans; eassumption.
Qed.

Lemma searchsorted_left_le bins x : (searchsorted_left bins x <= List.length bins)%nat.
Proof.
  induction bins as [|b r IH]; simpl; [lia|].
  destruct (Qltb b x); simpl; lia.
Qed.

(** Bucket ids do not decrease along the order of the values. *)
Lemma searchsorted_left_mono bins x y :
  (x <= y)%Q -> (searchsorted_left bins x <= searchsorted_left bins y)%nat.
Proof.
  intros Hxy. induction bins as [|b r IH]; simpl; [lia|].
  destruct (Qltb b x) eqn:Ex; [|lia].
  apply Qltb_lt in Ex.
  assert (Ey : Qltb b y = true)
    by (apply Qltb_lt; eapply Qlt_le_trans; eassumption).
  rewrite Ey. lia.
Qed.

(** A value on a cut-point joins the bucket whose upper edge it is. *)
Lemma searchsorted_left_cut bins : forall k,
  StronglySorted Qlt bins -> (k < List.length bins)%nat ->
  searchsorted_left bins (nth k bins 0%Q) = k.
Proof.
  induction bins as [|b r IH]; intros k Hs Hk; simpl in Hk; [lia|].
  inversion Hs as [|? ? Hr Hall]; subst.
  destruct k as [|k]; simpl.
  - assert (E : Qltb b b = false) by (apply Qltb_ge; apply Qle_refl).
    rewrite E. reflexivity.
  - assert (E : Qltb b (nth k r 0%Q) = true).
    { apply Qltb_lt. rewrite Forall_forall in Hall. apply Hall.
      apply nth_In. lia. }
    rewrite E. f_equal. apply IH; [exact Hr|lia].
Qed.

Lemma digitize_numeric bins vs :
  forallb is_numeric_cell vs = true ->
  digitize vs bins = Ok (map (bucket_id bins) vs).
Proof.
  unfold digitize. induction vs as [|v r IH]; simpl; [reflexivity|].
  intros H. apply andb_true_iff in H. destruct H as [Hv Hr].
  rewrite (IH Hr). destruct v; simpl in *; try reflexivity. discriminate.
Qed.

End SortedCuts.

Section PercentileBinner.
Context {Json : Type} (env : Env Json).

(** C5. In a group of more than 100 rows the cut-points are the group's
    percentiles, ascending and without duplicates; every row gets one
    bucket id, the position that splits the cut-points into those below
    its value and those at or above it, so a value on a cut-point joins the
    bucket whose upper edge it is; and bucket ids do not decrease along
    the order of the values. *)
Theorem percentile_bins_right_closed (vs : list cell) dt n :
  (100 < n)%nat ->
  forallb is_numeric_cell vs = true ->
  let cuts := create_percentile_vecs env vs in
  let bins := sort_u Qltb Qeq_bool cuts in
  StronglySorted Qlt bins /\
  (forall b, InA Qeq b bins <-> InA Qeq b cuts) /\
  fixed_bins env (mkCol dt vs) n = Ok (new_col (map (bucket_id bins) vs)) /\
  List.length (map (bucket_id bins) vs) = List.length vs /\
  (forall q, (searchsorted_left bins q <= List.length bins)%nat /\
             Forall (fun b => (b < q)%Q) (firstn (searchsorted_left bins q) bins) /\
             Forall (fun b => (q <= b)%Q) (skipn (searchsorted_left bins q) bins)) /\
  (forall k, (k < List.length bins)%nat ->
             searchsorted_left bins (nth k bins 0%Q) = k) /\
  (forall x y, (x <= y)%Q ->
               (searchsorted_left bins x <= searchsorted_left bins y)%nat).
Proof.
  intros Hn Hnum cuts bins.
  pose proof (sort_u_strongly_sorted cuts) as Hs. fold bins in Hs.
  split; [exact Hs|]. split; [intros b; apply sort_u_InA|]. split.
  - unfold fixed_bins. apply Nat.ltb_lt in Hn. rewrite Hn. simpl.
    fold cuts. fold bins. rewrite (digitize_numeric bins vs Hnum). reflexivity.
  - split; [apply length_map|]. split.
    + intros q. split; [apply searchsorted_left_le|].
      apply searchsorted_left_split. exact Hs.
    + split; [intros k Hk; apply searchsorted_left_cut; assumption|].
      intros x y. apply searchsorted_left_mono.
Qed.

End PercentileBinner.

Lemma percentile_bins_right_closed_witness :
  let vs := map Demo.num [3; 1; 2; 2]%Z in
  let bins := sort_u Qltb Qeq_bool (create_percentile_vecs Demo.env vs) in
  fixed_bins Demo.env (mkCol Float vs) 101 = Ok (new_col (map (bucket_id bins) vs)).
Proof.
  cbv zeta.
  apply (percentile_bins_right_closed Demo.env (map Demo.num [3; 1; 2; 2]%Z)
           Float 101).
  - lia.
  - reflexivity.
Defined.

(** ** Integer indexes *)

Section Indexes.

Lemma insert_u_nat_In y x l :
  In y (insert_u Nat.ltb Nat.eqb x l) <-> y = x \/ In y l.
Proof.
  induction l as [|z r IH]; simpl.
  - intuition.
  - destruct (Nat.eqb x z) eqn:E.
    + apply Nat.eqb_eq in E. subst z. simpl. intuition.
    + destruct (Nat.ltb x z); simpl; [intuition|].
      rewrite IH. intuition.
Qed.

Lemma sort_u_nat_In y l : In y (sort_u Nat.ltb Nat.eqb l) <-> In y l.
Proof.
  induction l as [|x r IH]; simpl; [reflexivity|].
  rewrite insert_u_nat_In, IH. intuition.
Qed.

Lemma insert_u_nat_hd x y l :
  (y < x)%nat -> HdRel lt y l -> HdRel lt y (insert_u Nat.ltb Nat.eqb x l).
Proof.
  intros Hyx Hl. destruct l as [|z r]; simpl.
  - constructor. exact Hyx.
  - inversion Hl; subst.
    destruct (Nat.eqb x z); [constructor; assumption|].
    destruct (Nat.ltb x z); constructor; assumption.
Qed.

Lemma insert_u_nat_sorted x l :
  Sorted lt l -> Sorted lt (insert_u Nat.ltb Nat.eqb x l).
Proof.
  induction l as [|y r IH]; intros Hs; simpl.
  - repeat constructor.
  - inversion Hs as [|? ? Hr Hhd]; subst.
    destruct (Nat.eqb x y) eqn:He; [exact Hs|].
    destruct (Nat.ltb x y) eqn:Hl.
    + constructor; [exact Hs|]. constructor. apply Nat.ltb_lt. exact Hl.
    + constructor; [apply IH; exact Hr|].
      apply insert_u_nat_hd; [|exact Hhd].
      apply Nat.eqb_neq in He. apply Nat.ltb_ge in Hl. lia.
Qed.

Lemma sort_u_nat_sorted l : StronglySorted lt (sort_u Nat.ltb Nat.eqb l).
Proof.
  apply Sorted_StronglySorted; [intros a b c; apply Nat.lt_trans|].
  induction l as [|x r IH]; simpl; [constructor|].
  apply insert_u_nat_sorted. exact IH.
Qed.

(** Two strictly ascending lists with the same members are equal. *)
Lemma ascending_unique (a : list nat) : forall b,
  StronglySorted lt a -> StronglySorted lt b ->
  (forall x, In x a <-> In x b) -> a = b.
Proof.
  induction a as [|x a IH]; intros [|y b] Ha Hb Hm.
  - reflexivity.
  - exfalso. apply (proj2 (Hm y)). left. reflexivity.
  - exfalso. apply (proj1 (Hm x)). left. reflexivity.
  - inversion Ha as [|? ? Ha' Hxa]; subst. inversion Hb as [|? ? Hb' Hyb]; subst.
    rewrite Forall_forall in Hxa, Hyb.
    assert (x = y).
    { destruct (proj1 (Hm x) (or_introl eq_refl)) as [E|Hin]; [auto|].
      destruct (proj2 (Hm y) (or_introl eq_refl)) as [E|Hin']; [auto|].
      pose proof (Hyb _ Hin). pose proof (Hxa _ Hin'). lia. }
    subst y. f_equal. apply IH; [exact Ha'|exact Hb'|].
    intros z. split; intros Hz.
    + destruct (proj1 (Hm z) (or_intror Hz)) as [E|Hin]; [|exact Hin].
      subst z. pose proof (Hxa _ Hz). lia.
    + destruct (proj2 (Hm z) (or_intror Hz)) as [E|Hin]; [|exact Hin].
      subst z. pose proof (Hyb _ Hz). lia.
Qed.

Lemma ascending_NoDup (l : list nat) : StronglySorted lt l -> NoDup l.
Proof.
  induction 1 as [|x l Hs IH Hall]; constructor; [|exact IH].
  intros Hin. rewrite Forall_forall in Hall. pose proof (Hall _ Hin). lia.
Qed.

Lemma list_eqb_nat_eq a : forall b, list_eqb Nat.eqb a b = true -> a = b.
Proof.
  induction a as [|x a IH]; intros [|y b] H; simpl in H; try discriminate.
  - reflexivity.
  - apply andb_true_iff in H. destruct H as [E H].
    apply Nat.eqb_eq in E. subst y. f_equal. apply IH. exact H.
Qed.

Lemma union_index_In x a b : In x (union_index a b) <-> In x a \/ In x b.
Proof.
  unfold union_index. destruct (list_eqb Nat.eqb a b) eqn:E.
  - apply list_eqb_nat_eq in E. subst b. intuition.
  - rewrite sort_u_nat_In, in_app_iff. reflexivity.
Qed.

(** Joining an ascending index with labels it already has gives it back. *)
Lemma union_index_self idx b :
  StronglySorted lt idx -> (forall x, In x b -> In x idx) ->
  union_index idx b = idx.
Proof.
  intros Hs Hsub. unfold union_index.
  destruct (list_eqb Nat.eqb idx b); [reflexivity|].
  apply ascending_unique; [apply sort_u_nat_sorted|exact Hs|].
  intros x. rewrite sort_u_nat_In, in_app_iff. intuition.
Qed.

Lemma take_In {A} (x : A) m : forall l, In x (take m l) -> In x l.
Proof.
  induction m as [|b m IH]; intros [|y l] H; simpl in H; try contradiction.
  destruct b; simpl in *; intuition.
Qed.

Lemma label_find_notin l idx : forall vs,
  ~ In l idx -> label_find l idx vs = NaN.
Proof.
  induction idx as [|i idx IH]; intros [|v vs] Hn; simpl; try reflexivity.
  destruct (Nat.eqb i l) eqn:E.
  - apply Nat.eqb_eq in E. subst i. exfalso. apply Hn. left. reflexivity.
  - apply IH. intros Hin. apply Hn. right. exact Hin.
Qed.

Lemma label_find_map l (f : nat -> cell) idx :
  In l idx -> label_find l idx (map f idx) = f l.
Proof.
  induction idx as [|i idx IH]; simpl; [contradiction|].
  intros Hin. destruct (Nat.eqb i l) eqn:E.
  - apply Nat.eqb_eq in E. subst i. reflexivity.
  - apply IH. destruct Hin as [Hin|Hin]; [|exact Hin].
    apply Nat.eqb_neq in E. contradiction.
Qed.

(** Reading a masked series back on the full index: the kept rows keep
    their value, the others are missing. *)
Lemma reindex_take idx : forall m vs,
  NoDup idx -> List.length vs = List.length idx -> List.length m = List.length idx ->
  reindex (take m idx) (take m vs) idx = keep_or_nan m vs.
Proof.
  unfold reindex, keep_or_nan.
  induction idx as [|i idx IH]; intros [|b m] [|v vs] Hnd Hv Hm;
    simpl in Hv, Hm; try discriminate; [reflexivity|].
  inversion Hnd as [|? ? Hni Hnd']; subst.
  cbn [combine map take fst snd]. destruct b.
  - f_equal.
    + simpl. rewrite Nat.eqb_refl. reflexivity.
    + rewrite <- (IH m vs Hnd') by lia.
      apply map_ext_in. intros l Hl. apply label_find_skip.
      intros ->. contradiction.
  - f_equal.
    + apply label_find_notin. intros Hin. apply take_In in Hin. contradiction.
    + apply IH; [exact Hnd'|lia|lia].
Qed.

End Indexes.

(** ** Lookups in lists of named values *)

Section Lookups.
Context {V : Type}.

Lemma lookup_app name (l1 l2 : list (string * V)) :
  lookup name (l1 ++ l2)
  = match lookup name l1 with Some v => Some v | None => lookup name l2 end.
Proof.
  induction l1 as [|[k v] r IH]; simpl; [reflexivity|].
  destruct (String.eqb k name); [reflexivity|exact IH].
Qed.


Lemma lookup_map_values {W} name (f : V -> W) (l : list (string * V)) :
  lookup name (map (fun kv => (fst kv, f (snd kv))) l)
  = option_map f (lookup name l).
Proof.
  induction l as [|[k v] r IH]; simpl; [reflexivity|].
  destruct (String.eqb k name); [reflexivity|exact IH].
Qed.



End Lookups.

(** ** The split of the errors *)

Section ErrorSplit.

Lemma cell_test_mask p es m :
  mapM (cell_test p) es = Ok m ->
  m = map (fun c => match c with Num q => p q | _ => false end) es /\
  forallb is_numeric_cell es = true.
Proof.
  revert m. induction es as [|e r IH]; simpl; intros m H.
  - inversion H. split; reflexivity.
  - destruct (cell_test p e) as [b|x] eqn:Eb; [|discriminate].
    destruct (mapM (cell_test p) r) as [bs|x]; [|discriminate].
    inversion H; subst. destruct (IH bs eq_refl) as [-> Hr].
    rewrite Hr. destruct e; simpl in *; inversion Eb; split; reflexivity.
Qed.


Lemma reindex_through P X I J :
  (forall x, In x P -> In x I) ->
  reindex I (reindex P X I) J = reindex P X J.
Proof.
  intros Hsub. unfold reindex. apply map_ext. intros l.
  destruct (in_dec Nat.eq_dec l I) as [Hin|Hout].
  - apply (label_find_map l (fun l' => label_find l' P X)). exact Hin.
  - rewrite label_find_notin by exact Hout.
    symmetry. apply label_find_notin. intros HP. apply Hout, Hsub, HP.
Qed.

(** The frame the reducer works on: the bucket's own index and columns,
    the errors replaced by a column of the positive and a column of the
    negative ones, each missing in the other rows. *)
Lemma split_errors_ok (group toreturn : DataFrame nat) errs :
  StronglySorted lt (index group) ->
  get_col group "errors" = Ok errs ->
  List.length (col_values errs) = nrows group ->
  split_errors group = Ok toreturn ->
  forallb is_numeric_cell (col_values errs) = true /\
  index toreturn = index group /\
  columns toreturn
  = map (fun kv => (fst kv, reindex_col (index group) (index group) (snd kv)))
        (columns (drop_cols ["errors"] group))
    ++ [("errPos", mkCol (col_dtype errs)
                     (keep_or_nan (map is_positive (col_values errs)) (col_values errs)));
        ("errNeg", mkCol (col_dtype errs)
                     (keep_or_nan (map is_negative (col_values errs)) (col_values errs)))].
Proof.
  intros Hs Herr Hlen. unfold split_errors. rewrite Herr. simpl.
  intros H.
  apply rbind_ok in H. destruct H as (pos & Hpos & H).
  apply rbind_ok in H. destruct H as (neg & Hneg & H).
  apply cell_test_mask in Hpos. destruct Hpos as [Hpos Hnum].
  apply cell_test_mask in Hneg. destruct Hneg as [Hneg _].
  fold is_positive in Hpos. fold is_negative in Hneg.
  change (fun c : cell => match c with Num q => Qltb 0 q | _ => false end)
    with is_positive in Hpos.
  change (fun c : cell => match c with Num q => Qltb q 0 | _ => false end)
    with is_negative in Hneg.
  inversion H as [Ht]. clear H. unfold concat_axis1. cbn [index columns map app].
  set (idx := index group) in *.
  set (P := take pos idx). set (N := take neg idx).
  assert (Hsub : forall x, In x (union_index P N) -> In x idx).
  { intros x Hx. apply union_index_In in Hx.
    destruct Hx as [Hx|Hx]; apply take_In in Hx; exact Hx. }
  change (index (drop_cols ["errors"] group)) with idx.
  cbn [fst snd].
  rewrite (union_index_self idx (union_index P N) Hs Hsub).
  split; [exact Hnum|]. split; [reflexivity|].
  f_equal. unfold reindex_col, take_col. cbn [col_dtype col_values fst snd].
  pose proof (ascending_NoDup _ Hs) as Hnd.
  assert (Lp : List.length pos = List.length idx)
    by (subst pos; rewrite length_map; exact Hlen).
  assert (Ln : List.length neg = List.length idx)
    by (subst neg; rewrite length_map; exact Hlen).
  rewrite !reindex_through.
  - unfold P, N. rewrite !reindex_take by assumption. subst pos neg. reflexivity.
  - intros x Hx. apply union_index_In. right. exact Hx.
  - intros x Hx. apply union_index_In. left. exact Hx.
Qed.

End ErrorSplit.

(** ** The reducer of the error analysis *)

Section ErrorReducer.
Context {Json : Type}.

Lemma lookup_mem {V} name (l : list (string * V)) v :
  lookup name l = Some v -> mem_string name (map fst l) = true.
Proof.
  unfold mem_string. induction l as [|[k w] r IH]; simpl; [discriminate|].
  rewrite (String.eqb_sym name k).
  destruct (String.eqb k name); [reflexivity|exact IH].
Qed.

Lemma get_col_ok {L} (df : DataFrame L) name c :
  get_col df name = Ok c -> lookup name (columns df) = Some c.
Proof.
  unfold get_col. destruct (lookup name (columns df)); intros H; inversion H.
  reflexivity.
Qed.




End ErrorReducer.



Lemma demo_index_ascending : StronglySorted lt (index Demo.cat).
Proof. simpl. repeat constructor; lia. Qed.

Lemma demo_bucket_record :
  error_transform_function (Demo.analysis WhiteBoxError) Demo.cat "G" "x" Continuous
  = Ok Demo.bucket_record.
Proof. vm_compute. reflexivity. Qed.

(** ** Missing aggregates and the rendered result *)

Section NullMarker.
Context {Json : Type} (env : Env Json).

Lemma replace_cell_not_nan v : replace_cell v <> NaN.
Proof. destruct v; discriminate. Qed.

Lemma replace_nan_null_clean {L} (df : DataFrame L) name c :
  In (name, c) (columns (replace_nan_null df)) -> ~ In NaN (col_values c).
Proof.
  unfold replace_nan_null. simpl. intros Hin Hnan.
  apply in_map_iff in Hin. destruct Hin as ([k c0] & E & _).
  inversion E; subst. simpl in Hnan. apply in_map_iff in Hnan.
  destruct Hnan as (v & Hv & _). exact (replace_cell_not_nan v Hv).
Qed.

(** C6, as the code has it.  For no object, column and group variable
    does either driver return: the rename with [self.featuredict], an
    attribute that is never assigned, stands between the summary records
    and [replace(np.nan, 'null')], and the continuous branch raises before
    it, in the call of [_continuous_slice].  So no per-pair output is
    emitted and a missing aggregate ends in an exception, not in the
    marker.  The replacement itself, had it been reached, leaves no NaN
    in the frame it is applied to and turns a missing aggregate, such as
    the mean of an all-missing series, into the string [null]. *)
Theorem driver_raises_before_rendering :
  (forall (self : WhiteBox Json) col g,
     exists e, fst (_var_check env self col g) = Raise e) /\
  (forall (self : WhiteBox Json), featuredict self = Raise AttributeError) /\
  (forall {L} (frame : DataFrame L) name c,
     In (name, c) (columns (replace_nan_null frame)) -> ~ In NaN (col_values c)) /\
  (forall vs, nums vs = [] -> replace_cell (series_mean vs) = Str "null").
Proof.
  split; [exact (var_check_raises env)|]. split; [reflexivity|].
  split; [intros L frame name c; apply replace_nan_null_clean|].
  intros vs Hvs. unfold series_mean. rewrite Hvs. reflexivity.
Qed.

End NullMarker.

(** Level [C] of column [kind] has the single error 0, so both its
    aggregates are missing; the error driver computes the records and
    raises [AttributeError] at the rename.  On the continuous column [x]
    it raises [TypeError] in the call of [_continuous_slice]. *)
Lemma error_driver_raises :
  fst (_var_check Demo.env (Demo.analysis WhiteBoxError) "kind" "G")
  = Raise AttributeError /\
  fst (_var_check Demo.env (Demo.analysis WhiteBoxError) "x" "G")
  = Raise TypeError /\
  fst (_var_check Demo.env (Demo.analysis WhiteBoxSensitivity) "kind" "G")
  = Raise AttributeError /\
  fst (_var_check Demo.env (Demo.analysis WhiteBoxSensitivity) "x" "G")
  = Raise TypeError.
Proof. vm_compute. repeat split; reflexivity. Qed.

(** ** Sensitivity of a categorical column *)

Section CategoricalSensitivity.
Context {Json : Type} (env : Env Json).


Lemma Forall_take {A} (P : A -> Prop) m l : Forall P l -> Forall P (take m l).
Proof.
  intros H. apply Forall_forall. intros x Hx. apply take_In in Hx.
  rewrite Forall_forall in H. exact (H x Hx).
Qed.



Lemma groupby_ok {L} names (df : DataFrame L) gs :
  groupby names df = Ok gs ->
  forall k grp, In (k, grp) gs -> exists m, grp = take_rows m df.
Proof.
  unfold groupby. intros H. apply rbind_ok in H. destruct H as (cols & _ & H).
  inversion H; subst. intros k grp Hin. apply in_map_iff in Hin.
  destruct Hin as (k0 & E & _). inversion E; subst. eexists. reflexivity.
Qed.



(** The modes of a categorical series follow the declared order of the
    categories, those of a series of strings the order of the strings. *)
Lemma mode_follows_category_order :
  series_mode (mkCol (Category [Str "b"; Str "a"]) [Str "a"; Str "b"])
  = [Str "b"; Str "a"] /\
  series_mode (mkCol Object [Str "b"; Str "a"]) = [Str "a"; Str "b"].
Proof. split; reflexivity. Qed.






End CategoricalSensitivity.





(** ** The order of a run *)

Section RunOrder.
Context {Json : Type} (env : Env Json).

Lemma mbind_ok_trace {A B} (m : method Json A) (k : A -> method Json B)
  self b self' t :
  mbind m k self = (Ok b, self', t) ->
  exists a s1 t1 t2,
    m self = (Ok a, s1, t1) /\ k a s1 = (Ok b, self', t2) /\ t = t1 ++ t2.
Proof.
  unfold mbind. destruct (m self) as [[[a|e] s1] t1]; [|discriminate].
  destruct (k a s1) as [[rb s2] t2] eqn:Ek. intros H. inversion H; subst.
  exists a, s1, t1, t2. repeat split. exact Ek.
Qed.

Lemma mbind_inv {A B} (m : method Json A) (k : A -> method Json B)
  self r self' t :
  mbind m k self = (r, self', t) ->
  (exists e, m self = (Raise e, self', t) /\ r = Raise e) \/
  (exists a s1 t1 t2,
     m self = (Ok a, s1, t1) /\ k a s1 = (r, self', t2) /\ t = t1 ++ t2).
Proof.
  unfold mbind. destruct (m self) as [[[a|e] s1] t1].
  - destruct (k a s1) as [[rb s2] t2] eqn:Ek. intros H. inversion H; subst.
    right. exists a, s1, t1, t2. repeat split. exact Ek.
  - intros H. inversion H; subst. left. exists e. split; reflexivity.
Qed.

Lemma pair_events_length cols gvs :
  List.length (pair_events cols gvs)
  = (List.length cols * List.length gvs)%nat.
Proof.
  unfold pair_events. induction cols as [|c r IH]; simpl; [reflexivity|].
  rewrite length_app, length_map, IH. reflexivity.
Qed.

(** The loop over the group variables for one column: it leaves the object
    as it is and calls nothing but the accuracy helper; it ends without an
    exception only if every group variable is the column itself, and
    otherwise raises [TypeError] at the first group variable that is not,
    unless the accuracy helper has raised before. *)
Lemma run_groupbyvars_inv col gvs : forall ch ins (s s' : WhiteBox Json) r t,
  run_groupbyvars env col gvs ch ins s = (r, s', t) ->
  s' = s /\
  Forall (fun e => e = Called "create_accuracy") t /\
  match r with
  | Ok x =>
      fst x = ch /\ has_pair gvs col = false /\ t = map (pair_event col) gvs
  | Raise e =>
      e = TypeError \/
      exists g, In g gvs /\
                create_accuracy env (model_type s) (cat_df s) (error_type s) g
                = Raise e
  end.
Proof.
  induction gvs as [|g rest IH]; intros ch ins s s' r t H; simpl in H.
  - inversion H; subst. repeat split. constructor.
  - unfold has_pair, pair_event. simpl.
    destruct (String.eqb col g) eqn:E; simpl in H |- *.
    + apply mbind_inv in H. destruct H as [(e & H1 & ->)|H].
      * unfold mcall in H1. injection H1 as He Hs Ht. subst s' t.
        split; [reflexivity|]. split; [repeat constructor|].
        right. exists g. split; [left; reflexivity|exact He].
      * destruct H as (acc & s1 & t1 & t2 & H1 & H2 & ->).
        unfold mcall in H1. inversion H1 as [[Ha Hs Ht]]. subst s1 t1.
        destruct (IH _ _ _ _ _ _ H2) as (-> & Hall & Hr).
        split; [reflexivity|]. split; [constructor; [reflexivity|exact Hall]|].
        destruct r as [x|e].
        -- destruct Hr as (Hx & Hp & ->). repeat split; assumption.
        -- destruct Hr as [->|(g' & Hin & Hg')]; [left; reflexivity|].
           right. exists g'. split; [right; exact Hin|exact Hg'].
    + apply mbind_inv in H. rewrite drive_raises in H.
      destruct H as [(e & H1 & ->)|H].
      * inversion H1; subst. split; [reflexivity|]. split; [constructor|].
        left. reflexivity.
      * destruct H as (j & s1 & t1 & t2 & H1 & _). discriminate.
Qed.

Lemma run_columns_inv cols : forall ph ins (s s' : WhiteBox Json) r t,
  run_columns env cols ph ins s = (r, s', t) ->
  s' = s /\
  Forall (fun e => e = Called "create_accuracy") t /\
  match r with
  | Ok x =>
      fst x = ph /\ existsb (has_pair (groupbyvars s)) cols = false /\
      t = pair_events cols (groupbyvars s)
  | Raise e =>
      e = TypeError \/
      exists g, In g (groupbyvars s) /\
                create_accuracy env (model_type s) (cat_df s) (error_type s) g
                = Raise e
  end.
Proof.
  induction cols as [|col rest IH]; intros ph ins s s' r t H; simpl in H.
  - inversion H; subst. repeat split. constructor.
  - apply mbind_inv in H. destruct H as [(e & H1 & ->)|H].
    + destruct (run_groupbyvars_inv _ _ _ _ _ _ _ _ H1) as (-> & Hall & Hr).
      split; [reflexivity|]. split; [exact Hall|exact Hr].
    + destruct H as ([colhold ins1] & s1 & t1 & t2 & H1 & H2 & ->).
      destruct (run_groupbyvars_inv _ _ _ _ _ _ _ _ H1)
        as (-> & Hall1 & Hch & Hp & ->).
      simpl in Hch. subst colhold.
      destruct (IH _ _ _ _ _ _ H2) as (-> & Hall2 & Hr).
      split; [reflexivity|].
      split; [apply Forall_app; split; assumption|].
      destruct r as [x|e]; [|exact Hr].
      destruct Hr as (Hx & Hq & ->). simpl. rewrite Hp, Hq.
      repeat split. exact Hx.
Qed.

Lemma save_ok path (s s' : WhiteBox Json) u t :
  _save env path s = (Ok u, s', t) -> s' = s /\ t = [Saved path].
Proof.
  unfold _save. intros H.
  apply mbind_ok_trace in H. destruct H as (y & s1 & t1 & t2 & Ha & H & ->).
  unfold mlift in Ha. inversion Ha as [[Hy Hs1 Ht1]]. subst s1. clear Ha.
  apply mbind_ok_trace in H. destruct H as (h & s2 & t3 & t4 & Hb & H & ->).
  unfold mlift in Hb. inversion Hb as [[Hh Hs2 Ht3]]. subst s2. clear Hb.
  destruct (open_w env path); inversion H; subst. split; reflexivity.
Qed.

(** Everything a run that returns has done. *)
Lemma run_ok_inv (self self' : WhiteBox Json) ot path v t :
  run env ot path self = (Ok v, self', t) ->
  exists c m ins,
    fmt_sklearn_preds env (predict_engine self) (modelobj self)
                      (model_df self) (cat_df self) (ydepend self)
                      (model_type self) = Ok (c, m) /\
    existsb (has_pair (groupbyvars self)) (to_iter_cols (set_tables self c m))
    = false /\
    t = Called "fmt_sklearn_preds"
        :: pair_events (to_iter_cols (set_tables self c m)) (groupbyvars self)
        ++ (if String.eqb ot "html" then [Saved path] else []) /\
    Forall (fun e => e = Called "create_accuracy")
           (pair_events (to_iter_cols (set_tables self c m)) (groupbyvars self)) /\
    self' = set_outputs (set_tables self c m)
              [fmt_to_json env ins (error_type self);
               percentiles self; group_percentiles_out self] /\
    (if String.eqb ot "html" then v = None
     else if String.eqb ot "raw_data"
          then exists d, v = Some d /\ get_raw_df self' = Ok d
          else if String.eqb ot "agg_data"
               then exists d, v = Some d /\ get_agg_df self' = Ok d
               else v = None).
Proof.
  unfold run. destruct (negb (mem_string ot (supported_out_types env)));
    [discriminate|].
  intros H.
  apply mbind_ok_trace in H. destruct H as ([c m] & s1 & t1 & t2 & H1 & H & ->).
  unfold mcall in H1. inversion H1 as [[Hfmt Hs1 Ht1]]. subst s1. clear H1.
  apply mbind_ok_trace in H. destruct H as (u1 & s2 & t3 & t4 & H2 & H & ->).
  inversion H2 as [[Hu1 Hs2 Ht3]]. subst s2. clear H2.
  apply mbind_ok_trace in H. destruct H as (cols & s3 & t5 & t6 & H3 & H & ->).
  unfold mlift in H3. inversion H3 as [[Hcols Hs3 Ht5]]. subst s3. clear H3.
  apply mbind_ok_trace in H. destruct H as ([ph ins] & s4 & t7 & t8 & H4 & H & ->).
  destruct (run_columns_inv _ _ _ _ _ _ _ H4) as (-> & Hall & Hph & Hnone & ->).
  simpl in Hph. subst ph.
  apply mbind_ok_trace in H. destruct H as (u2 & s5 & t9 & t10 & H5 & H & ->).
  inversion H5 as [[Hu2 Hs5 Ht9]]. subst s5. clear H5.
  simpl app in *.
  set (final := set_outputs (set_tables self c m)
                  [fmt_to_json env ins (error_type (set_tables self c m));
                   percentiles (set_tables self c m);
                   group_percentiles_out (set_tables self c m)]) in *.
  assert (Hend : self' = final /\
                 t10 = (if String.eqb ot "html" then [Saved path] else []) /\
                 (if String.eqb ot "html" then v = None
                  else if String.eqb ot "raw_data"
                       then exists d, v = Some d /\ get_raw_df final = Ok d
                       else if String.eqb ot "agg_data"
                            then exists d, v = Some d /\ get_agg_df final = Ok d
                            else v = None)).
  { destruct (String.eqb ot "html").
    - apply mbind_ok_trace in H. destruct H as (u & s6 & ta & tb & Ha & Hb & ->).
      apply save_ok in Ha. destruct Ha as [-> ->]. inversion Hb; subst.
      repeat split.
    - destruct (String.eqb ot "raw_data").
      + apply mbind_ok_trace in H. destruct H as (d & s6 & ta & tb & Ha & Hb & ->).
        unfold mlift in Ha. inversion Ha as [[Hd Hs6 Hta]]. subst s6.
        inversion Hb; subst. repeat split. exists d. split; [reflexivity|exact Hd].
      + destruct (String.eqb ot "agg_data").
        * apply mbind_ok_trace in H. destruct H as (d & s6 & ta & tb & Ha & Hb & ->).
          unfold mlift in Ha. inversion Ha as [[Hd Hs6 Hta]]. subst s6.
          inversion Hb; subst. repeat split. exists d. split; [reflexivity|exact Hd].
        * inversion H; subst. repeat split. }
  destruct Hend as (-> & -> & Hv).
  subst t1 t3 t5 t9 cols.
  exists c, m, ins. split; [exact Hfmt|]. split; [exact Hnone|].
  split; [reflexivity|]. split; [exact Hall|]. split; [reflexivity|exact Hv].
Qed.

(** A run that returns has scored the tables once and then visited every
    pair of an analysis column and a group variable in column-then-group
    order; every pair it met was a column paired with itself, for which it
    called the accuracy helper, so the driver was not called at all; for
    the html output it saved the report last. *)
Theorem run_visits_pairs_in_order (self self' : WhiteBox Json) ot path v t :
  run env ot path self = (Ok v, self', t) ->
  exists c m,
    let cols := to_iter_cols (set_tables self c m) in
    fmt_sklearn_preds env (predict_engine self) (modelobj self)
                      (model_df self) (cat_df self) (ydepend self)
                      (model_type self) = Ok (c, m) /\
    Forall (fun col => Forall (fun g => col = g) (groupbyvars self)) cols /\
    t = Called "fmt_sklearn_preds"
        :: pair_events cols (groupbyvars self)
        ++ (if String.eqb ot "html" then [Saved path] else []) /\
    pair_events cols (groupbyvars self)
    = repeat (Called "create_accuracy")
             (List.length cols * List.length (groupbyvars self)).
Proof.
  intros H. destruct (run_ok_inv _ _ _ _ _ _ H)
    as (c & m & ins & Hfmt & Hnone & Ht & Hall & _).
  exists c, m. cbv zeta. split; [exact Hfmt|]. split; [|split; [exact Ht|]].
  - apply Forall_forall. intros col Hcol. apply Forall_forall. intros g Hg.
    destruct (String.eqb col g) eqn:E; [apply String.eqb_eq; exact E|].
    exfalso.
    assert (Hx : existsb (has_pair (groupbyvars self))
                         (to_iter_cols (set_tables self c m)) = true).
    { apply existsb_exists. exists col. split; [exact Hcol|].
      apply existsb_exists. exists g. split; [exact Hg|]. rewrite E. reflexivity. }
    congruence.
  - rewrite <- (pair_events_length _ (groupbyvars self)).
    apply Forall_eq_repeat. apply Forall_forall. intros ev Hev.
    rewrite Forall_forall in Hall. symmetry. exact (Hall ev Hev).
Qed.


(** What [run] returns: for [raw_data] and [agg_data] the frame the
    accessor returns on the object as the run leaves it, nothing for
    [html]. *)
Theorem run_returns_by_output_type (self self' : WhiteBox Json) ot path v t :
  run env ot path self = (Ok v, self', t) ->
  (ot = "html" -> v = None) /\
  (ot = "raw_data" -> exists d, v = Some d /\ get_raw_df self' = Ok d) /\
  (ot = "agg_data" -> exists d, v = Some d /\ get_agg_df self' = Ok d).
Proof.
  intros H. destruct (run_ok_inv _ _ _ _ _ _ H)
    as (c & m & ins & _ & _ & _ & _ & _ & Hv).
  repeat split; intros ->; simpl in Hv; exact Hv.
Qed.

(** As soon as one analysis column has a group variable other than
    itself, [run] does not return: it raises at the first such pair, in
    the call [self._var_check(col=, groupby_var=)], whose second keyword
    neither driver declares, unless the accuracy helper has raised
    before.  The object keeps the scored tables and gets no [outputs];
    the driver is never entered and no report is saved. *)
Theorem run_stops_at_first_pair (self : WhiteBox Json) ot path c m :
  mem_string ot (supported_out_types env) = true ->
  fmt_sklearn_preds env (predict_engine self) (modelobj self)
                    (model_df self) (cat_df self) (ydepend self)
                    (model_type self) = Ok (c, m) ->
  existsb (has_pair (groupbyvars self)) (to_iter_cols (set_tables self c m))
  = true ->
  exists e t,
    run env ot path self = (Raise e, set_tables self c m, t) /\
    (e = TypeError \/
     exists g, In g (groupbyvars self) /\
               create_accuracy env (model_type self) c (error_type self) g
               = Raise e) /\
    Forall (fun ev => ev = Called "fmt_sklearn_preds" \/
                      ev = Called "create_accuracy") t.
Proof.
  intros Hot Hfmt Hpair. unfold run. rewrite Hot. simpl negb. cbv iota.
  unfold mbind at 1. unfold mcall at 1. rewrite Hfmt.
  unfold mbind at 1. unfold mbind at 1. unfold mlift at 1.
  unfold mbind at 1.
  change (filter _ (column_names (cat_df (set_tables self c m))))
    with (to_iter_cols (set_tables self c m)).
  destruct (run_columns env (to_iter_cols (set_tables self c m)) [] (mkDF [] [])
              (set_tables self c m)) as [[r s4] t4] eqn:Erc.
  destruct (run_columns_inv _ _ _ _ _ _ _ Erc) as (-> & Hall & Hr).
  destruct r as [x|e].
  - destruct Hr as (_ & Hnone & _). simpl in Hnone. congruence.
  - exists e, (Called "fmt_sklearn_preds" :: t4). simpl.
    split; [reflexivity|]. split; [exact Hr|].
    constructor; [left; reflexivity|].
    apply Forall_forall. intros ev Hev. right.
    rewrite Forall_forall in Hall. exact (Hall ev Hev).
Qed.

End RunOrder.

Lemma demo_run :
  run Demo.env "raw_data" "" Demo.lonely
  = (Ok Demo.run_value, Demo.run_object, Demo.run_trace).
Proof. vm_compute. reflexivity. Qed.

Lemma run_visits_pairs_in_order_witness :
  exists c m,
    let cols := to_iter_cols (set_tables Demo.lonely c m) in
    fmt_sklearn_preds Demo.env (predict_engine Demo.lonely) (modelobj Demo.lonely)
                      (model_df Demo.lonely) (cat_df Demo.lonely)
                      (ydepend Demo.lonely) (model_type Demo.lonely) = Ok (c, m) /\
    Forall (fun col => Forall (fun g => col = g) (groupbyvars Demo.lonely)) cols /\
    Demo.run_trace
    = Called "fmt_sklearn_preds"
      :: pair_events cols (groupbyvars Demo.lonely) ++ [] /\
    pair_events cols (groupbyvars Demo.lonely)
    = repeat (Called "create_accuracy")
             (List.length cols * List.length (groupbyvars Demo.lonely)).
Proof.
  exact (run_visits_pairs_in_order Demo.env Demo.lonely Demo.run_object
           "raw_data" "" Demo.run_value Demo.run_trace demo_run).
Defined.


Lemma run_returns_by_output_type_witness :
  exists d, Demo.run_value = Some d /\ get_raw_df Demo.run_object = Ok d.
Proof.
  exact (proj1 (proj2 (run_returns_by_output_type Demo.env Demo.lonely
                         Demo.run_object "raw_data" "" Demo.run_value
                         Demo.run_trace demo_run)) eq_refl).
Defined.

(** The built object analyses [x] and [kind] by group variable [G]: its
    run raises [TypeError] at the first pair and assigns no [outputs]. *)
Lemma run_stops_at_first_pair_witness :
  exists e t,
    run Demo.env "raw_data" "" Demo.built
    = (Raise e, set_tables Demo.built (cat_df Demo.built) (model_df Demo.built), t) /\
    (e = TypeError \/
     exists g, In g (groupbyvars Demo.built) /\
               create_accuracy Demo.env (model_type Demo.built) (cat_df Demo.built)
                               (error_type Demo.built) g
               = Raise e) /\
    Forall (fun ev => ev = Called "fmt_sklearn_preds" \/
                      ev = Called "create_accuracy") t.
Proof.
  apply (run_stops_at_first_pair Demo.env Demo.built "raw_data" ""
           (cat_df Demo.built) (model_df Demo.built)); reflexivity.
Defined.

(** ** Buckets as the drivers build them *)

Section Buckets.
Context {Json : Type} (env : Env Json).

Lemma take_sorted m : forall l,
  StronglySorted lt l -> StronglySorted lt (take m l).
Proof.
  induction m as [|b m IH]; intros [|x l] Hs; simpl; try constructor.
  inversion Hs as [|? ? Hl Hall]; subst.
  destruct b; [|apply IH; exact Hl].
  constructor; [apply IH; exact Hl|]. apply Forall_take. exact Hall.
Qed.

Lemma take_length_eq {A B} m : forall (l1 : list A) (l2 : list B),
  List.length l1 = List.length l2 ->
  List.length (take m l1) = List.length (take m l2).
Proof.
  induction m as [|b m IH]; intros [|x l1] [|y l2] H; simpl in *;
    try reflexivity; try discriminate.
  destruct b; simpl; [f_equal|]; apply IH; lia.
Qed.

Lemma take_rows_well_formed (m : list bool) (df : DataFrame nat) :
  well_formed df -> well_formed (take_rows m df).
Proof.
  unfold well_formed, take_rows, nrows. simpl. intros H.
  apply Forall_map. eapply Forall_impl; [|exact H].
  intros [k c] Hc. simpl in *. apply take_length_eq. exact Hc.
Qed.

Lemma seq_ascending n : forall a, StronglySorted lt (seq a n).
Proof.
  induction n as [|n IH]; intros a; simpl; constructor; [apply IH|].
  apply Forall_forall. intros x Hx. apply in_seq in Hx. lia.
Qed.

Lemma groupby_inherits names (df : DataFrame nat) gs :
  StronglySorted lt (index df) -> well_formed df ->
  groupby names df = Ok gs ->
  Forall (fun kg => StronglySorted lt (index (snd kg)) /\ well_formed (snd kg)) gs.
Proof.
  intros Hs Hw Hgs. apply Forall_forall. intros [k grp] Hin.
  destruct (groupby_ok _ _ _ Hgs k grp Hin) as (m & ->). simpl. split.
  - apply take_sorted. exact Hs.
  - apply take_rows_well_formed. exact Hw.
Qed.

Lemma mapM_length {A B} (f : A -> result B) l l' :
  mapM f l = Ok l' -> List.length l' = List.length l.
Proof.
  intros H. apply mapM_ok in H. symmetry. eapply Forall2_length. exact H.
Qed.

Lemma fixed_bins_length c n bins :
  fixed_bins env c n = Ok bins ->
  List.length (col_values bins) = List.length (col_values c).
Proof.
  unfold fixed_bins. destruct (Nat.ltb 100 n).
  - intros H. apply rbind_ok in H. destruct H as (b & Hb & H).
    inversion H; subst. simpl. unfold digitize in Hb.
    exact (mapM_length _ _ _ Hb).
  - intros H. inversion H. reflexivity.
Qed.

Lemma assoc_set_Forall {V} (P : string * V -> Prop) name v l :
  Forall P l -> P (name, v) -> (forall k w, P (k, w) -> P (k, v)) ->
  Forall P (assoc_set name v l).
Proof.
  intros Hl Hv Hk. induction l as [|[k w] r IH]; simpl.
  - constructor; [exact Hv|constructor].
  - inversion Hl; subst. destruct (String.eqb k name).
    + constructor; [eapply Hk; eassumption|assumption].
    + constructor; [assumption|apply IH; assumption].
Qed.

(** Whatever the labels of the group it is given, every bucket that
    [_continuous_slice] hands to the reducer has a strictly ascending
    index and one value per row in every column: the slice is re-indexed
    before it is binned and grouped. *)
Theorem continuous_buckets_well_formed {L} (group : DataFrame L) col c bins gs :
  well_formed group ->
  get_col (reset_index_drop group) col = Ok c ->
  fixed_bins env c (nrows group) = Ok bins ->
  groupby ["fixed_bins"]
          (set_col_own (reset_index_drop group) "fixed_bins" bins) = Ok gs ->
  Forall (fun kg => StronglySorted lt (index (snd kg)) /\ well_formed (snd kg)) gs.
Proof.
  intros Hw Hc Hb Hgs. eapply groupby_inherits; [| |exact Hgs].
  - simpl. apply seq_ascending.
  - unfold well_formed, set_col_own, reset_index_drop, nrows in *. simpl.
    rewrite length_seq.
    assert (Hlen : List.length (col_values c) = List.length (index group)).
    { apply get_col_ok in Hc. simpl in Hc.
      rewrite Forall_forall in Hw.
      assert (Hin : In (col, c) (columns group)).
      { clear - Hc. induction (columns group) as [|[k w] r IH]; simpl in *;
          [discriminate|].
        destruct (String.eqb k col) eqn:E.
        - apply String.eqb_eq in E. inversion Hc; subst. left. reflexivity.
        - right. apply IH. exact Hc. }
      exact (Hw _ Hin). }
    apply assoc_set_Forall.
    + exact Hw.
    + simpl. rewrite (fixed_bins_length _ _ _ Hb). exact Hlen.
    + intros k w _. simpl. rewrite (fixed_bins_length _ _ _ Hb). exact Hlen.
Qed.

End Buckets.

(** ** Failures of the drivers *)

Section DriverFailures.
Context {Json : Type} (env : Env Json).

Lemma cell_test_numeric p es :
  forallb is_numeric_cell es = true ->
  exists m, mapM (cell_test p) es = Ok m.
Proof.
  induction es as [|e r IH]; simpl; intros H; [eexists; reflexivity|].
  apply andb_true_iff in H. destruct H as [He Hr].
  destruct (IH Hr) as (m & ->).
  destruct e; simpl in *; try discriminate; eexists; reflexivity.
Qed.

Lemma cell_test_string p es :
  forallb is_numeric_cell es = false ->
  mapM (cell_test p) es = Raise TypeError.
Proof.
  induction es as [|e r IH]; simpl; intros H; [discriminate|].
  destruct e as [q| |s]; simpl in *; try reflexivity;
    rewrite (IH H); reflexivity.
Qed.

(** The split of the errors succeeds on every bucket whose errors are
    numbers or missing, whatever their signs and however few, and raises
    [TypeError] as soon as one of them is a string. *)
Theorem split_errors_total_on_numbers (group : DataFrame nat) errs :
  get_col group "errors" = Ok errs ->
  (forallb is_numeric_cell (col_values errs) = true ->
   exists toreturn, split_errors group = Ok toreturn) /\
  (forallb is_numeric_cell (col_values errs) = false ->
   split_errors group = Raise TypeError).
Proof.
  intros Herr. unfold split_errors. rewrite Herr. simpl. split; intros H.
  - destruct (cell_test_numeric (fun q => Qltb 0 q) _ H) as (pos & ->).
    destruct (cell_test_numeric (fun q => Qltb q 0) _ H) as (neg & ->).
    simpl. eexists. reflexivity.
  - rewrite (cell_test_string _ _ H). reflexivity.
Qed.

Lemma perturb_categorical_scored (self : WhiteBox Json) col x :
  perturb_categorical env self col = Ok x ->
  exists d preds, predict (modelobj self) d = Ok preds.
Proof.
  unfold perturb_categorical. intros H.
  apply rbind_ok in H. destruct H as (c & _ & H).
  apply rbind_ok in H. destruct H as (iv & _ & H).
  apply rbind_ok in H. destruct H as (mc & _ & H).
  apply rbind_ok in H. destruct H as (nmc & _ & H).
  apply rbind_ok in H. destruct H as (preds & Hp & H).
  eexists. eexists. exact Hp.
Qed.

(** When the model refuses every table, the sensitivity driver raises
    and leaves the object as it was: the live table is written only
    after the perturbed table has been scored. *)
Theorem scoring_failure_leaves_object (self : WhiteBox Json) col g e0 :
  (forall d, predict (modelobj self) d = Raise e0) ->
  exists e, sensitivity_var_check env self col g = (Raise e, self).
Proof.
  intros Hfail. unfold sensitivity_var_check.
  destruct (sensitivity_perturb env self col) as [[[[vt iv] cdf] d]|e] eqn:Ep;
    [|exists e; reflexivity].
  exfalso. unfold sensitivity_perturb in Ep.
  apply rbind_ok in Ep. destruct Ep as (c & _ & Ep).
  destruct (is_categorical_dtype c).
  - apply rbind_ok in Ep. destruct Ep as ([iv0 cdf0] & Hp & _).
    destruct (perturb_categorical_scored _ _ _ Hp) as (d1 & preds & Hs).
    rewrite Hfail in Hs. discriminate.
  - apply rbind_ok in Ep. destruct Ep as ([iv0 cdf0] & Hp & _).
    destruct (perturb_continuous_ok _ _ _ _ _ Hp)
      as (c0 & sh & preds & _ & _ & _ & Hs & _).
    rewrite Hfail in Hs. discriminate.
Qed.

Lemma filter_all_missing vs :
  forallb isnan vs = true -> filter (fun v => negb (isnan v)) vs = [].
Proof.
  induction vs as [|v r IH]; simpl; intros H; [reflexivity|].
  apply andb_true_iff in H. destruct H as [Hv Hr]. rewrite Hv. simpl.
  apply IH. exact Hr.
Qed.

Lemma existsb_all_missing k vs :
  forallb isnan vs = true -> existsb (cell_eqb k) vs = false.
Proof.
  induction vs as [|v r IH]; simpl; intros H; [reflexivity|].
  apply andb_true_iff in H. destruct H as [Hv Hr]. rewrite (IH Hr).
  destruct v; try discriminate. destruct k; reflexivity.
Qed.

Lemma series_mode_all_missing c :
  forallb isnan (col_values c) = true -> series_mode c = [].
Proof.
  intros H. unfold series_mode.
  assert (E : mode_candidates c = []); [|rewrite E; reflexivity].
  unfold mode_candidates.
  destruct (col_dtype c) as [| |cats];
    try (rewrite (filter_all_missing _ H); reflexivity).
  induction cats as [|k r IH]; simpl; [reflexivity|].
  rewrite (existsb_all_missing k _ H). exact IH.
Qed.

(** A categorical column without a single value has no mode: the
    sensitivity driver raises [IndexError] and leaves the object as it
    was. *)
Theorem empty_category_raises (self : WhiteBox Json) col g c :
  get_col (cat_df self) col = Ok c ->
  is_categorical_dtype c = true ->
  forallb isnan (col_values c) = true ->
  sensitivity_var_check env self col g = (Raise IndexError, self).
Proof.
  intros Hc Hcat Hnan.
  unfold sensitivity_var_check, sensitivity_perturb. rewrite Hc. simpl.
  rewrite Hcat. unfold perturb_categorical. rewrite Hc. simpl.
  rewrite (series_mode_all_missing _ Hnan). reflexivity.
Qed.

Lemma select_list_raise names cols :
  (exists n, In n names /\ lookup n cols = None) ->
  exists n, In n names /\ lookup n cols = None /\
            select_list names cols = Raise (KeyError n).
Proof.
  induction names as [|n0 r IH]; intros (n & Hin & Hn); [contradiction|].
  simpl. destruct (lookup n0 cols) as [c0|] eqn:E0.
  - destruct Hin as [->|Hin]; [congruence|].
    destruct (IH (ex_intro _ n (conj Hin Hn))) as (n1 & Hin1 & Hn1 & ->).
    exists n1. repeat split; [right; exact Hin1|exact Hn1].
  - exists n0. repeat split; [left; reflexivity|exact E0].
Qed.

(** When the live table lacks the analysed column, [errors],
    [predictedYSmooth] or the group variable, the error driver raises
    [KeyError] for a required column that is absent, before any
    grouping. *)
Theorem error_driver_missing_column (self : WhiteBox Json) col g :
  (exists n, In n [col; "errors"; "predictedYSmooth"; g] /\
             lookup n (columns (cat_df self)) = None) ->
  exists n, In n [col; "errors"; "predictedYSmooth"; g] /\
            lookup n (columns (cat_df self)) = None /\
            error_var_check env self col g = Raise (KeyError n).
Proof.
  intros Hmiss. unfold error_var_check, get_col.
  destruct (lookup col (columns (cat_df self))) as [c|] eqn:Ec; simpl.
  - destruct (select_list_raise _ _ Hmiss) as (n & Hin & Hn & Hsel).
    exists n. split; [exact Hin|]. split; [exact Hn|].
    unfold select_cols. rewrite Hsel.
    destruct (is_categorical_dtype c); reflexivity.
  - exists col. repeat split; [left; reflexivity|exact Ec].
Qed.

End DriverFailures.

Lemma demo_well_formed : well_formed Demo.cat.
Proof. unfold well_formed. simpl. repeat constructor. Qed.

Lemma demo_buckets :
  groupby ["fixed_bins"]
          (set_col_own (reset_index_drop Demo.cat) "fixed_bins"
                       (Demo.fcol [10; 20; 30; 40]%Z))
  = Ok Demo.buckets.
Proof. vm_compute. reflexivity. Qed.

Lemma continuous_buckets_well_formed_witness :
  Forall (fun kg => StronglySorted lt (index (snd kg)) /\ well_formed (snd kg))
         Demo.buckets.
Proof.
  apply (continuous_buckets_well_formed Demo.env Demo.cat "x"
           (Demo.fcol [10; 20; 30; 40]%Z) (Demo.fcol [10; 20; 30; 40]%Z)).
  - exact demo_well_formed.
  - reflexivity.
  - reflexivity.
  - exact demo_buckets.
Defined.

Lemma split_errors_total_on_numbers_witness :
  exists toreturn, split_errors Demo.cat = Ok toreturn.
Proof.
  apply (proj1 (split_errors_total_on_numbers Demo.cat
                  (Demo.fcol [2; -1; 3; 0]%Z) eq_refl)).
  reflexivity.
Defined.

Lemma scoring_failure_leaves_object_witness :
  exists e,
    sensitivity_var_check Demo.env Demo.refusing "x" "G" = (Raise e, Demo.refusing).
Proof.
  apply (scoring_failure_leaves_object Demo.env Demo.refusing "x" "G" ScoringError).
  intros d. reflexivity.
Defined.

Lemma empty_category_raises_witness :
  sensitivity_var_check Demo.env Demo.hollow "kind" "G"
  = (Raise IndexError, Demo.hollow).
Proof.
  apply (empty_category_raises Demo.env Demo.hollow "kind" "G"
           (mkCol (Category [Str "A"; Str "B"]) [NaN; NaN])); reflexivity.
Defined.

Lemma error_driver_missing_column_witness :
  exists n, In n ["absent"; "errors"; "predictedYSmooth"; "G"] /\
            lookup n (columns Demo.cat) = None /\
            error_var_check Demo.env (Demo.analysis WhiteBoxError) "absent" "G"
            = Raise (KeyError n).
Proof.
  apply (error_driver_missing_column Demo.env (Demo.analysis WhiteBoxError)
           "absent" "G").
  exists "absent". split; [left; reflexivity|reflexivity].
Defined.

(** ** Forcing a categorical column to its mode *)

Section OneHot.
Context {Json : Type} (env : Env Json).

Lemma filterM_pure {A} (p : A -> result bool) (q : A -> bool) l :
  (forall x, p x = Ok (q x)) -> filterM p l = Ok (filter q l).
Proof.
  intros Hp. induction l as [|x r IH]; simpl; [reflexivity|].
  rewrite Hp, IH. reflexivity.
Qed.

Lemma filterM_str_in m l :
  filterM (str_in (Str m)) l = Ok (filter (contains m) l).
Proof. apply filterM_pure. intros x. reflexivity. Qed.

Lemma filterM_str_not_in m l :
  filterM (fun x => rbind (str_in (Str m) x) (fun b => Ok (negb b))) l
  = Ok (filter (fun x => negb (contains m x)) l).
Proof. apply filterM_pure. intros x. reflexivity. Qed.

Lemma mem_string_filter (p : string -> bool) n l :
  mem_string n (filter p l) = p n && mem_string n l.
Proof.
  unfold mem_string. induction l as [|x r IH]; simpl.
  - rewrite andb_false_r. reflexivity.
  - destruct (p x) eqn:Ep; simpl; rewrite IH.
    + destruct (String.eqb n x) eqn:E; simpl.
      * apply String.eqb_eq in E. subst x. rewrite Ep. reflexivity.
      * reflexivity.
    + destruct (String.eqb n x) eqn:E; simpl; [|reflexivity].
      apply String.eqb_eq in E. subst x. rewrite Ep. reflexivity.
Qed.

Lemma fold_scalar_rows c names : forall (df : DataFrame nat),
  index (fold_left (fun d x => set_col_scalar d x c) names df) = index df.
Proof.
  induction names as [|x r IH]; intros df; simpl; [reflexivity|].
  rewrite IH. reflexivity.
Qed.

Lemma fold_scalar_lookup c names : forall (df : DataFrame nat) n,
  lookup n (columns (fold_left (fun d x => set_col_scalar d x c) names df))
  = if mem_string n names
    then Some (new_col (repeat c (nrows df)))
    else lookup n (columns df).
Proof.
  unfold mem_string.
  induction names as [|x r IH]; intros df n; simpl; [reflexivity|].
  rewrite IH. unfold nrows at 1. simpl. fold (nrows df).
  destruct (existsb (String.eqb n) r); simpl.
  - rewrite orb_true_r. reflexivity.
  - rewrite orb_false_r. destruct (String.eqb n x) eqn:E.
    + apply String.eqb_eq in E. subst x. apply lookup_assoc_set_eq.
    + apply lookup_assoc_set_ne. intros ->. rewrite String.eqb_refl in E.
      discriminate.
Qed.

(** With a mode that is a string, the table the model scores has every
    column picked by the pattern [col_*] forced, in every row, to 1 when
    its name contains the mode and to 0 when it does not; the index and
    every other column are those of the model-input table; and the new
    predictions are the model's scores of that table without the
    dependent variable and the original predictions. *)
Theorem categorical_perturbation_forces_mode (self : WhiteBox Json) col m copydf :
  perturb_categorical env self col = Ok (Str m, copydf) ->
  exists forced preds,
    index forced = index (model_df self) /\
    (forall n,
       get_col forced n
       = if re_search env (col ++ "_*") n
            && mem_string n (column_names (model_df self))
         then Ok (new_col (repeat (Num (if contains m n then 1 else 0))
                                  (nrows (model_df self))))
         else get_col (model_df self) n) /\
    predict (modelobj self) (predictors self forced) = Ok preds /\
    get_col copydf "new_predictions" = Ok (new_col preds) /\
    (forall n, n <> "new_predictions" -> get_col copydf n = get_col forced n).
Proof.
  unfold perturb_categorical. intros H.
  apply rbind_ok in H. destruct H as (c & _ & H).
  apply rbind_ok in H. destruct H as (iv & Hiv & H).
  apply rbind_ok in H. destruct H as (mc & Hmc & H).
  apply rbind_ok in H. destruct H as (nmc & Hnmc & H).
  apply rbind_ok in H. destruct H as (preds & Hp & H).
  apply rbind_ok in H. destruct H as (cdf & Hset & H).
  inversion H; subst iv cdf. clear H.
  rewrite filterM_str_in in Hmc. inversion Hmc; subst mc. clear Hmc.
  change (filterM (fun x => rbind (str_in (Str m) x) (fun b => Ok (negb b)))
            (filter (re_search env (col ++ "_*")) (column_names (model_df self)))
          = Ok nmc) in Hnmc.
  rewrite filterM_str_not_in in Hnmc. inversion Hnmc; subst nmc. clear Hnmc.
  apply set_col_ok in Hset. destruct Hset as [Hlen ->].
  eexists. exists preds. split; [|split; [|split; [exact Hp|split]]].
  - rewrite !fold_scalar_rows. reflexivity.
  - intros n. unfold get_col. rewrite !fold_scalar_lookup.
    unfold nrows. rewrite fold_scalar_rows. fold (nrows (model_df self)).
    rewrite !mem_string_filter.
    destruct (contains m n); simpl;
      destruct (re_search env (col ++ "_*") n); simpl;
      destruct (mem_string n (column_names (model_df self))); reflexivity.
  - unfold get_col. simpl. rewrite lookup_assoc_set_eq. reflexivity.
  - intros n Hn. unfold get_col. simpl.
    rewrite lookup_assoc_set_ne by exact Hn. reflexivity.
Qed.

End OneHot.

Lemma demo_forced_copy :
  perturb_categorical Demo.env (Demo.analysis WhiteBoxSensitivity) "kind"
  = Ok (Str "A", Demo.forced_copy).
Proof. vm_compute. reflexivity. Qed.

Lemma categorical_perturbation_forces_mode_witness :
  exists forced preds,
    index forced = index Demo.mdf /\
    (forall n,
       get_col forced n
       = if re_search Demo.env ("kind" ++ "_*") n
            && mem_string n (column_names Demo.mdf)
         then Ok (new_col (repeat (Num (if contains "A" n then 1 else 0))
                                  (nrows Demo.mdf)))
         else get_col Demo.mdf n) /\
    predict Demo.model (predictors (Demo.analysis WhiteBoxSensitivity) forced)
    = Ok preds /\
    get_col Demo.forced_copy "new_predictions" = Ok (new_col preds) /\
    (forall n, n <> "new_predictions" ->
               get_col Demo.forced_copy n = get_col forced n).
Proof.
  exact (categorical_perturbation_forces_mode Demo.env
           (Demo.analysis WhiteBoxSensitivity) "kind" "A" Demo.forced_copy
           demo_forced_copy).
Defined.

(** ** The reducer of the sensitivity analysis *)

Section SensitivityReducer.
Context {Json : Type}.

Lemma pad_exact vs : pad (List.length vs) vs = vs.
Proof. unfold pad. rewrite Nat.sub_diag. simpl. apply app_nil_r. Qed.

(** In sensitivity mode a bucket of a continuous column is reduced to one
    record per modal value of the group variable, none when the group
    variable is missing throughout; every record carries the largest
    value of the column and the aggregate of the bucket's deltas. *)
Theorem sensitivity_record_fields (self : WhiteBox Json) (group : DataFrame nat)
  g col r :
  col <> g -> col <> "predictedYSmooth" -> g <> "predictedYSmooth" ->
  sensitivity_transform_function self group g col Continuous = Ok r ->
  exists c gc d,
    get_col group col = Ok c /\
    get_col group g = Ok gc /\
    get_col group "diff" = Ok d /\
    record_field r g = Some (series_mode gc) /\
    record_field r col
    = Some (repeat (series_max (col_values c))
                   (List.length (series_mode gc))) /\
    record_field r "predictedYSmooth"
    = Some (repeat (aggregate_func self (col_values d))
                   (List.length (series_mode gc))).
Proof.
  intros Hcg Hcp Hgp. unfold sensitivity_transform_function.
  destruct (negb (mem_string "errors" (column_names group))); [discriminate|].
  intros H.
  apply rbind_ok in H. destruct H as (c & Hc & H).
  apply rbind_ok in H. destruct H as (gc & Hg & H).
  apply rbind_ok in H. destruct H as (d & Hd & H).
  apply rbind_ok in H. destruct H as (f & Hf & H).
  inversion H; subst r. clear H.
  exists c, gc, d. split; [exact Hc|]. split; [exact Hg|]. split; [exact Hd|].
  unfold frame_of_dict in Hf. simpl in Hf.
  assert (E1 : String.eqb col g = false)
    by (apply String.eqb_neq; exact Hcg).
  assert (E2 : String.eqb col "predictedYSmooth" = false)
    by (apply String.eqb_neq; exact Hcp).
  assert (E3 : String.eqb g "predictedYSmooth" = false)
    by (apply String.eqb_neq; exact Hgp).
  rewrite E1 in Hf. simpl in Hf. rewrite E2, E3 in Hf. simpl in Hf.
  rewrite Nat.max_0_r in Hf. inversion Hf; subst f. clear Hf. simpl.
  rewrite E1, String.eqb_refl, E2, E3, !String.eqb_refl.
  simpl. rewrite pad_exact. repeat split; reflexivity.
Qed.

End SensitivityReducer.

Lemma demo_delta_record :
  sensitivity_transform_function (Demo.analysis WhiteBoxSensitivity)
    Demo.scored_cat "G" "x" Continuous = Ok Demo.delta_record.
Proof. vm_compute. reflexivity. Qed.

Lemma sensitivity_record_fields_witness :
  exists c gc d,
    get_col Demo.scored_cat "x" = Ok c /\
    get_col Demo.scored_cat "G" = Ok gc /\
    get_col Demo.scored_cat "diff" = Ok d /\
    record_field Demo.delta_record "G" = Some (series_mode gc) /\
    record_field Demo.delta_record "x"
    = Some (repeat (series_max (col_values c))
                   (List.length (series_mode gc))) /\
    record_field Demo.delta_record "predictedYSmooth"
    = Some (repeat (series_mean (col_values d))
                   (List.length (series_mode gc))).
Proof.
  apply (sensitivity_record_fields (Json:=Demo.json)
           (Demo.analysis WhiteBoxSensitivity) Demo.scored_cat "G" "x").
  - discriminate.
  - discriminate.
  - discriminate.
  - exact demo_delta_record.
Defined.

(** ** Appending to the accumulators *)

Section Appending.
Context {Json : Type}.

Lemma mem_string_In n l : mem_string n l = true <-> In n l.
Proof.
  unfold mem_string. rewrite existsb_exists. split.
  - intros (x & Hx & E). apply String.eqb_eq in E. subst x. exact Hx.
  - intros H. exists n. split; [exact H|apply String.eqb_refl].
Qed.

Lemma lookup_In_names {V} n (l : list (string * V)) v :
  lookup n l = Some v -> In n (map fst l).
Proof.
  intros H. apply mem_string_In. exact (lookup_mem _ _ _ H).
Qed.

Lemma lookup_map_key {V} (f : string -> V) n names :
  In n names -> lookup n (map (fun x => (x, f x)) names) = Some (f n).
Proof.
  induction names as [|x r IH]; simpl; [contradiction|].
  intros Hin. destruct (String.eqb x n) eqn:E.
  - apply String.eqb_eq in E. subst x. reflexivity.
  - apply IH. destruct Hin as [->|Hin]; [|exact Hin].
    rewrite String.eqb_refl in E. discriminate.
Qed.

Lemma lookup_filter_names {V} (p : string -> bool) n (l : list (string * V)) :
  p n = true ->
  lookup n (filter (fun kv => p (fst kv)) l) = lookup n l.
Proof.
  intros Hp. induction l as [|[k v] r IH]; simpl; [reflexivity|].
  destruct (p k) eqn:Ek; simpl.
  - destruct (String.eqb k n); [reflexivity|exact IH].
  - destruct (String.eqb k n) eqn:E; [|exact IH].
    apply String.eqb_eq in E. congruence.
Qed.

Lemma df_append_rows (a b : DataFrame nat) :
  nrows (df_append a b) = (nrows a + nrows b)%nat.
Proof. unfold df_append, nrows. simpl. apply length_app. Qed.

Lemma df_append_col (a b : DataFrame nat) n :
  In n (column_names b) ->
  get_col (df_append a b) n = Ok (new_col (col_or_nan a n ++ col_or_nan b n)).
Proof.
  intros Hb. unfold get_col, df_append. simpl.
  rewrite (lookup_map_key (fun x => new_col (col_or_nan a x ++ col_or_nan b x)));
    [reflexivity|].
  apply in_or_app. destruct (mem_string n (column_names a)) eqn:E.
  - left. apply mem_string_In. exact E.
  - right. apply filter_In. split; [exact Hb|]. rewrite E. reflexivity.
Qed.

Lemma df_append_names (a b : DataFrame nat) n :
  In n (column_names (df_append a b)) ->
  In n (column_names a) \/ In n (column_names b).
Proof.
  unfold df_append, column_names. simpl. rewrite map_map. simpl. rewrite map_id.
  intros H. apply in_app_or in H. destruct H as [H|H]; [left; exact H|].
  right. apply filter_In in H. tauto.
Qed.

(** [fmt_raw_df] appends the slice to [raw_df], one row per row of the
    slice, tagged in every appended row with the column and the group
    variable, and never brings in the working column [fixed_bins]; it
    writes nothing else of the object. *)
Theorem fmt_raw_df_appends (self : WhiteBox Json) col g (grp : DataFrame nat) :
  let self' := fmt_raw_df self col g grp in
  agg_df self' = agg_df self /\
  outputs self' = outputs self /\
  cat_df self' = cat_df self /\
  nrows (raw_df self') = (nrows (raw_df self) + nrows grp)%nat /\
  get_col (raw_df self') "col_name"
  = Ok (new_col (col_or_nan (raw_df self) "col_name"
                 ++ repeat (Str col) (nrows grp))) /\
  get_col (raw_df self') "groupByVar"
  = Ok (new_col (col_or_nan (raw_df self) "groupByVar"
                 ++ repeat (Str g) (nrows grp))) /\
  (~ In "fixed_bins" (column_names (raw_df self)) ->
   ~ In "fixed_bins" (column_names (raw_df self'))).
Proof.
  cbv zeta. unfold fmt_raw_df. cbn [agg_df outputs cat_df raw_df set_accumulators].
  set (base := reset_index_drop
                 (rename_columns [(g, "groupby_level"); (col, "col_value")] grp)).
  set (tagged := set_col_scalar (set_col_scalar base "groupByVar" (Str g))
                                "col_name" (Str col)).
  set (raw := drop_cols ["fixed_bins"] tagged).
  assert (Hn : nrows raw = nrows grp).
  { unfold raw, tagged, base, nrows, drop_cols, set_col_scalar, reset_index_drop.
    cbn [index]. apply length_seq. }
  assert (Hc : lookup "col_name" (columns raw)
               = Some (new_col (repeat (Str col) (nrows grp)))).
  { unfold raw, drop_cols. cbn [columns].
    rewrite (lookup_filter_names (fun n => negb (mem_string n ["fixed_bins"])))
      by reflexivity.
    unfold tagged, set_col_scalar. cbn [columns index].
    rewrite lookup_assoc_set_eq. unfold nrows, base, reset_index_drop.
    cbn [index]. rewrite length_seq. reflexivity. }
  assert (Hg : lookup "groupByVar" (columns raw)
               = Some (new_col (repeat (Str g) (nrows grp)))).
  { unfold raw, drop_cols. cbn [columns].
    rewrite (lookup_filter_names (fun n => negb (mem_string n ["fixed_bins"])))
      by reflexivity.
    unfold tagged, set_col_scalar. cbn [columns index].
    rewrite lookup_assoc_set_ne by discriminate.
    rewrite lookup_assoc_set_eq. unfold nrows, base, reset_index_drop.
    cbn [index]. rewrite length_seq. reflexivity. }
  split; [reflexivity|]. split; [reflexivity|]. split; [reflexivity|].
  split; [rewrite df_append_rows, Hn; reflexivity|].
  split; [|split].
  - rewrite df_append_col by (eapply lookup_In_names; exact Hc).
    unfold col_or_nan at 2. rewrite Hc. reflexivity.
  - rewrite df_append_col by (eapply lookup_In_names; exact Hg).
    unfold col_or_nan at 2. rewrite Hg. reflexivity.
  - intros Hno Hin. apply df_append_names in Hin.
    destruct Hin as [Hin|Hin]; [exact (Hno Hin)|].
    unfold raw, drop_cols, column_names in Hin. simpl in Hin.
    apply in_map_iff in Hin. destruct Hin as ([k v] & Ek & Hin).
    apply filter_In in Hin. destruct Hin as [_ Hp]. simpl in Ek, Hp. subst k.
    discriminate.
Qed.

(** [fmt_agg_df] appends the aggregated slice to [agg_df], one row per
    row of the slice, tagged with the column, and writes nothing else of
    the object. *)
Theorem fmt_agg_df_appends (self : WhiteBox Json) col (agg_errors : DataFrame nat) :
  let self' := fmt_agg_df self col agg_errors in
  raw_df self' = raw_df self /\
  outputs self' = outputs self /\
  cat_df self' = cat_df self /\
  nrows (agg_df self') = (nrows (agg_df self) + nrows agg_errors)%nat /\
  get_col (agg_df self') "col_name"
  = Ok (new_col (col_or_nan (agg_df self) "col_name"
                 ++ repeat (Str col) (nrows agg_errors))).
Proof.
  cbv zeta. unfold fmt_agg_df. cbn [agg_df outputs cat_df raw_df set_accumulators].
  set (debug := set_col_scalar (rename_columns [(col, "col_value")] agg_errors)
                               "col_name" (Str col)).
  assert (Hc : lookup "col_name" (columns debug)
               = Some (new_col (repeat (Str col) (nrows agg_errors)))).
  { unfold debug, set_col_scalar. cbn [columns index].
    rewrite lookup_assoc_set_eq. reflexivity. }
  split; [reflexivity|]. split; [reflexivity|]. split; [reflexivity|].
  split; [rewrite df_append_rows; reflexivity|].
  rewrite df_append_col by (eapply lookup_In_names; exact Hc).
  unfold col_or_nan at 2. rewrite Hc. reflexivity.
Qed.

End Appending.

Lemma fmt_raw_df_appends_witness :
  ~ In "fixed_bins"
       (column_names (raw_df (fmt_raw_df (Demo.analysis WhiteBoxError) "x" "G"
                                         (snd (hd ([], Demo.cat) Demo.buckets))))).
Proof.
  apply (fmt_raw_df_appends (Json:=Demo.json) (Demo.analysis WhiteBoxError)
           "x" "G" (snd (hd ([], Demo.cat) Demo.buckets))).
  simpl. intros H. exact H.
Defined.

(** ** What construction establishes *)

Section Established.
Context {Json : Type} (env : Env Json).

Lemma init_inv cls n a (self : WhiteBox Json) :
  fst (WhiteBoxBase_init env cls n a) = Ok self ->
  called_class self = cls /\
  std_num self = n /\
  error_type self = a_error_type a /\
  mem_string (a_error_type a) (supported_agg_errors env) = true /\
  (exists g gs, a_groupbyvars a = Some (g :: gs) /\ groupbyvars self = g :: gs) /\
  model_df self = reset_index_drop (a_model_df a) /\
  ydepend self = a_ydepend a /\
  check_modelobj env (a_modelobj a) = Ok (modelobj self) /\
  check_agg_func env (a_aggregate_func a) = Ok (aggregate_func self).
Proof.
  unfold WhiteBoxBase_init. intros H.
  apply tbind_ok in H. destruct H as (u & _ & H).
  destruct (mem_string (a_error_type a) (supported_agg_errors env)) eqn:Ee;
    simpl in H; [|discriminate].
  destruct (a_groupbyvars a) as [[|g gvs]|]; try discriminate.
  apply tbind_ok in H. destruct H as (m0 & Hm0 & H).
  apply tbind_ok in H. destruct H as (c0 & _ & H).
  apply tbind_ok in H. destruct H as (c1 & _ & H).
  apply tbind_ok in H. destruct H as (c2 & _ & H).
  apply tbind_ok in H. destruct H as (keep & _ & H).
  apply tbind_ok in H. destruct H as (c3 & _ & H).
  apply tbind_ok in H. destruct H as (m & Hm & H).
  apply tbind_ok in H. destruct H as (u' & _ & H).
  destruct (is_regression env (a_modelobj a)) as [engine mtype].
  apply tbind_ok in H. destruct H as (agg & Hagg & H).
  apply tbind_ok in H. destruct H as ([pcts gpcts] & _ & H).
  apply tbind_ok in H. destruct H as (c4 & _ & H).
  simpl in H, Hm0, Hm, Hagg. inversion H; subst self. inversion Hm0; subst m0.
  simpl. repeat split; try assumption; try reflexivity.
  exists g, gvs. split; reflexivity.
Qed.

(** An object the base constructor returns is of the class under
    construction and keeps its [std_num]; its error metric is the one
    given and is supported; it has at least one group variable; its model
    table is the caller's, re-indexed from 0, with its columns as they
    were; its accumulators are empty and it has no [outputs]. *)
Theorem base_constructor_establishes cls n a (self : WhiteBox Json) :
  fst (WhiteBoxBase_init env cls n a) = Ok self ->
  called_class self = cls /\
  std_num self = n /\
  error_type self = a_error_type a /\
  mem_string (a_error_type a) (supported_agg_errors env) = true /\
  (exists g gs, a_groupbyvars a = Some (g :: gs) /\ groupbyvars self = g :: gs) /\
  index (model_df self) = seq 0 (nrows (a_model_df a)) /\
  columns (model_df self) = columns (a_model_df a) /\
  accumulators self = (empty_frame, empty_frame) /\
  outputs self = None.
Proof.
  intros H. destruct (init_fresh env _ _ _ _ H) as [Hacc Hout].
  apply init_inv in H.
  destruct H as (Hc & Hn & He & Hs & Hg & Hm & _).
  rewrite Hm. repeat split; assumption || reflexivity.
Qed.

(** Neither public constructor returns an object.  Both hand the keyword
    [featuredict] to the base constructor, which declares
    [keepfeaturelist] instead: [WhiteBoxError] raises [TypeError], and so
    does [WhiteBoxSensitivity] once [std_num] has passed its check; in
    both cases before any table is copied or any helper called. *)
Theorem public_constructors_raise (s : SubArgs) n :
  WhiteBoxError_init env s = (Raise TypeError, []) /\
  (valid_std_num n = true ->
   WhiteBoxSensitivity_init env s n = (Raise TypeError, [])) /\
  (valid_std_num n = false ->
   exists msg, WhiteBoxSensitivity_init env s n = (Raise (ValueError msg), [])) /\
  existsb (String.eqb "featuredict") base_init_params = false.
Proof.
  split; [reflexivity|]. split; [|split; [|reflexivity]].
  - intros H. unfold WhiteBoxSensitivity_init. rewrite H. reflexivity.
  - intros H. unfold WhiteBoxSensitivity_init. rewrite H. eexists. reflexivity.
Qed.

Lemma map_nth_seq {A} (f : cell -> A) vals :
  map (fun i => f (nth i vals NaN)) (seq 0 (List.length vals)) = map f vals.
Proof.
  induction vals as [|v r IH]; simpl; [reflexivity|].
  f_equal. rewrite <- seq_shift, map_map. exact IH.
Qed.

Lemma insert_u_map {A B} (f : A -> B) (ltA eqA : A -> A -> bool)
  (ltB eqB : B -> B -> bool) x l :
  (forall a b, ltB (f a) (f b) = ltA a b) ->
  (forall a b, eqB (f a) (f b) = eqA a b) ->
  insert_u ltB eqB (f x) (map f l) = map f (insert_u ltA eqA x l).
Proof.
  intros Hlt Heq. induction l as [|y r IH]; simpl; [reflexivity|].
  rewrite Heq, Hlt. destruct (eqA x y); [reflexivity|].
  destruct (ltA x y); [reflexivity|]. simpl. rewrite IH. reflexivity.
Qed.

Lemma sort_u_map {A B} (f : A -> B) (ltA eqA : A -> A -> bool)
  (ltB eqB : B -> B -> bool) l :
  (forall a b, ltB (f a) (f b) = ltA a b) ->
  (forall a b, eqB (f a) (f b) = eqA a b) ->
  sort_u ltB eqB (map f l) = map f (sort_u ltA eqA l).
Proof.
  intros Hlt Heq. induction l as [|x r IH]; simpl; [reflexivity|].
  rewrite IH. apply insert_u_map; assumption.
Qed.

Lemma valid_keys_numeric vals :
  forallb is_numeric_cell vals = true ->
  filter key_valid (map (fun v => [v]) vals)
  = map (fun q => [Num q]) (nums vals).
Proof.
  induction vals as [|v r IH]; simpl; intros H; [reflexivity|].
  apply andb_true_iff in H. destruct H as [Hv Hr].
  destruct v; simpl in *; try discriminate; rewrite (IH Hr); reflexivity.
Qed.

(** The keys of a grouping by one numeric column: the distinct values of
    the column in ascending order, missing values left out. *)
Lemma group_keys_numeric dt vals :
  match dt with Category _ => False | _ => True end ->
  forallb is_numeric_cell vals = true ->
  group_keys [dt] (map (fun v => [v]) vals)
  = map (fun q => [Num q]) (sort_u Qltb Qeq_bool (nums vals)).
Proof.
  intros Hdt H. unfold group_keys. rewrite (valid_keys_numeric _ H).
  apply sort_u_map.
  - intros a b. simpl. rewrite andb_false_r, orb_false_r.
    destruct dt; [reflexivity|reflexivity|contradiction].
  - intros a b. unfold key_eqb. simpl. apply andb_true_r.
Qed.

Lemma insert_u_In {A} (ltb eqb : A -> A -> bool) y x l :
  In y (insert_u ltb eqb x l) -> y = x \/ In y l.
Proof.
  induction l as [|z r IH]; simpl.
  - intros [H|[]]; left; symmetry; exact H.
  - destruct (eqb x z); [intros H; right; exact H|].
    destruct (ltb x z); simpl.
    + intros [H|H]; [left; symmetry; exact H|right; exact H].
    + intros [H|H]; [right; left; exact H|].
      destruct (IH H) as [E|E]; [left; exact E|right; right; exact E].
Qed.

Lemma sort_u_In {A} (ltb eqb : A -> A -> bool) y l :
  In y (sort_u ltb eqb l) -> In y l.
Proof.
  induction l as [|x r IH]; simpl; [tauto|].
  intros H. apply insert_u_In in H. destruct H as [->|H]; [left; reflexivity|].
  right. apply IH. exact H.
Qed.

Lemma nums_In q vals : In q (nums vals) <-> In (Num q) vals.
Proof.
  induction vals as [|v r IH]; simpl; [tauto|].
  destruct v; simpl; rewrite IH; split; intros H.
  - destruct H as [->|H]; [left; reflexivity|right; exact H].
  - destruct H as [H|H]; [inversion H; left; reflexivity|right; exact H].
  - right. exact H.
  - destruct H as [H|H]; [discriminate|exact H].
  - right. exact H.
  - destruct H as [H|H]; [discriminate|exact H].
Qed.

Lemma filter_absent k l : ~ In k l -> filter (String.eqb k) l = [].
Proof.
  induction l as [|x r IH]; simpl; intros Hn; [reflexivity|].
  destruct (String.eqb k x) eqn:E.
  - apply String.eqb_eq in E. exfalso. apply Hn. left. symmetry. exact E.
  - apply IH. intros Hin. apply Hn. right. exact Hin.
Qed.

Lemma count_assoc_set {V} k (v : V) l :
  NoDup (map fst l) ->
  List.length (filter (String.eqb k) (map fst (assoc_set k v l))) = 1%nat.
Proof.
  induction l as [|[k0 w] r IH]; simpl; intros Hnd.
  - rewrite String.eqb_refl. reflexivity.
  - inversion Hnd as [|? ? Hni Hnd']; subst.
    destruct (String.eqb k0 k) eqn:E; simpl.
    + apply String.eqb_eq in E. subst k0. rewrite String.eqb_refl. simpl.
      rewrite (filter_absent _ _ Hni). reflexivity.
    + rewrite (String.eqb_sym k k0), E. apply IH. exact Hnd'.
Qed.

(** A column just assigned is a valid group key when the names of the
    frame were pairwise distinct. *)
Lemma key_col_assigned {L} (df : DataFrame L) name c :
  NoDup (column_names df) ->
  key_col (set_col_own df name c) name = Ok c.
Proof.
  intros Hnd. unfold key_col, get_col, set_col_own, column_names.
  cbn [columns]. rewrite lookup_assoc_set_eq. cbn [rbind].
  rewrite (count_assoc_set name c _ Hnd). reflexivity.
Qed.

(** A group of at most 100 rows is not binned, whatever the percentile
    helper would return: the bucket of a row is its raw value.  For a
    numeric column the buckets are keyed by the values of the column,
    each value once, in strictly ascending order; a bucket holds exactly
    the rows with its value, and the rows without a value are in no
    bucket. *)
Theorem small_group_buckets {L} (group : DataFrame L) col c :
  (nrows group <= 100)%nat ->
  NoDup (column_names group) ->
  List.length (col_values c) = nrows group ->
  get_col (reset_index_drop group) col = Ok c ->
  is_categorical_dtype c = false ->
  forallb is_numeric_cell (col_values c) = true ->
  let frame := set_col_own (reset_index_drop group) "fixed_bins" c in
  let keys := sort_u Qltb Qeq_bool (nums (col_values c)) in
  fixed_bins env c (nrows group) = Ok c /\
  groupby ["fixed_bins"] frame
  = Ok (map (fun q =>
               ([Num q],
                take_rows (map (cell_eqb (Num q)) (col_values c)) frame))
            keys) /\
  StronglySorted Qlt keys /\
  (forall q, In q keys -> In (Num q) (col_values c)) /\
  (forall q, In (Num q) (col_values c) -> InA Qeq q keys) /\
  (forall q, cell_eqb (Num q) NaN = false).
Proof.
  intros Hn Hnd Hlen Hc Hcat Hnum frame keys.
  split; [|split; [|split; [|split; [|split]]]].
  - unfold fixed_bins.
    destruct (Nat.ltb 100 (nrows group)) eqn:E; [|reflexivity].
    apply Nat.ltb_lt in E. lia.
  - unfold groupby, frame. cbn [mapM].
    rewrite (key_col_assigned (reset_index_drop group) "fixed_bins" c Hnd).
    cbn [rbind map].
    unfold row_keys, nrows, reset_index_drop, set_col_own. cbn [index map].
    rewrite length_seq. fold (nrows group). rewrite <- Hlen.
    rewrite (map_nth_seq (fun v => [v]) (col_values c)).
    rewrite (group_keys_numeric (col_dtype c) _) by
      first [exact Hnum
            |unfold is_categorical_dtype in Hcat;
             destruct (col_dtype c); [exact I|exact I|discriminate]].
    rewrite map_map. f_equal.
    apply map_ext. intros q. f_equal. f_equal. rewrite map_map.
    apply map_ext. intros v. unfold key_eqb. simpl. apply andb_true_r.
  - apply sort_u_strongly_sorted.
  - intros q Hq. apply nums_In. exact (sort_u_In _ _ _ _ Hq).
  - intros q Hq. apply sort_u_InA. apply In_InA; [exact Q_Setoid|].
    apply nums_In. exact Hq.
  - reflexivity.
Qed.

End Established.

Lemma base_constructor_establishes_witness :
  called_class Demo.built = WhiteBoxSensitivity /\
  std_num Demo.built = 1%Z /\
  error_type Demo.built = "RMSE" /\
  mem_string "RMSE" (supported_agg_errors Demo.env) = true /\
  (exists g gs, a_groupbyvars Demo.init_args = Some (g :: gs) /\
                groupbyvars Demo.built = g :: gs) /\
  index (model_df Demo.built) = seq 0 (nrows Demo.mdf) /\
  columns (model_df Demo.built) = columns Demo.mdf /\
  accumulators Demo.built = (empty_frame, empty_frame) /\
  outputs Demo.built = None.
Proof.
  exact (base_constructor_establishes Demo.env WhiteBoxSensitivity 1
           Demo.init_args Demo.built demo_built).
Defined.

Lemma public_constructors_raise_witness :
  WhiteBoxSensitivity_init Demo.env Demo.args 1 = (Raise TypeError, []).
Proof.
  apply (proj1 (proj2 (public_constructors_raise Demo.env Demo.args 1))).
  reflexivity.
Defined.

(** Column [x] of the demo table: four rows, four buckets keyed 10, 20,
    30 and 40. *)
Lemma small_group_buckets_witness :
  let c := Demo.fcol [10; 20; 30; 40]%Z in
  let frame := set_col_own (reset_index_drop Demo.cat) "fixed_bins" c in
  let keys := sort_u Qltb Qeq_bool (nums (col_values c)) in
  fixed_bins Demo.env c (nrows Demo.cat) = Ok c /\
  groupby ["fixed_bins"] frame
  = Ok (map (fun q =>
               ([Num q],
                take_rows (map (cell_eqb (Num q)) (col_values c)) frame))
            keys) /\
  StronglySorted Qlt keys /\
  (forall q, In q keys -> In (Num q) (col_values c)) /\
  (forall q, In (Num q) (col_values c) -> InA Qeq q keys) /\
  (forall q, cell_eqb (Num q) NaN = false).
Proof.
  apply (small_group_buckets Demo.env Demo.cat "x" (Demo.fcol [10; 20; 30; 40]%Z)).
  - apply Nat.leb_le. reflexivity.
  - simpl. repeat constructor; simpl; intuition discriminate.
  - reflexivity.
  - reflexivity.
  - reflexivity.
  - reflexivity.
Defined.

(** ** The whole record of the error reducer *)

Section ErrorRecord.
Context {Json : Type}.

Lemma assoc_set_fresh {V} k (v : V) l :
  ~ In k (map fst l) -> assoc_set k v l = l ++ [(k, v)].
Proof.
  induction l as [|[k0 w] r IH]; simpl; intros Hn; [reflexivity|].
  destruct (String.eqb k0 k) eqn:E.
  - apply String.eqb_eq in E. exfalso. apply Hn. left. exact E.
  - rewrite IH; [reflexivity|]. intros Hin. apply Hn. right. exact Hin.
Qed.

Lemma lookup_present {V} n (l : list (string * V)) v :
  lookup n l = Some v -> In (n, v) l.
Proof.
  induction l as [|[k w] r IH]; simpl; [discriminate|].
  destruct (String.eqb k n) eqn:E.
  - apply String.eqb_eq in E. intros H. inversion H; subst. left. reflexivity.
  - intros H. right. apply IH. exact H.
Qed.

(** In error mode a bucket of a continuous column is reduced to one
    record per modal value of the group variable; every record carries
    the largest value of the column and the mean of the bucket's
    predictions. *)
Theorem error_record_fields (self : WhiteBox Json) (group : DataFrame nat)
  g col r errs c gc :
  StronglySorted lt (index group) ->
  well_formed group ->
  get_col group "errors" = Ok errs ->
  get_col group col = Ok c ->
  get_col group g = Ok gc ->
  NoDup [col; g; "predictedYSmooth"; "errPos"; "errNeg"; "errors"] ->
  error_transform_function self group g col Continuous = Ok r ->
  exists preds,
    get_col group "predictedYSmooth" = Ok preds /\
    record_field r g = Some (series_mode gc) /\
    record_field r col
    = Some (repeat (series_max (col_values c))
                   (List.length (series_mode gc))) /\
    record_field r "predictedYSmooth"
    = Some (repeat (series_mean (col_values preds))
                   (List.length (series_mode gc))).
Proof.
  intros Hs Hw Herr Hcol Hg Hnd Hrun.
  assert (Hlen : forall n x, get_col group n = Ok x ->
                             List.length (col_values x) = nrows group).
  { intros n x Hx. apply get_col_ok, lookup_present in Hx.
    unfold well_formed in Hw. rewrite Forall_forall in Hw. exact (Hw _ Hx). }
  inversion Hnd as [|? ? N1 Hnd1]; subst.
  inversion Hnd1 as [|? ? N2 Hnd2]; subst. clear Hnd Hnd1 Hnd2.
  assert (Hcg : col <> g) by (intros E; apply N1; rewrite E; simpl; auto 10).
  assert (Hcp : col <> "predictedYSmooth")
    by (intros E; apply N1; rewrite E; simpl; auto 10).
  assert (Hc1' : col <> "errPos") by (intros E; apply N1; rewrite E; simpl; auto 10).
  assert (Hc2' : col <> "errNeg") by (intros E; apply N1; rewrite E; simpl; auto 10).
  assert (Hce : col <> "errors") by (intros E; apply N1; rewrite E; simpl; auto 10).
  assert (Hgp : g <> "predictedYSmooth")
    by (intros E; apply N2; rewrite E; simpl; auto 10).
  assert (Hg1' : g <> "errPos") by (intros E; apply N2; rewrite E; simpl; auto 10).
  assert (Hg2' : g <> "errNeg") by (intros E; apply N2; rewrite E; simpl; auto 10).
  assert (Hge : g <> "errors") by (intros E; apply N2; rewrite E; simpl; auto 10).
  clear N1 N2.
  unfold error_transform_function, column_names in Hrun.
  rewrite (lookup_mem _ _ _ (get_col_ok _ _ _ Herr)) in Hrun. simpl in Hrun.
  apply rbind_ok in Hrun. destruct Hrun as (toreturn & Hsplit & Hrun).
  destruct (split_errors_ok _ _ _ Hs Herr (Hlen _ _ Herr) Hsplit)
    as (_ & Hidx & Hcols).
  pose proof (ascending_NoDup _ Hs) as Hnodup.
  assert (Hread : forall n x, n <> "errors" -> get_col group n = Ok x ->
                              get_col toreturn n = Ok x).
  { intros n x Hne Hx. unfold get_col. rewrite Hcols, lookup_app.
    rewrite (lookup_map_values n (reindex_col (index group) (index group))).
    unfold drop_cols. cbn [columns].
    rewrite (lookup_filter_names (fun k => negb (mem_string k ["errors"]))).
    - rewrite (get_col_ok _ _ _ Hx). simpl. unfold reindex_col.
      rewrite reindex_self; [destruct x; reflexivity|exact Hnodup|].
      exact (Hlen _ _ Hx).
    - simpl. destruct (String.eqb n "errors") eqn:E; [|reflexivity].
      apply String.eqb_eq in E. contradiction. }
  apply rbind_ok in Hrun. destruct Hrun as (c1 & Hc1 & Hrun).
  apply rbind_ok in Hrun. destruct Hrun as (g1 & Hg1 & Hrun).
  apply rbind_ok in Hrun. destruct Hrun as (p1 & Hp1 & Hrun).
  apply rbind_ok in Hrun. destruct Hrun as (ep & _ & Hrun).
  apply rbind_ok in Hrun. destruct Hrun as (en & _ & Hrun).
  apply rbind_ok in Hrun. destruct Hrun as (d & Hd & Hrun).
  inversion Hrun; subst r. clear Hrun.
  rewrite (Hread _ _ Hce Hcol) in Hc1.
  rewrite (Hread _ _ Hge Hg) in Hg1.
  inversion Hc1; subst c1. inversion Hg1; subst g1. clear Hc1 Hg1.
  assert (Hpreds : exists preds, get_col group "predictedYSmooth" = Ok preds /\ p1 = preds).
  { unfold get_col in Hp1. rewrite Hcols, lookup_app in Hp1.
    rewrite (lookup_map_values "predictedYSmooth"
               (reindex_col (index group) (index group))) in Hp1.
    unfold drop_cols in Hp1. cbn [columns] in Hp1.
    rewrite (lookup_filter_names (fun k => negb (mem_string k ["errors"])))
      in Hp1 by reflexivity.
    unfold get_col.
    destruct (lookup "predictedYSmooth" (columns group)) as [x|] eqn:Ex.
    - exists x. split; [reflexivity|]. simpl in Hp1. inversion Hp1.
      unfold reindex_col. rewrite reindex_self; [destruct x; reflexivity|exact Hnodup|].
      apply (Hlen "predictedYSmooth"). unfold get_col. rewrite Ex. reflexivity.
    - simpl in Hp1. discriminate. }
  destruct Hpreds as (preds & Hpreds & ->).
  exists preds. split; [exact Hpreds|].
  unfold frame_of_dict in Hd. cbn [rev app dict_of] in Hd.
  rewrite (assoc_set_fresh g) in Hd by (simpl; intuition congruence).
  rewrite (assoc_set_fresh "predictedYSmooth") in Hd by (simpl; intuition congruence).
  rewrite (assoc_set_fresh "errPos") in Hd by (simpl; intuition congruence).
  rewrite (assoc_set_fresh "errNeg") in Hd by (simpl; intuition congruence).
  simpl in Hd. rewrite Nat.max_0_r in Hd. inversion Hd; subst d. clear Hd.
  assert (E1 : String.eqb col g = false) by (apply String.eqb_neq; exact Hcg).
  assert (E2 : String.eqb col "predictedYSmooth" = false)
    by (apply String.eqb_neq; exact Hcp).
  assert (E3 : String.eqb g "predictedYSmooth" = false)
    by (apply String.eqb_neq; exact Hgp).
  simpl. rewrite E1, E2, E3, !String.eqb_refl. simpl.
  rewrite pad_exact. repeat split; reflexivity.
Qed.

End ErrorRecord.

(** ** Saving before a run *)

Section Saving.
Context {Json : Type} (env : Env Json).

(** [_save] never changes the object; called before any run on a
    regression analysis it raises [AttributeError], because
    [self.outputs] does not exist yet, and writes nothing. *)
Theorem save_needs_outputs (self : WhiteBox Json) path :
  (forall r self' t, _save env path self = (r, self', t) -> self' = self) /\
  (model_type self <> "classification" -> outputs self = None ->
   _save env path self = (Raise AttributeError, self, [])).
Proof.
  split.
  - intros r self' t H.
    exact (preserves_save env (fun s => s = self) path _ _ _ _ H eq_refl).
  - intros Hm Ho. unfold _save, mbind, mlift.
    apply String.eqb_neq in Hm. rewrite Hm, Ho. reflexivity.
Qed.

End Saving.

Lemma save_needs_outputs_witness :
  _save Demo.env "report.html" Demo.built = (Raise AttributeError, Demo.built, []).
Proof.
  apply (save_needs_outputs Demo.env Demo.built "report.html").
  - discriminate.
  - reflexivity.
Defined.

Lemma error_record_fields_witness :
  exists preds,
    get_col Demo.cat "predictedYSmooth" = Ok preds /\
    record_field Demo.bucket_record "G"
    = Some (series_mode (Demo.ccol ["a"] ["a"; "a"; "a"; "a"])) /\
    record_field Demo.bucket_record "x"
    = Some (repeat (series_max (col_values (Demo.fcol [10; 20; 30; 40]%Z)))
                   (List.length (series_mode (Demo.ccol ["a"] ["a"; "a"; "a"; "a"])))) /\
    record_field Demo.bucket_record "predictedYSmooth"
    = Some (repeat (series_mean (col_values preds))
                   (List.length (series_mode (Demo.ccol ["a"] ["a"; "a"; "a"; "a"])))).
Proof.
  apply (error_record_fields (Json:=Demo.json) (Demo.analysis WhiteBoxError)
           Demo.cat "G" "x" Demo.bucket_record (Demo.fcol [2; -1; 3; 0]%Z)).
  - exact demo_index_ascending.
  - exact demo_well_formed.
  - reflexivity.
  - reflexivity.
  - reflexivity.
  - repeat constructor; simpl; intuition discriminate.
  - exact demo_bucket_record.
Defined.

(** ** The aggregates of the split errors *)

Section ErrorAggregates.
Context {Json : Type}.




End ErrorAggregates.


